(** * Inventory-intelligence backend: a shallow embedding and its properties

    The development follows the Python sources module by module:
    - [models/tenant_db.py]            -> [Module Tenant]
    - [services/get_config.py]         -> [Module GetConfig]
    - [services/snapshot_service.py]   -> [Module SnapshotService]
    - [utils/calculate_alerts_days.py] and the helpers of
      [routers/metrics_router.py] and
      [services/metric_report_service.py]
                                       -> [Module AlertDays]
    - [schemas/metric_schemas.py], [routers/metrics_router.py]
                                       -> [Module MetricsRouter]
    - [routers/auth_router.py], [routers/user_router.py],
      [crud/user_crud.py], [core/security.py], [core/config.py]
                                       -> [Module Auth]
    - [routers/transaction_router.py]  -> [Module TransactionRouter]

    Conventions.  A [datetime.date] is its proleptic ordinal, an integer
    ([date - timedelta(days=n)] is [d - n]).  Python [int]s are [Z].  A
    table with a unique constraint is a finite map keyed by the constrained
    columns, any other table is the list of its rows in storage order.
    Python exceptions are the [Raise] results of [result].

    What the embedding leaves out.  A date is any integer: the bounds of
    [datetime.date] and the [OverflowError] of a date subtraction appear
    only where [date_minus_days] is used.  [Decimal] arithmetic is exact:
    the context precision of 28 digits and the rounding of a
    [Numeric(12, 2)] column are not modelled.  Integer and string columns
    have no width.  [ORDER BY] on a column with equal values keeps the
    storage order.  The properties that these touch are stated for
    evaluations and runs that complete, and under hypotheses that keep to
    the inputs on which the code does not depend on them: windows whose
    first day is a date, windows without sales, lines whose times fix
    their order ([tie_free]).

    The definitions come first, one module per source module; the
    properties follow in the modules [GetConfigSpec], [SnapshotServiceSpec],
    [AlertDaysSpec], [MetricsRouterSpec], [AuthSpec] and
    [TransactionRouterSpec]. *)

From stdpp Require Import base decidable option list gmap strings countable fin_maps sorting.
From Stdlib Require Import ZArith QArith PrimFloat Lia.

Open Scope Z_scope.

(** ** Exceptions and the error monad *)

Inductive exn : Type :=
  | MultipleResultsFound
  | AttributeError (module_name attr : string)
  | KeyError (key : string)
  | TypeError
  | IndexError
  | OverflowError
  | HTTPException (status_code : Z) (detail : string).

Inductive result (A : Type) : Type :=
  | Ok (a : A)
  | Raise (e : exn).
Arguments Ok {A} a.
Arguments Raise {A} e.

Definition rbind {A B : Type} (m : result A) (k : A -> result B) : result B :=
  match m with
  | Ok a => k a
  | Raise e => Raise e
  end.

#[global] Instance result_ret : MRet result := fun _ a => Ok a.
#[global] Instance result_bind : MBind result := fun _ _ k m => rbind m k.

(** A [for] loop whose body may raise. *)
Fixpoint for_each {St A : Type} (body : St -> A -> result St)
    (st : St) (l : list A) : result St :=
  match l with
  | [] => Ok st
  | a :: l' => st' ← body st a; for_each body st' l'
  end.

Abbreviation date := Z.

(** [date.min.toordinal()] and [date.max.toordinal()]. *)
Definition date_min : Z := 1.
Definition date_max : Z := 3652059.

(** The bound of [timedelta(days=n)]. *)
Definition timedelta_max_days : Z := 999999999.

(** [d - timedelta(days=n)]: [OverflowError] when [n] is not a number of
    days a [timedelta] holds or the result is not a date. *)
Definition date_minus_days (d : date) (n : Z) : result date :=
  if bool_decide (- timedelta_max_days <= n <= timedelta_max_days) then
    if bool_decide (date_min <= d - n <= date_max) then Ok (d - n)
    else Raise OverflowError
  else Raise OverflowError.

(** A dictionary keyed by a field of its values, in insertion order: an
    item whose key is present is combined with the value held for the
    key, another item is appended. *)
Fixpoint merge_by {A K : Type} `{EqDecision K} (key : A -> K)
    (add : A -> A -> A) (l : list A) (x : A) : list A :=
  match l with
  | [] => [x]
  | a :: rest =>
      if decide (key a = key x) then add a x :: rest
      else a :: merge_by key add rest x
  end.

(** ** models/tenant_db.py *)

Module Tenant.

Inductive MovementType : Type :=
  | VENTA | RESERVADO | RECEPCION | DEVOLUCION
  | AJUSTE | STOCK_INICIAL | TRASLADO_ENTRADA | TRASLADO_SALIDA.

Inductive MetricName : Type :=
  | STOCK_CERO | BAJA_ROTACION | STOCK_CRITICO | SOBRE_STOCK
  | RECOMENDACION_COMPRA | DEVOLUCIONES | AJUSTE_STOCK | VENTA_SIN_STOCK.

#[global] Instance MovementType_eq_dec : EqDecision MovementType.
Proof. solve_decision. Defined.

#[global] Instance MetricName_eq_dec : EqDecision MetricName.
Proof. solve_decision. Defined.

Definition MetricName_code (m : MetricName) : nat :=
  match m with
  | STOCK_CERO => 0 | BAJA_ROTACION => 1 | STOCK_CRITICO => 2
  | SOBRE_STOCK => 3 | RECOMENDACION_COMPRA => 4 | DEVOLUCIONES => 5
  | AJUSTE_STOCK => 6 | VENTA_SIN_STOCK => 7
  end%nat.

Definition MetricName_of_code (n : nat) : option MetricName :=
  match n with
  | 0 => Some STOCK_CERO | 1 => Some BAJA_ROTACION | 2 => Some STOCK_CRITICO
  | 3 => Some SOBRE_STOCK | 4 => Some RECOMENDACION_COMPRA
  | 5 => Some DEVOLUCIONES | 6 => Some AJUSTE_STOCK
  | 7 => Some VENTA_SIN_STOCK | _ => None
  end%nat.

#[global] Instance MetricName_countable : Countable MetricName :=
  inj_countable MetricName_code MetricName_of_code
    (fun m => match m with
              | STOCK_CERO | BAJA_ROTACION | STOCK_CRITICO | SOBRE_STOCK
              | RECOMENDACION_COMPRA | DEVOLUCIONES | AJUSTE_STOCK
              | VENTA_SIN_STOCK => eq_refl
              end).

(** [list(MetricName)]: the members in declaration order. *)
Definition all_metric_names : list MetricName :=
  [STOCK_CERO; BAJA_ROTACION; STOCK_CRITICO; SOBRE_STOCK;
   RECOMENDACION_COMPRA; DEVOLUCIONES; AJUSTE_STOCK; VENTA_SIN_STOCK].

(** A parameter dictionary ([config_json]); every default and every
    consumer of the snapshot engine uses integer values. *)
Abbreviation config := (gmap string Z).

(** Row of [metric_configurations]. *)
Record MetricConfiguration : Type := {
  mc_metric_name : MetricName;
  mc_warehouse_id : option Z;
  mc_config_json : config;
  mc_is_active : bool
}.

(** One line of a transaction, joined with the columns of its parent
    [Transaction] that the snapshot engine filters and orders by. *)
Record TransactionDetail : Type := {
  td_transaction_date : date;
  td_transaction_time : Z;
  td_warehouse_id : Z;
  td_product_id : Z;
  td_quantity : Z;
  td_movement_type : MovementType
}.

(** Row of [daily_stock_snapshots] without its key columns. *)
Record DailyStockSnapshot : Type := {
  opening_physical_stock : Z;
  opening_reserved_stock : Z;
  quantity_sold : Z;
  quantity_returned : Z;
  quantity_purchased : Z;
  quantity_adjusted : Z;
  quantity_transfer_in : Z;
  quantity_transfer_out : Z;
  quantity_newly_reserved : Z;
  quantity_released_from_reservation : Z;
  closing_physical_stock : Z;
  closing_reserved_stock : Z;
  closing_available_stock : Z
}.

(** Key of [daily_stock_snapshots]:
    (snapshot_date, product_id, warehouse_id), constraint [_snapshot_uc]. *)
Abbreviation snapshot_key := (Z * Z * Z)%type.
Abbreviation snapshots := (gmap snapshot_key DailyStockSnapshot).

(** A JSON scalar of [details_json]. *)
Inductive json_value : Type :=
  | JInt (n : Z)
  | JNum (q : Q)
  | JStr (s : string).

(** Row of [metric_alerts] without its key columns.  [Decimal] values
    are rationals. *)
Record MetricAlert : Type := {
  physical_stock_at_alert : Z;
  available_stock_at_alert : Z;
  reserved_stock_at_alert : Z;
  metric_value_numeric : option Q;
  metric_value_text : option string;
  details_json : list (string * json_value)
}.

(** Key of [metric_alerts]:
    (alert_date, metric_name, product_id, warehouse_id), constraint
    [_alert_uc]. *)
Abbreviation alert_key := (Z * MetricName * Z * Z)%type.
Abbreviation alerts := (gmap alert_key MetricAlert).

(** The tables of a tenant database that the snapshot engine touches. *)
Record tenant_db : Type := {
  metric_configurations : list MetricConfiguration;
  transaction_details : list TransactionDetail;
  daily_stock_snapshots : snapshots;
  metric_alerts : alerts
}.

End Tenant.

(** ** services/get_config.py *)

Module GetConfig.
Import Tenant.

(** [Query.scalar()]: [None] without rows, the first column of the
    only row, [MultipleResultsFound] otherwise. *)
Definition scalar {A : Type} (rows : list A) : result (option A) :=
  match rows with
  | [] => Ok None
  | [a] => Ok (Some a)
  | _ :: _ :: _ => Raise MultipleResultsFound
  end.

(** The filter of both queries: metric, warehouse (NULL for the
    company-global row) and [is_active == True]. *)
Definition config_row_matches (m : MetricName) (wh : option Z)
    (r : MetricConfiguration) : bool :=
  bool_decide (mc_metric_name r = m)
  && bool_decide (mc_warehouse_id r = wh)
  && mc_is_active r.

Definition query_config_json (db : list MetricConfiguration)
    (m : MetricName) (wh : option Z) : list config :=
  mc_config_json <$> filter (fun r => config_row_matches m wh r = true) db.

Definition hardcoded_defaults (m : MetricName) : config :=
  match m with
  | STOCK_CRITICO =>
      {[ "days_for_avg" := 30; "coverage_days_threshold" := 3;
         "stock_qty_threshold" := 3 ]}
  | SOBRE_STOCK =>
      {[ "days_for_avg" := 30; "coverage_days_threshold" := 30 ]}
  | BAJA_ROTACION => {[ "days_since_last_sale" := 14 ]}
  | RECOMENDACION_COMPRA => {[ "sales_days_for_recommendation" := 15 ]}
  | _ => ∅
  end.

(** [d.update(other)]: the keys of [other] overwrite, the rest stay. *)
Definition dict_update (d other : config) : config := other ∪ d.

(** [if conf: effective_config.update(conf)]: [None] and the empty
    dictionary are both falsy. *)
Definition update_if_truthy (d : config) (conf : option config) : config :=
  match conf with
  | Some c => if decide (c = ∅) then d else dict_update d c
  | None => d
  end.

(** Steps 2 and 3 of the resolver, for a given starting dictionary. *)
Definition apply_db_layers (effective_config : config)
    (tenant_db : list MetricConfiguration)
    (metric_name_enum : MetricName) (warehouse_id : option Z)
    : result config :=
  global_db_conf_json ←
    scalar (query_config_json tenant_db metric_name_enum None);
  let effective_config :=
    update_if_truthy effective_config global_db_conf_json in
  match warehouse_id with
  | Some wh =>
      warehouse_db_conf_json ←
        scalar (query_config_json tenant_db metric_name_enum (Some wh));
      Ok (update_if_truthy effective_config warehouse_db_conf_json)
  | None => Ok effective_config
  end.

Definition get_effective_metric_config (tenant_db : list MetricConfiguration)
    (metric_name_enum : MetricName) (warehouse_id : option Z)
    : result config :=
  apply_db_layers (hardcoded_defaults metric_name_enum)
    tenant_db metric_name_enum warehouse_id.

(** The [config_json] of the active row selected by a query, the empty
    dictionary when there is none. *)
Definition layer_of (rows : list config) : config :=
  match rows with
  | c :: _ => c
  | [] => ∅
  end.

Definition warehouse_layer (db : list MetricConfiguration)
    (m : MetricName) (wh : option Z) : config :=
  match wh with
  | Some w => layer_of (query_config_json db m (Some w))
  | None => ∅
  end.

(** What a key resolves to through the three layers. *)
Definition resolve_key (defaults glob wh : config) (k : string) : option Z :=
  match wh !! k with
  | Some v => Some v
  | None =>
      match glob !! k with
      | Some v => Some v
      | None => defaults !! k
      end
  end.

(** At most one active row per metric and warehouse (or NULL). *)
Definition unique_active (db : list MetricConfiguration) : Prop :=
  forall m wh, (length (query_config_json db m wh) <= 1)%nat.

(** The example database of the specification: one active global row
    [{b:3}] and one active row [{a:4}] for warehouse 1. *)
Definition example_rows : list MetricConfiguration :=
  [ {| mc_metric_name := STOCK_CERO; mc_warehouse_id := None;
       mc_config_json := {[ "b" := 3 ]}; mc_is_active := true |};
    {| mc_metric_name := STOCK_CERO; mc_warehouse_id := Some 1;
       mc_config_json := {[ "a" := 4 ]}; mc_is_active := true |} ].

End GetConfig.

(** ** services/snapshot_service.py *)

Module SnapshotService.
Import Tenant GetConfig.

(** The [defaultdict(int)] of one (product, warehouse, day). *)
Record daily_totals : Type := {
  sold : Z;
  returned : Z;
  purchased : Z;
  adjusted : Z;
  transfer_in : Z;
  transfer_out : Z;
  newly_reserved : Z;
  released_from_reservation : Z
}.

Definition no_totals : daily_totals :=
  {| sold := 0; returned := 0; purchased := 0; adjusted := 0;
     transfer_in := 0; transfer_out := 0; newly_reserved := 0;
     released_from_reservation := 0 |}.

(** The loop variables of the replay of one day. *)
Record intra_day : Type := {
  current_physical_stock_intra_day : Z;
  current_reserved_stock_intra_day : Z;
  totals : daily_totals
}.

Definition set_sold (t : daily_totals) (v : Z) : daily_totals :=
  {| sold := v; returned := returned t; purchased := purchased t;
     adjusted := adjusted t; transfer_in := transfer_in t;
     transfer_out := transfer_out t; newly_reserved := newly_reserved t;
     released_from_reservation := released_from_reservation t |}.
Definition set_returned (t : daily_totals) (v : Z) : daily_totals :=
  {| sold := sold t; returned := v; purchased := purchased t;
     adjusted := adjusted t; transfer_in := transfer_in t;
     transfer_out := transfer_out t; newly_reserved := newly_reserved t;
     released_from_reservation := released_from_reservation t |}.
Definition set_purchased (t : daily_totals) (v : Z) : daily_totals :=
  {| sold := sold t; returned := returned t; purchased := v;
     adjusted := adjusted t; transfer_in := transfer_in t;
     transfer_out := transfer_out t; newly_reserved := newly_reserved t;
     released_from_reservation := released_from_reservation t |}.
Definition set_adjusted (t : daily_totals) (v : Z) : daily_totals :=
  {| sold := sold t; returned := returned t; purchased := purchased t;
     adjusted := v; transfer_in := transfer_in t;
     transfer_out := transfer_out t; newly_reserved := newly_reserved t;
     released_from_reservation := released_from_reservation t |}.
Definition set_transfer_in (t : daily_totals) (v : Z) : daily_totals :=
  {| sold := sold t; returned := returned t; purchased := purchased t;
     adjusted := adjusted t; transfer_in := v;
     transfer_out := transfer_out t; newly_reserved := newly_reserved t;
     released_from_reservation := released_from_reservation t |}.
Definition set_transfer_out (t : daily_totals) (v : Z) : daily_totals :=
  {| sold := sold t; returned := returned t; purchased := purchased t;
     adjusted := adjusted t; transfer_in := transfer_in t;
     transfer_out := v; newly_reserved := newly_reserved t;
     released_from_reservation := released_from_reservation t |}.
Definition set_newly_reserved (t : daily_totals) (v : Z) : daily_totals :=
  {| sold := sold t; returned := returned t; purchased := purchased t;
     adjusted := adjusted t; transfer_in := transfer_in t;
     transfer_out := transfer_out t; newly_reserved := v;
     released_from_reservation := released_from_reservation t |}.
Definition set_released (t : daily_totals) (v : Z) : daily_totals :=
  {| sold := sold t; returned := returned t; purchased := purchased t;
     adjusted := adjusted t; transfer_in := transfer_in t;
     transfer_out := transfer_out t; newly_reserved := newly_reserved t;
     released_from_reservation := v |}.

(** Body of [for detail in ordered_daily_transactions]. *)
Definition replay_detail (st : intra_day) (detail : TransactionDetail)
    : intra_day :=
  let stock_before_this_tx := current_physical_stock_intra_day st in
  let physical := current_physical_stock_intra_day st in
  let reserved := current_reserved_stock_intra_day st in
  let t := totals st in
  let q := td_quantity detail in
  match td_movement_type detail with
  | VENTA =>
      let t := set_sold t (sold t + q) in
      if bool_decide (q <= reserved) then
        {| current_physical_stock_intra_day := physical - q;
           current_reserved_stock_intra_day := reserved - q;
           totals := set_released t (released_from_reservation t + q) |}
      else
        {| current_physical_stock_intra_day := physical - q;
           current_reserved_stock_intra_day := 0;
           totals :=
             set_released t (released_from_reservation t + reserved) |}
  | RESERVADO =>
      {| current_physical_stock_intra_day := physical;
         current_reserved_stock_intra_day := reserved + q;
         totals := set_newly_reserved t (newly_reserved t + q) |}
  | DEVOLUCION =>
      {| current_physical_stock_intra_day := physical + q;
         current_reserved_stock_intra_day := reserved;
         totals := set_returned t (returned t + q) |}
  | RECEPCION =>
      {| current_physical_stock_intra_day := physical + q;
         current_reserved_stock_intra_day := reserved;
         totals := set_purchased t (purchased t + q) |}
  | TRASLADO_ENTRADA =>
      {| current_physical_stock_intra_day := physical + q;
         current_reserved_stock_intra_day := reserved;
         totals := set_transfer_in t (transfer_in t + q) |}
  | TRASLADO_SALIDA =>
      {| current_physical_stock_intra_day := physical - q;
         current_reserved_stock_intra_day := reserved;
         totals := set_transfer_out t (transfer_out t + q) |}
  | AJUSTE | STOCK_INICIAL =>
      let target_stock := q in
      let delta := target_stock - stock_before_this_tx in
      {| current_physical_stock_intra_day := target_stock;
         current_reserved_stock_intra_day := reserved;
         totals := set_adjusted t (adjusted t + delta) |}
  end.

Definition replay_day (opening_physical opening_reserved : Z)
    (ordered_daily_transactions : list TransactionDetail) : intra_day :=
  foldl replay_detail
    {| current_physical_stock_intra_day := opening_physical;
       current_reserved_stock_intra_day := opening_reserved;
       totals := no_totals |}
    ordered_daily_transactions.

(** The [snapshot_data] dictionary (step 5), without key and timestamp. *)
Definition snapshot_data_of (opening_physical opening_reserved : Z)
    (st : intra_day) : DailyStockSnapshot :=
  {| opening_physical_stock := opening_physical;
     opening_reserved_stock := opening_reserved;
     quantity_sold := sold (totals st);
     quantity_returned := returned (totals st);
     quantity_purchased := purchased (totals st);
     quantity_adjusted := adjusted (totals st);
     quantity_transfer_in := transfer_in (totals st);
     quantity_transfer_out := transfer_out (totals st);
     quantity_newly_reserved := newly_reserved (totals st);
     quantity_released_from_reservation :=
       released_from_reservation (totals st);
     closing_physical_stock := current_physical_stock_intra_day st;
     closing_reserved_stock := current_reserved_stock_intra_day st;
     closing_available_stock :=
       current_physical_stock_intra_day st
       - current_reserved_stock_intra_day st |}.

(** [ORDER BY transaction_time]: a stable insertion sort, rows with
    equal times keep their storage order (the database promises no order
    among them). *)
Fixpoint insert_by_time (x : TransactionDetail) (l : list TransactionDetail)
    : list TransactionDetail :=
  match l with
  | [] => [x]
  | y :: l' =>
      if bool_decide (td_transaction_time x <= td_transaction_time y)
      then x :: y :: l'
      else y :: insert_by_time x l'
  end.

Definition order_by_time (l : list TransactionDetail)
    : list TransactionDetail :=
  foldr insert_by_time [] l.

Definition query_daily_transactions (rows : list TransactionDetail)
    (d : date) (product_id warehouse_id : Z) : list TransactionDetail :=
  order_by_time
    (filter (fun r => td_transaction_date r = d
                      /\ td_product_id r = product_id
                      /\ td_warehouse_id r = warehouse_id) rows).

(** Step 1: the closing stocks of the previous day, zero without a
    previous snapshot. *)
Definition opening_stocks (snaps : snapshots) (d : date)
    (product_id warehouse_id : Z) : Z * Z :=
  let previous_day_date := d - 1 in
  match snaps !! (previous_day_date, product_id, warehouse_id) with
  | Some previous_snapshot =>
      (closing_physical_stock previous_snapshot,
       closing_reserved_stock previous_snapshot)
  | None => (0, 0)
  end.

Definition compute_snapshot (db : tenant_db) (d : date)
    (product_id warehouse_id : Z) : DailyStockSnapshot :=
  let '(opening_physical_stock_for_day, opening_reserved_stock_for_day) :=
    opening_stocks (daily_stock_snapshots db) d product_id warehouse_id in
  snapshot_data_of opening_physical_stock_for_day
    opening_reserved_stock_for_day
    (replay_day opening_physical_stock_for_day
       opening_reserved_stock_for_day
       (query_daily_transactions (transaction_details db) d
          product_id warehouse_id)).

(** *** Metric evaluation *)

Definition getitem (cfg : config) (key : string) : result Z :=
  match cfg !! key with
  | Some v => Ok v
  | None => Raise (KeyError key)
  end.

(** Rows of [daily_stock_snapshots] of one product and warehouse whose
    date lies in [lo, hi] ([BETWEEN] is inclusive). *)
Definition snapshots_between (snaps : snapshots)
    (product_id warehouse_id : Z) (lo hi : date)
    : list (snapshot_key * DailyStockSnapshot) :=
  filter (fun r => r.1.1.2 = product_id /\ r.1.2 = warehouse_id
                   /\ lo <= r.1.1.1 <= hi)
         (map_to_list snaps).

(** [func.sum(quantity_sold) ... .scalar() or 0]. *)
Definition sum_quantity_sold (snaps : snapshots)
    (product_id warehouse_id : Z) (lo hi : date) : Z :=
  foldr Z.add 0
    ((fun r => quantity_sold r.2)
       <$> snapshots_between snaps product_id warehouse_id lo hi).

(** [func.max(snapshot_date)] over the days with a sale up to [d]. *)
Definition last_sale_date (snaps : snapshots)
    (product_id warehouse_id : Z) (d : date) : option date :=
  foldr (fun x acc => match acc with
                      | Some m => Some (Z.max x m)
                      | None => Some x
                      end) None
    ((fun r => r.1.1.1)
       <$> filter (fun r => r.1.1.2 = product_id /\ r.1.2 = warehouse_id
                            /\ 0 < quantity_sold r.2 /\ r.1.1.1 <= d)
                  (map_to_list snaps)).

Definition Qlt_bool (x y : Q) : bool := negb (Qle_bool y x).

(** [Decimal(total) / Decimal(days) if days > 0 else Decimal(0)], the
    quotient taken exact. *)
Definition average_daily_sales (total days : Z) : Q :=
  if bool_decide (0 < days) then (inject_Z total / inject_Z days)%Q else 0%Q.

(** [cover if cover != Decimal('Infinity') else Decimal('999')] for
    [cover = stock / avg if avg > 0 else Decimal('Infinity')]. *)
Definition coverage_or_999 (stock : Z) (avg : Q) : Q :=
  if Qlt_bool 0 avg then (inject_Z stock / avg)%Q else inject_Z 999.

(** The upsert [_create_or_update_metric_alert] issues: the key and the
    payload of the row ([details or {}] is the list of details). *)
Definition _create_or_update_metric_alert (alert_date : date) (metric_name : MetricName)
    (product_id warehouse_id : Z) (snapshot_data : DailyStockSnapshot)
    (metric_value_num : option Q) (details : list (string * json_value))
    : alert_key * MetricAlert :=
  ((alert_date, metric_name, product_id, warehouse_id),
   {| physical_stock_at_alert := closing_physical_stock snapshot_data;
      available_stock_at_alert := closing_available_stock snapshot_data;
      reserved_stock_at_alert := closing_reserved_stock snapshot_data;
      metric_value_numeric := metric_value_num;
      metric_value_text := None;
      details_json := details |}).

(** [INSERT ... ON CONFLICT (key) DO UPDATE] of every other column. *)
Definition upsert_alert (tbl : alerts) (w : alert_key * MetricAlert) : alerts :=
  <[ w.1 := w.2 ]> tbl.

Definition default_cfg_critico : config :=
  {[ "days_for_avg" := 30; "coverage_days_threshold" := 3;
     "stock_qty_threshold" := 3 ]}.
Definition default_cfg_sobrestock : config :=
  {[ "days_for_avg" := 30; "coverage_days_threshold" := 30 ]}.
Definition default_cfg_baja_rot : config :=
  {[ "days_since_last_sale" := 14 ]}.

Section Evaluate.
Context (snaps : snapshots) (snap_date prod_id wh_id : Z)
        (current_snapshot_data : DailyStockSnapshot)
        (configs : gmap MetricName config) (company_id : Z).

Let available_stock : Z := closing_available_stock current_snapshot_data.
Let physical_stock : Z := closing_physical_stock current_snapshot_data.
Let write := _create_or_update_metric_alert snap_date.

Definition stock_cero_writes : list (alert_key * MetricAlert) :=
  if bool_decide (available_stock <= 0) then
    [ write STOCK_CERO prod_id wh_id current_snapshot_data
        (Some (inject_Z available_stock))
        [("message", JStr "Stock disponible es cero o negativo.")] ]
  else [].

Definition stock_critico_writes : result (list (alert_key * MetricAlert)) :=
  let cfg_critico := default default_cfg_critico (configs !! STOCK_CRITICO) in
  days_for_avg ← getitem cfg_critico "days_for_avg";
  let avg_sales_start_dt := snap_date - days_for_avg in
  let total_sold_period :=
    sum_quantity_sold snaps prod_id wh_id avg_sales_start_dt (snap_date - 1) in
  let avg_daily_sales := average_daily_sales total_sold_period days_for_avg in
  coverage_days_threshold ← getitem cfg_critico "coverage_days_threshold";
  stock_qty_threshold ← getitem cfg_critico "stock_qty_threshold";
  let is_critical :=
    Qle_bool (inject_Z available_stock)
             (avg_daily_sales * inject_Z coverage_days_threshold)
    || bool_decide (available_stock <= stock_qty_threshold) in
  if is_critical then
    Ok [ write STOCK_CRITICO prod_id wh_id current_snapshot_data
           (Some (coverage_or_999 available_stock avg_daily_sales))
           [("current_available_stock", JNum (inject_Z available_stock));
            ("avg_daily_sales_30d", JNum avg_daily_sales);
            ("coverage_threshold_days", JInt coverage_days_threshold);
            ("min_qty_threshold", JInt stock_qty_threshold)] ]
  else Ok [].

Definition sobre_stock_writes : result (list (alert_key * MetricAlert)) :=
  let cfg_sobrestock :=
    default default_cfg_sobrestock (configs !! SOBRE_STOCK) in
  days_for_avg ← getitem cfg_sobrestock "days_for_avg";
  let avg_sales_start_dt_sobre := snap_date - days_for_avg in
  let total_sold_period_sobre :=
    sum_quantity_sold snaps prod_id wh_id
      avg_sales_start_dt_sobre (snap_date - 1) in
  let avg_daily_sales_sobre :=
    average_daily_sales total_sold_period_sobre days_for_avg in
  let alert (coverage_days_threshold : Z) :=
    write SOBRE_STOCK prod_id wh_id current_snapshot_data
      (Some (coverage_or_999 physical_stock avg_daily_sales_sobre))
      [("current_physical_stock", JNum (inject_Z physical_stock));
       ("avg_daily_sales_30d", JNum avg_daily_sales_sobre);
       ("coverage_threshold_days", JInt coverage_days_threshold)] in
  if Qeq_bool avg_daily_sales_sobre 0 && bool_decide (0 < physical_stock)
  then
    coverage_days_threshold ← getitem cfg_sobrestock "coverage_days_threshold";
    Ok [alert coverage_days_threshold]
  else if Qlt_bool 0 avg_daily_sales_sobre then
    coverage_days_threshold ← getitem cfg_sobrestock "coverage_days_threshold";
    if Qlt_bool (avg_daily_sales_sobre * inject_Z coverage_days_threshold)
                (inject_Z physical_stock)
    then Ok [alert coverage_days_threshold]
    else Ok []
  else Ok [].

Definition baja_rotacion_writes : result (list (alert_key * MetricAlert)) :=
  let cfg_baja_rot :=
    default default_cfg_baja_rot (configs !! BAJA_ROTACION) in
  if bool_decide (0 < physical_stock) then
    let last_sale_date_val := last_sale_date snaps prod_id wh_id snap_date in
    let days_no_sale :=
      match last_sale_date_val with
      | Some d => snap_date - d
      | None => 999
      end in
    days_since_last_sale ← getitem cfg_baja_rot "days_since_last_sale";
    if bool_decide (days_since_last_sale < days_no_sale) then
      Ok [ write BAJA_ROTACION prod_id wh_id current_snapshot_data
             (Some (inject_Z days_no_sale))
             [("last_sale_on",
               match last_sale_date_val with
               | Some d => JInt d
               | None => JStr "Never"
               end)] ]
    else Ok []
  else Ok [].

(** [total_sold_lookback] for a window of [n] days ending on the
    snapshot day. *)
Definition total_sold_lookback (n : Z) : Z :=
  let sales_lookback_start_dt := snap_date - (n - 1) in
  sum_quantity_sold snaps prod_id wh_id sales_lookback_start_dt snap_date.

Definition recomendacion_compra_alert (n total : Z) : alert_key * MetricAlert :=
  let units_to_buy := total - available_stock in
  write RECOMENDACION_COMPRA prod_id wh_id current_snapshot_data
    (Some (inject_Z units_to_buy))
    [("current_available_stock", JNum (inject_Z available_stock));
     ("sales_last_N_days", JInt total);
     ("period_days", JInt n)].

Definition recomendacion_compra_writes
    : result (list (alert_key * MetricAlert)) :=
  match configs !! RECOMENDACION_COMPRA with
  | None => Raise TypeError
  | Some cfg_recompra =>
      n ← getitem cfg_recompra "sales_days_for_recommendation";
      let total := total_sold_lookback n in
      let first :=
        if bool_decide (0 < available_stock) && bool_decide (0 < total)
           && bool_decide (available_stock < total)
           && bool_decide (company_id = 47)
        then [recomendacion_compra_alert n total] else [] in
      let second :=
        if bool_decide (available_stock < total)
           && bool_decide (company_id <> 47)
        then [recomendacion_compra_alert n total] else [] in
      Ok (first ++ second)
  end.

Definition devoluciones_writes : list (alert_key * MetricAlert) :=
  if bool_decide (0 < quantity_returned current_snapshot_data) then
    [ write DEVOLUCIONES prod_id wh_id current_snapshot_data
        (Some (inject_Z (quantity_returned current_snapshot_data))) [] ]
  else [].

Definition ajuste_stock_writes : list (alert_key * MetricAlert) :=
  if bool_decide (quantity_adjusted current_snapshot_data <> 0) then
    [ write AJUSTE_STOCK prod_id wh_id current_snapshot_data
        (Some (inject_Z (quantity_adjusted current_snapshot_data))) [] ]
  else [].

Definition venta_sin_stock_writes : list (alert_key * MetricAlert) :=
  if bool_decide (closing_physical_stock current_snapshot_data < 0) then
    [ write VENTA_SIN_STOCK prod_id wh_id current_snapshot_data
        (Some (inject_Z (closing_physical_stock current_snapshot_data))) [] ]
  else [].

(** The upserts of [evaluate_and_log_metrics_for_snapshot] in the
    order they are executed; the queries of the function read
    snapshots only, so no write feeds a later test. *)
Definition evaluation_writes : result (list (alert_key * MetricAlert)) :=
  critico ← stock_critico_writes;
  sobre ← sobre_stock_writes;
  baja ← baja_rotacion_writes;
  recompra ← recomendacion_compra_writes;
  Ok (stock_cero_writes ++ critico ++ sobre ++ baja ++ recompra
      ++ devoluciones_writes ++ ajuste_stock_writes
      ++ venta_sin_stock_writes).

End Evaluate.

Definition evaluate_and_log_metrics_for_snapshot (db : tenant_db)
    (snap_date prod_id wh_id : Z) (current_snapshot_data : DailyStockSnapshot)
    (configs : gmap MetricName config) (company_id : Z) : result tenant_db :=
  writes ← evaluation_writes (daily_stock_snapshots db) snap_date prod_id
              wh_id current_snapshot_data configs company_id;
  Ok {| metric_configurations := metric_configurations db;
        transaction_details := transaction_details db;
        daily_stock_snapshots := daily_stock_snapshots db;
        metric_alerts := foldl upsert_alert (metric_alerts db) writes |}.

(** *** The recalculation loop *)

(** [{metric_name: get_effective_metric_config(...) for metric_name in
    all_metric_names}]. *)
Definition metric_configs (tenant_db : list MetricConfiguration)
    (warehouse_id : option Z) : result (gmap MetricName config) :=
  for_each
    (fun (acc : gmap MetricName config) metric_name =>
       cfg ← get_effective_metric_config tenant_db metric_name warehouse_id;
       Ok (<[ metric_name := cfg ]> acc))
    ∅ all_metric_names.

Definition build_all_configs (tenant_db : list MetricConfiguration)
    (warehouse_ids : list Z) : result (gmap Z (gmap MetricName config)) :=
  for_each
    (fun (acc : gmap Z (gmap MetricName config)) wh_id =>
       cfgs ← metric_configs tenant_db (Some wh_id);
       Ok (<[ wh_id := cfgs ]> acc))
    ∅ warehouse_ids.

Definition upsert_snapshot (db : tenant_db) (k : snapshot_key)
    (snapshot_data : DailyStockSnapshot) : tenant_db :=
  {| metric_configurations := metric_configurations db;
     transaction_details := transaction_details db;
     daily_stock_snapshots := <[ k := snapshot_data ]> (daily_stock_snapshots db);
     metric_alerts := metric_alerts db |}.

Section Day.
Context (company_id : Z) (current_processing_date : date)
        (all_configs : gmap Z (gmap MetricName config))
        (global_configs : gmap MetricName config).

(** Body of the loop over warehouses. *)
Definition process_warehouse (product_id_to_process : Z) (db : tenant_db)
    (warehouse_id_to_process : Z) : result tenant_db :=
  let snapshot_data :=
    compute_snapshot db current_processing_date
      product_id_to_process warehouse_id_to_process in
  let db :=
    upsert_snapshot db
      (current_processing_date, product_id_to_process,
       warehouse_id_to_process) snapshot_data in
  let effective_configs :=
    default global_configs (all_configs !! warehouse_id_to_process) in
  evaluate_and_log_metrics_for_snapshot db current_processing_date
    product_id_to_process warehouse_id_to_process snapshot_data
    effective_configs company_id.

Definition process_product (warehouse_ids : list Z) (db : tenant_db)
    (product_id_to_process : Z) : result tenant_db :=
  for_each (process_warehouse product_id_to_process) db warehouse_ids.

End Day.

(** Body of [while current_processing_date <= today], up to the commit. *)
Definition process_date (company_id : Z) (product_ids warehouse_ids : list Z)
    (db : tenant_db) (current_processing_date : date) : result tenant_db :=
  all_configs ← build_all_configs (metric_configurations db) warehouse_ids;
  global_configs ← metric_configs (metric_configurations db) None;
  for_each
    (process_product company_id current_processing_date all_configs
       global_configs warehouse_ids)
    db product_ids.

(** The outcome of a run: the committed database, the date the loop
    stopped at and the exception that stopped it, if any (the work of the
    failing day is rolled back). *)
Record run : Type := {
  committed : tenant_db;
  stopped_at : date;
  raised : option exn
}.

Fixpoint recalculate_from (company_id : Z) (product_ids warehouse_ids : list Z)
    (days : nat) (current_processing_date : date) (db : tenant_db) : run :=
  match days with
  | O => {| committed := db; stopped_at := current_processing_date;
            raised := None |}
  | S days' =>
      match process_date company_id product_ids warehouse_ids db
              current_processing_date with
      | Ok db' =>
          recalculate_from company_id product_ids warehouse_ids days'
            (current_processing_date + 1) db'
      | Raise e =>
          {| committed := db; stopped_at := current_processing_date;
             raised := Some e |}
      end
  end.

(** [today] is [date.today()]; the loop runs for the days
    [start_date .. today]. *)
Definition recalculate_stock_snapshots (today : date) (tenant_session : tenant_db)
    (product_ids warehouse_ids : list Z) (start_date : date) (company_id : Z)
    : run :=
  recalculate_from company_id product_ids warehouse_ids
    (Z.to_nat (today - start_date + 1)) start_date tenant_session.

(** *** Examples and the predicates of the properties *)

Definition example_snapshot (physical reserved : Z) : DailyStockSnapshot :=
  {| opening_physical_stock := 0; opening_reserved_stock := 0;
     quantity_sold := 0; quantity_returned := 0; quantity_purchased := 0;
     quantity_adjusted := 0; quantity_transfer_in := 0;
     quantity_transfer_out := 0; quantity_newly_reserved := 0;
     quantity_released_from_reservation := 0;
     closing_physical_stock := physical;
     closing_reserved_stock := reserved;
     closing_available_stock := physical - reserved |}.

Definition example_line (d : date) (ty : MovementType) (q : Z)
    : TransactionDetail :=
  {| td_transaction_date := d; td_transaction_time := 0;
     td_warehouse_id := 1; td_product_id := 1; td_quantity := q;
     td_movement_type := ty |}.

(** Product 1 in warehouse 1 closed day 9 with 20 physical and 5
    reserved units; day 10 has the given lines. *)
Definition example_db (lines : list TransactionDetail) : tenant_db :=
  {| metric_configurations := [];
     transaction_details := lines;
     daily_stock_snapshots := {[ (9, 1, 1) := example_snapshot 20 5 ]};
     metric_alerts := ∅ |}.

(** What a day in progress has in common with the database [db0] it
    started from. *)
Definition same_inputs (d : date) (db0 db : tenant_db) : Prop :=
  transaction_details db = transaction_details db0
  /\ metric_configurations db = metric_configurations db0
  /\ forall k : snapshot_key, k.1.1 <> d ->
       daily_stock_snapshots db !! k = daily_stock_snapshots db0 !! k.

Definition written (d : date) (db0 : tenant_db) (p w : Z) (db : tenant_db)
    : Prop :=
  daily_stock_snapshots db !! (d, p, w) = Some (compute_snapshot db0 d p w).

(** A configuration with every key of the hardcoded defaults. *)
Definition has_keys (m : MetricName) (c : config) : Prop :=
  forall k, is_Some (hardcoded_defaults m !! k) -> is_Some (c !! k).

Definition complete (g : gmap MetricName config) : Prop :=
  forall m, exists c, g !! m = Some c /\ has_keys m c.

(** The opening stocks of the snapshot of day [d] are the closing stocks
    of the snapshot of day [d - 1], zero when there is none. *)
Definition opening_matches (snaps : snapshots) (d p w : Z) : Prop :=
  exists s, snaps !! (d, p, w) = Some s
    /\ match snaps !! (d - 1, p, w) with
       | Some prev =>
           opening_physical_stock s = closing_physical_stock prev
           /\ opening_reserved_stock s = closing_reserved_stock prev
       | None =>
           opening_physical_stock s = 0 /\ opening_reserved_stock s = 0
       end.

(** Day 10 has a sale of 8 and day 11 a reception of 4; the run is for
    days 10 to 12. *)
Definition example_run : run :=
  recalculate_stock_snapshots 12
    (example_db [example_line 10 VENTA 8; example_line 11 RECEPCION 4])
    [1] [1] 10 7.

(** The units sold that the snapshot of day [d'] records for the product
    and warehouse, 0 when there is no snapshot of that day. *)
Definition sold_on (snaps : snapshots) (p w : Z) (d' : date) : Z :=
  match snaps !! (d', p, w) with
  | Some s => quantity_sold s
  | None => 0
  end.

(** [f lo + f (lo + 1) + ...], [count] terms. *)
Fixpoint sum_days (f : date -> Z) (lo : date) (count : nat) : Z :=
  match count with
  | O => 0
  | S count' => f lo + sum_days f (lo + 1) count'
  end.

(** The units sold over the days [lo .. hi], both included, read off the
    snapshots day by day. *)
Definition sold_in_window (snaps : snapshots) (p w : Z) (lo hi : date) : Z :=
  sum_days (sold_on snaps p w) lo (Z.to_nat (hi - lo + 1)).

(** A day of the year 2021, and the snapshot of product 1 in warehouse 1
    for it: 15 units sold out of 20, 5 left. *)
Definition example_day : date := 738000.

Definition example_sold_snapshot : DailyStockSnapshot :=
  {| opening_physical_stock := 20; opening_reserved_stock := 0;
     quantity_sold := 15; quantity_returned := 0; quantity_purchased := 0;
     quantity_adjusted := 0; quantity_transfer_in := 0;
     quantity_transfer_out := 0; quantity_newly_reserved := 0;
     quantity_released_from_reservation := 0;
     closing_physical_stock := 5;
     closing_reserved_stock := 0;
     closing_available_stock := 5 |}.

Definition example_evaluated_db : tenant_db :=
  {| metric_configurations := [];
     transaction_details := [];
     daily_stock_snapshots := {[ (example_day, 1, 1) := example_sold_snapshot ]};
     metric_alerts := ∅ |}.

(** The metric a write is for. *)
Definition metric_of (x : alert_key * MetricAlert) : MetricName := x.1.1.1.2.

(** Every metric with its hardcoded defaults. *)
Definition example_configs : gmap MetricName config :=
  list_to_map ((fun m => (m, hardcoded_defaults m)) <$> all_metric_names).

(** Day 10 of product 1 in warehouse 1 after a sale of 15 units out of
    20: 5 units left, 15 sold in the window. *)
Definition example_sale_db : tenant_db :=
  let db := example_db [example_line 10 VENTA 15] in
  upsert_snapshot db (10, 1, 1) (compute_snapshot db 10 1 1).

(** The stock equations of a snapshot row: the closing stocks are the
    opening stocks plus the movements of the day. *)
Definition balanced (s : DailyStockSnapshot) : Prop :=
  closing_physical_stock s =
    opening_physical_stock s + quantity_purchased s + quantity_returned s
    + quantity_transfer_in s + quantity_adjusted s
    - quantity_sold s - quantity_transfer_out s
  /\ closing_reserved_stock s =
       opening_reserved_stock s + quantity_newly_reserved s
       - quantity_released_from_reservation s
  /\ closing_available_stock s =
       closing_physical_stock s - closing_reserved_stock s
  /\ quantity_released_from_reservation s <= quantity_sold s.

(** A line that sets the stock to an absolute target. *)
Definition is_adjustment (detail : TransactionDetail) : Prop :=
  td_movement_type detail = AJUSTE \/ td_movement_type detail = STOCK_INICIAL.

(** Two states of a replay with the same physical stock and the same
    totals of every movement but the release of reservations. *)
Definition same_physical (st1 st2 : intra_day) : Prop :=
  current_physical_stock_intra_day st1 = current_physical_stock_intra_day st2
  /\ sold (totals st1) = sold (totals st2)
  /\ returned (totals st1) = returned (totals st2)
  /\ purchased (totals st1) = purchased (totals st2)
  /\ adjusted (totals st1) = adjusted (totals st2)
  /\ transfer_in (totals st1) = transfer_in (totals st2)
  /\ transfer_out (totals st1) = transfer_out (totals st2)
  /\ newly_reserved (totals st1) = newly_reserved (totals st2).

(** The snapshot key belongs to a run over the days [lo .. hi - 1]. *)
Definition in_run (lo hi : date) (product_ids warehouse_ids : list Z)
    (d p w : Z) : Prop :=
  lo <= d < hi /\ p ∈ product_ids /\ w ∈ warehouse_ids.

(** What [db'] has kept of [db]: the transaction lines and the
    configurations, every snapshot and alert whose day, product and
    warehouse are not in [K], and a row (possibly updated) for every
    snapshot and alert key of [db]. *)
Definition untouched_outside (K : Z -> Z -> Z -> Prop) (db db' : tenant_db)
    : Prop :=
  transaction_details db' = transaction_details db
  /\ metric_configurations db' = metric_configurations db
  /\ (forall d p w, ~ K d p w ->
        daily_stock_snapshots db' !! (d, p, w)
          = daily_stock_snapshots db !! (d, p, w))
  /\ (forall d m p w, ~ K d p w ->
        metric_alerts db' !! (d, m, p, w) = metric_alerts db !! (d, m, p, w))
  /\ (forall k, is_Some (daily_stock_snapshots db !! k) ->
        is_Some (daily_stock_snapshots db' !! k))
  /\ (forall k, is_Some (metric_alerts db !! k) ->
        is_Some (metric_alerts db' !! k)).

(** Every snapshot of the days [lo .. hi - 1] of the given products and
    warehouses is the one the engine computes from the tables. *)
Definition up_to_date (lo hi : date) (product_ids warehouse_ids : list Z)
    (db : tenant_db) : Prop :=
  forall d p w, in_run lo hi product_ids warehouse_ids d p w ->
    daily_stock_snapshots db !! (d, p, w) = Some (compute_snapshot db d p w).

(** Every alert that the evaluation of the snapshot of day [d] of
    product [p] in warehouse [w] writes on the tables of [db] is the row
    [db] stores under its key; [db0] is the database the day started
    from. *)
Definition alerts_written (company_id : Z) (d : date)
    (all_configs : gmap Z (gmap MetricName config))
    (global_configs : gmap MetricName config) (db0 : tenant_db) (p w : Z)
    (db : tenant_db) : Prop :=
  forall ws,
    evaluation_writes (daily_stock_snapshots db) d p w
      (compute_snapshot db0 d p w)
      (default global_configs (all_configs !! w)) company_id = Ok ws ->
    forall x, x ∈ ws -> metric_alerts db !! x.1 = Some x.2.

(** The same for every snapshot of the days [lo .. hi - 1] of the given
    products and warehouses, with the configurations of [db]. *)
Definition alerts_current (company_id : Z) (lo hi : date)
    (product_ids warehouse_ids : list Z) (db : tenant_db) : Prop :=
  forall d p w all_configs global_configs,
    in_run lo hi product_ids warehouse_ids d p w ->
    build_all_configs (metric_configurations db) warehouse_ids
      = Ok all_configs ->
    metric_configs (metric_configurations db) None = Ok global_configs ->
    alerts_written company_id d all_configs global_configs db p w db.

(** [ORDER BY transaction_time] leaves no choice: two lines of the same
    day, product and warehouse with the same time are the same line. *)
Definition tie_free (rows : list TransactionDetail) : Prop :=
  forall x y, x ∈ rows -> y ∈ rows ->
    td_transaction_date x = td_transaction_date y ->
    td_product_id x = td_product_id y ->
    td_warehouse_id x = td_warehouse_id y ->
    td_transaction_time x = td_transaction_time y ->
    x = y.

(** The order [ORDER BY transaction_time] promises. *)
Definition by_time (x y : TransactionDetail) : Prop :=
  td_transaction_time x <= td_transaction_time y.

(** The database with its transaction lines stored as [lines]. *)
Definition with_lines (db : tenant_db) (lines : list TransactionDetail)
    : tenant_db :=
  {| metric_configurations := metric_configurations db;
     transaction_details := lines;
     daily_stock_snapshots := daily_stock_snapshots db;
     metric_alerts := metric_alerts db |}.

Definition relines (lines : list TransactionDetail) (r : result tenant_db)
    : result tenant_db :=
  match r with
  | Ok db => Ok (with_lines db lines)
  | Raise e => Raise e
  end.

End SnapshotService.

(** ** utils/calculate_alerts_days.py and the helper of
       routers/metrics_router.py *)

Module AlertDays.
Import Tenant.

(** [db.query(MetricAlert.id).filter(...).first()] is truthy. *)
Definition alert_exists (tbl : alerts) (product_id warehouse_id : Z)
    (metric_name : MetricName) (current_check_date : date) : bool :=
  bool_decide
    (is_Some (tbl !! (current_check_date, metric_name, product_id,
                      warehouse_id))).

(** The [for i in range(...)] loop from index [i] on, [remaining]
    iterations left. *)
Fixpoint scan (tbl : alerts) (product_id warehouse_id : Z)
    (metric_name : MetricName) (end_date : date)
    (remaining : nat) (i consecutive_days : Z) : Z :=
  match remaining with
  | O => consecutive_days
  | S remaining' =>
      let current_check_date := end_date - i in
      if alert_exists tbl product_id warehouse_id metric_name
           current_check_date
      then scan tbl product_id warehouse_id metric_name end_date
             remaining' (i + 1) (consecutive_days + 1)
      else consecutive_days
  end.

(** The body shared by the two copies of the function;
    [range(max_lookback_days + 1)] is empty for a negative bound. *)
Definition consecutive_alert_days (tbl : alerts) (product_id warehouse_id : Z)
    (metric_name : MetricName) (end_date : date) (max_lookback_days : Z)
    : Z :=
  scan tbl product_id warehouse_id metric_name end_date
    (Z.to_nat (max_lookback_days + 1)) 0 0.

(** utils/calculate_alerts_days.py; [None] for an omitted argument. *)
Module Utils.
Definition default_max_lookback_days : Z := 90.

Definition get_consecutive_alert_days (db : alerts)
    (product_id warehouse_id : Z) (metric_name : MetricName)
    (end_date : date) (max_lookback_days : option Z) : Z :=
  consecutive_alert_days db product_id warehouse_id metric_name end_date
    (default default_max_lookback_days max_lookback_days).
End Utils.

(** routers/metrics_router.py *)
Module Router.
Definition default_max_lookback_days : Z := 30.

Definition get_consecutive_alert_days (db : alerts)
    (product_id warehouse_id : Z) (metric_name : MetricName)
    (end_date : date) (max_lookback_days : option Z) : Z :=
  consecutive_alert_days db product_id warehouse_id metric_name end_date
    (default default_max_lookback_days max_lookback_days).
End Router.

(** services/metric_report_service.py: the copy used by the report
    generator fetches the alert dates of the window first and tests
    membership in that set.  The first day of the window,
    [end_date - timedelta(days=max_lookback_days)], is computed before
    any alert is read and raises [OverflowError] when it is not a
    date. *)
Module ReportService.
Definition default_max_lookback_days : Z := 30.

(** The set comprehension over the [BETWEEN] query. *)
Definition alert_dates (db : alerts) (product_id warehouse_id : Z)
    (metric_name : MetricName) (window_start end_date : date)
    : gset Z :=
  list_to_set
    ((fun r : alert_key * MetricAlert => r.1.1.1.1)
       <$> filter (fun r : alert_key * MetricAlert =>
                     r.1.1.2 = product_id /\ r.1.2 = warehouse_id
                     /\ r.1.1.1.2 = metric_name
                     /\ window_start <= r.1.1.1.1 <= end_date)
                  (map_to_list db)).

Fixpoint scan (alert_dates : gset Z) (end_date : date)
    (remaining : nat) (i consecutive_days : Z) : Z :=
  match remaining with
  | O => consecutive_days
  | S remaining' =>
      let current_check_date := end_date - i in
      if decide (current_check_date ∈ alert_dates)
      then scan alert_dates end_date remaining' (i + 1) (consecutive_days + 1)
      else consecutive_days
  end.

(** The days the loop probes lie between the first day of the window
    and [end_date], so for an [end_date] that is a date their computation
    does not fail. *)
Definition get_consecutive_alert_days (db : alerts)
    (product_id warehouse_id : Z) (metric_name : MetricName)
    (end_date : date) (max_lookback_days : option Z) : result Z :=
  let max_lookback_days :=
    default default_max_lookback_days max_lookback_days in
  window_start ← date_minus_days end_date max_lookback_days;
  let alert_dates :=
    alert_dates db product_id warehouse_id metric_name window_start
      end_date in
  if decide (alert_dates = ∅) then Ok 0
  else Ok (scan alert_dates end_date (Z.to_nat (max_lookback_days + 1)) 0 0).
End ReportService.

(** [k] is the length of the unbroken run of alert days ending at
    [end_date]: the days [end_date - i] for [i < k] have an alert and
    the day [end_date - k] has none. *)
Definition run_length (tbl : alerts) (product_id warehouse_id : Z)
    (metric_name : MetricName) (end_date : date) (k : Z) : Prop :=
  0 <= k
  /\ (forall i, 0 <= i < k ->
        is_Some (tbl !! (end_date - i, metric_name, product_id,
                         warehouse_id)))
  /\ tbl !! (end_date - k, metric_name, product_id, warehouse_id) = None.

(** A function that, called without a cap, returns the length of the
    run whatever it is. *)
Definition returns_run_length
    (f : alerts -> Z -> Z -> MetricName -> date -> option Z -> Z) : Prop :=
  forall tbl p w m D k, run_length tbl p w m D k -> f tbl p w m D None = k.

Definition example_alert : MetricAlert :=
  {| physical_stock_at_alert := 0; available_stock_at_alert := 0;
     reserved_stock_at_alert := 0; metric_value_numeric := None;
     metric_value_text := None; details_json := [] |}.

(** Alerts of product 1 in warehouse 1 for [stock_cero] on the [n] days
    ending at day 100. *)
Definition example_streak (n : nat) : alerts :=
  list_to_map
    ((fun i : Z => ((100 - i, STOCK_CERO, 1, 1), example_alert))
       <$> seqZ 0 (Z.of_nat n)).

(** Alerts on days 100, 99 and 98 and, further in the past, on day 90. *)
Definition example_gap : alerts :=
  <[ (90, STOCK_CERO, 1, 1) := example_alert ]> (example_streak 3).

End AlertDays.

(** ** schemas/metric_schemas.py and the read endpoint of
       routers/metrics_router.py *)

Module MetricsRouter.
Import Tenant.

(** Python [float]s are binary64 floats. *)
Record OverviewDataPoint : Type := {
  odp_date : date;
  net : float;
  deviation : float
}.

Record MetricDataItem : Type := {
  product_sku : string;
  product_name : string;
  store_name : string;
  category : option string;
  physical_stock : option Z;
  reserved_stock : option Z;
  available_stock : option Z;
  metric_value : option json_value;
  alert_days : option Z;
  alert_level : option Z;
  cost : option float;
  snapshot_date : date
}.

Record MetricGridItem : Type := {
  grid_name : string;
  metricId : MetricName;
  data : list MetricDataItem
}.

Record CounterItem : Type := {
  name : string;
  quantity : Z;
  information : string;
  backgroundColor : string;
  text1Color : string;
  text2Color : string;
  amount : option Z;
  price : option float
}.

Record DistributionItem : Type := {
  dist_name : string;
  dist_price : float
}.

Record EscalationProductItem : Type := {
  ep_name : string;
  alertDays : Z
}.

Record EscalationItem : Type := {
  title : string;
  esc_name : string;
  abbr : string;
  operation : string;
  value : Z;
  esc_quantity : Z;
  esc_information : string;
  background3Color : string;
  text3Color : string;
  background4Color : string;
  text4Color : string;
  amountAlert : Z;
  products : list EscalationProductItem
}.

Record MetricsApiResponse : Type := {
  resp_grid : list MetricGridItem;
  resp_overview : list OverviewDataPoint;
  resp_counters : list CounterItem;
  resp_distributions : list DistributionItem;
  resp_products : list EscalationItem
}.

(** The [report_data] of a pre-generated daily report, a serialized
    [MetricsApiResponse].  [rd_overview] is
    [report_data["overview"]["data"]], [None] when either level is absent
    or null; an absent list is empty as in [.get(key, [])]. *)
Record report_data : Type := {
  rd_overview : option (list OverviewDataPoint);
  rd_grid : list MetricGridItem;
  rd_counters : list CounterItem;
  rd_products : list EscalationItem
}.

(** Row of [generated_metric_reports]. *)
Record GeneratedMetricReport : Type := {
  report_date : date;
  gmr_warehouse_id : option Z;
  gmr_report_data : report_data
}.

(** [x or 0] for an optional integer. *)
Definition int_or_zero (x : option Z) : Z := default 0 x.

(** [f or 0.0] for a float: both zeros are falsy, a NaN is truthy. *)
Definition truthy_or_zero (f : float) : float :=
  if PrimFloat.eqb f 0%float then 0%float else f.

(** [x or 0.0] for an optional float. *)
Definition float_or_zero (x : option float) : float :=
  match x with
  | Some f => truthy_or_zero f
  | None => 0%float
  end.

(** The [else] branch of the counter merge. *)
Definition add_counter (agg item : CounterItem) : CounterItem :=
  {| name := name agg;
     quantity := quantity agg + quantity item;
     information := information agg;
     backgroundColor := backgroundColor agg;
     text1Color := text1Color agg;
     text2Color := text2Color agg;
     amount := Some (int_or_zero (amount agg) + int_or_zero (amount item));
     price := Some (PrimFloat.add (float_or_zero (price agg))
                                  (float_or_zero (price item))) |}.

(** Dictionaries keyed by a field of their values, in insertion order
    (the order of [dict.values()]). *)
Fixpoint merge_counter (aggregated_counters : list CounterItem)
    (counter_item_data : CounterItem) : list CounterItem :=
  match aggregated_counters with
  | [] => [counter_item_data]
  | c :: rest =>
      if decide (name c = name counter_item_data)
      then add_counter c counter_item_data :: rest
      else c :: merge_counter rest counter_item_data
  end.

Definition extend_grid (agg item : MetricGridItem) : MetricGridItem :=
  {| grid_name := grid_name agg; metricId := metricId agg;
     data := data agg ++ data item |}.

Fixpoint merge_grid (aggregated_grid : list MetricGridItem)
    (grid_item_data : MetricGridItem) : list MetricGridItem :=
  match aggregated_grid with
  | [] => [grid_item_data]
  | g :: rest =>
      if decide (metricId g = metricId grid_item_data)
      then extend_grid g grid_item_data :: rest
      else g :: merge_grid rest grid_item_data
  end.

Definition add_escalation (agg item : EscalationItem) : EscalationItem :=
  {| title := title agg; esc_name := esc_name agg; abbr := abbr agg;
     operation := operation agg; value := value agg;
     esc_quantity := esc_quantity agg + esc_quantity item;
     esc_information := esc_information agg;
     background3Color := background3Color agg;
     text3Color := text3Color agg;
     background4Color := background4Color agg;
     text4Color := text4Color agg;
     amountAlert := amountAlert agg + amountAlert item;
     products := products agg ++ products item |}.

Fixpoint merge_escalation (aggregated : list EscalationItem)
    (escalation_item_data : EscalationItem) : list EscalationItem :=
  match aggregated with
  | [] => [escalation_item_data]
  | e :: rest =>
      if decide (esc_name e = esc_name escalation_item_data)
      then add_escalation e escalation_item_data :: rest
      else e :: merge_escalation rest escalation_item_data
  end.

(** [sort(key=alertDays, reverse=True)]: stable, descending. *)
Fixpoint insert_by_alert_days (x : EscalationProductItem)
    (l : list EscalationProductItem) : list EscalationProductItem :=
  match l with
  | [] => [x]
  | y :: l' =>
      if bool_decide (alertDays y <= alertDays x)
      then x :: y :: l'
      else y :: insert_by_alert_days x l'
  end.

Definition sort_by_alert_days (l : list EscalationProductItem)
    : list EscalationProductItem :=
  foldr insert_by_alert_days [] l.

Definition top_products (item : EscalationItem) : EscalationItem :=
  {| title := title item; esc_name := esc_name item; abbr := abbr item;
     operation := operation item; value := value item;
     esc_quantity := esc_quantity item;
     esc_information := esc_information item;
     background3Color := background3Color item;
     text3Color := text3Color item;
     background4Color := background4Color item;
     text4Color := text4Color item;
     amountAlert := amountAlert item;
     products := take 4 (sort_by_alert_days (products item)) |}.

(** The four accumulators of step 3. *)
Record aggregation : Type := {
  aggregated_grid : list MetricGridItem;
  aggregated_counters : list CounterItem;
  aggregated_overview_points : list OverviewDataPoint;
  aggregated_escalation_items : list EscalationItem
}.

Definition empty_aggregation : aggregation :=
  {| aggregated_grid := []; aggregated_counters := [];
     aggregated_overview_points := []; aggregated_escalation_items := [] |}.

(** Body of [for report_date_obj, report_data in daily_reports_raw]. *)
Definition aggregate_report (agg : aggregation) (row : GeneratedMetricReport)
    : aggregation :=
  let report_data := gmr_report_data row in
  {| aggregated_overview_points :=
       match rd_overview report_data with
       | Some (dp :: dps) => aggregated_overview_points agg ++ dp :: dps
       | Some [] | None => aggregated_overview_points agg
       end;
     aggregated_grid := foldl merge_grid (aggregated_grid agg) (rd_grid report_data);
     aggregated_counters :=
       foldl merge_counter (aggregated_counters agg) (rd_counters report_data);
     aggregated_escalation_items :=
       foldl merge_escalation (aggregated_escalation_items agg)
         (rd_products report_data) |}.

(** Step 4. *)
Definition build_response (agg : aggregation) : MetricsApiResponse :=
  let final_counters := aggregated_counters agg in
  {| resp_grid := aggregated_grid agg;
     resp_overview := aggregated_overview_points agg;
     resp_counters := final_counters;
     resp_distributions :=
       (fun c => {| dist_name := name c;
                    dist_price := float_or_zero (price c) |})
         <$> final_counters;
     resp_products := top_products <$> aggregated_escalation_items agg |}.

(** [ORDER BY report_date], stable. *)
Fixpoint insert_by_report_date (x : GeneratedMetricReport)
    (l : list GeneratedMetricReport) : list GeneratedMetricReport :=
  match l with
  | [] => [x]
  | y :: l' =>
      if bool_decide (report_date x <= report_date y)
      then x :: y :: l'
      else y :: insert_by_report_date x l'
  end.

Definition order_by_report_date (l : list GeneratedMetricReport)
    : list GeneratedMetricReport :=
  foldr insert_by_report_date [] l.

(** Step 2: the rows of the date range, of one warehouse when
    [target_warehouse_id] is truthy, by report date. *)
Definition daily_reports_raw (tbl : list GeneratedMetricReport)
    (dateInit dateEnd : date) (target_warehouse_id : option Z)
    : list GeneratedMetricReport :=
  let query :=
    filter (fun r => dateInit <= report_date r <= dateEnd) tbl in
  let query :=
    match target_warehouse_id with
    | Some wh =>
        if decide (wh = 0) then query
        else filter (fun r => gmr_warehouse_id r = Some wh) query
    | None => query
    end in
  order_by_report_date query.

(** Steps 3 and 4 of [get_company_metrics_report]. *)
Definition aggregate_reports (raw : list GeneratedMetricReport)
    : MetricsApiResponse :=
  build_response (foldl aggregate_report empty_aggregation raw).

(** [get_company_metrics_report] from the query on.  For a range without
    reports the endpoint answers with [default_response], the all-zero
    response it builds from the display configuration of the company. *)
Definition get_company_metrics_report (default_response : MetricsApiResponse)
    (tbl : list GeneratedMetricReport) (dateInit dateEnd : date)
    (target_warehouse_id : option Z) : MetricsApiResponse :=
  match daily_reports_raw tbl dateInit dateEnd target_warehouse_id with
  | [] => default_response
  | raw => aggregate_reports raw
  end.


(** Every counter of the reports of a range, in the order they are
    visited. *)
Definition all_counters (raw : list GeneratedMetricReport) : list CounterItem :=
  concat ((fun row => rd_counters (gmr_report_data row)) <$> raw).







Definition example_default_response : MetricsApiResponse :=
  {| resp_grid := [];
     resp_overview := [{| odp_date := 11; net := 0%float; deviation := 0%float |}];
     resp_counters := []; resp_distributions := []; resp_products := [] |}.

(** The first item of a dictionary with a given name. *)
Definition find_counter (n : string) (l : list CounterItem)
    : option CounterItem :=
  head (filter (fun c => name c = n) l).


Definition sum_Z (l : list Z) : Z := foldr Z.add 0 l.

(** Every grid item and every escalation item of the reports of a range,
    in the order they are visited. *)
Definition all_grid_items (raw : list GeneratedMetricReport)
    : list MetricGridItem :=
  concat ((fun row => rd_grid (gmr_report_data row)) <$> raw).

Definition all_escalation_items (raw : list GeneratedMetricReport)
    : list EscalationItem :=
  concat ((fun row => rd_products (gmr_report_data row)) <$> raw).

Definition by_alert_days_desc (a b : EscalationProductItem) : Prop :=
  alertDays b <= alertDays a.

(** *** The escalation block of [_create_report_for_warehouse] *)

(** The columns of [metric_display_configurations] the block reads. *)
Record MetricDisplayConfiguration : Type := {
  dc_name : string;
  dc_title : option string;
  dc_abbreviation : option string;
  dc_information_1 : option string;
  dc_background_color_3 : option string;
  dc_text_color_3 : option string;
  dc_background_color_4 : option string;
  dc_text_color_4 : option string;
  dc_product_operation : option string;
  dc_product_number : option Z
}.

(** [s or d] for a nullable string: [None] and the empty string are
    falsy. *)
Definition str_or (s : option string) (d : string) : string :=
  match s with
  | Some EmptyString | None => d
  | Some s => s
  end.

(** [display_config.product_number or 3]. *)
Definition product_number_or_3 (n : option Z) : Z :=
  match n with
  | Some n => if decide (n = 0) then 3 else n
  | None => 3
  end.

(** A row of [q_alerts.all()]: the key columns of the alert and the name
    of the product joined to it. *)
Record alert_row : Type := {
  ar_product_id : Z;
  ar_warehouse_id : Z;
  ar_metric_name : MetricName;
  ar_product_name : string
}.

(** The loop over [all_alerts_for_metric]. *)
Definition escalation_candidates (tbl : alerts) (target_date : date)
    (display_config : MetricDisplayConfiguration)
    (all_alerts_for_metric : list alert_row) : list EscalationProductItem :=
  omap (fun row =>
          let consecutive_days :=
            AlertDays.Router.get_consecutive_alert_days tbl
              (ar_product_id row) (ar_warehouse_id row) (ar_metric_name row)
              target_date None in
          if bool_decide
               (product_number_or_3 (dc_product_number display_config)
                < consecutive_days)
          then Some {| ep_name := ar_product_name row;
                       alertDays := consecutive_days |}
          else None)
       all_alerts_for_metric.

(** [if display_config.show_products: ...]: the item appended to
    [all_escalation_items]. *)
Definition escalation_item (tbl : alerts) (target_date : date)
    (display_config : MetricDisplayConfiguration)
    (all_counters : list CounterItem)
    (all_alerts_for_metric : list alert_row) : EscalationItem :=
  let escalated_products :=
    sort_by_alert_days
      (escalation_candidates tbl target_date display_config
         all_alerts_for_metric) in
  let counter_for_metric :=
    find_counter (dc_name display_config) all_counters in
  {| title := str_or (dc_title display_config) "";
     esc_name := dc_name display_config;
     abbr := str_or (dc_abbreviation display_config) "N/A";
     operation := str_or (dc_product_operation display_config) "greater";
     value := product_number_or_3 (dc_product_number display_config);
     esc_quantity :=
       match counter_for_metric with
       | Some c => quantity c
       | None => 0
       end;
     esc_information := str_or (dc_information_1 display_config) "";
     background3Color :=
       str_or (dc_background_color_3 display_config) "#E0E0E0";
     text3Color := str_or (dc_text_color_3 display_config) "#212121";
     background4Color :=
       str_or (dc_background_color_4 display_config) "#9E9E9E";
     text4Color := str_or (dc_text_color_4 display_config) "#FFFFFF";
     amountAlert := Z.of_nat (length escalated_products);
     products := take 4 escalated_products |}.

(** The rows whose run of alert days exceeds the threshold. *)
Definition escalates (tbl : alerts) (target_date : date) (threshold : Z)
    (row : alert_row) : Prop :=
  threshold
  < AlertDays.Router.get_consecutive_alert_days tbl (ar_product_id row)
      (ar_warehouse_id row) (ar_metric_name row) target_date None.

#[global] Instance escalates_dec (tbl : alerts) (target_date : date)
    (threshold : Z) (row : alert_row) :
  Decision (escalates tbl target_date threshold row).
Proof. unfold escalates. apply _. Defined.

Definition example_escalation (n : string) (q a : Z)
    (ps : list EscalationProductItem) : EscalationItem :=
  {| title := "Stock cero"; esc_name := n; abbr := "SC";
     operation := "greater"; value := 3; esc_quantity := q;
     esc_information := ""; background3Color := "#E0E0E0";
     text3Color := "#212121"; background4Color := "#9E9E9E";
     text4Color := "#FFFFFF"; amountAlert := a; products := ps |}.

(** A daily report with a grid item and an escalation item of
    [stock_cero]. *)
Definition example_escalation_report (d : date) (days : Z)
    : GeneratedMetricReport :=
  {| report_date := d; gmr_warehouse_id := Some 1;
     gmr_report_data :=
       {| rd_overview := None;
          rd_grid := [{| grid_name := "Stock cero"; metricId := STOCK_CERO;
                         data := [] |}];
          rd_counters := [];
          rd_products :=
            [example_escalation "stock_cero" 2 1
               [{| ep_name := "A"; alertDays := days |}]] |} |}.

End MetricsRouter.

(** ** core/security.py, crud/user_crud.py and routers/auth_router.py *)

Module Auth.

(** The settings the password-reset flow reads. *)
Record Settings : Type := {
  SECRET_KEY : string;
  ALGORITHM : string;
  PASSWORD_RESET_TOKEN_EXPIRE_MINUTES : Z
}.

Definition settings : Settings :=
  {| SECRET_KEY := "XM01HG29R2HP"; ALGORITHM := "HS256";
     PASSWORD_RESET_TOKEN_EXPIRE_MINUTES := 15 |}.

(** Row of [users] (the columns the flow reads or writes). *)
Record User : Type := {
  id : Z;
  email : string;
  hashed_password : string;
  is_active : bool;
  is_superuser : bool
}.

(** A signed JWT, by the key and algorithm it was signed with and the
    claims it carries; times are seconds since the epoch.  The JWT
    library itself is outside the repository. *)
Record jwt : Type := {
  signed_with : string;
  signed_alg : string;
  exp : option Z;
  nbf : option Z;
  sub : option string;
  aud : option string;
  token_type : option string
}.

(** [jwt.decode(token, key, algorithms=[alg], audience=audience)]:
    [None] stands for a [JWTError] (bad signature or algorithm, expired,
    not yet valid, wrong or missing audience). *)
Definition jwt_decode (now : Z) (token : jwt) (key alg : string)
    (audience : string) : option jwt :=
  if bool_decide (signed_with token = key)
     && bool_decide (signed_alg token = alg)
     && match exp token with Some e => bool_decide (now <= e) | None => true end
     && match nbf token with Some n => bool_decide (n <= now) | None => true end
     && bool_decide (aud token = Some audience)
  then Some token else None.

Definition create_password_reset_token (cfg : Settings) (now : Z)
    (email : string) : jwt :=
  let delta := 60 * PASSWORD_RESET_TOKEN_EXPIRE_MINUTES cfg in
  let expires := now + delta in
  {| signed_with := SECRET_KEY cfg; signed_alg := ALGORITHM cfg;
     exp := Some expires; nbf := Some now; sub := Some email;
     aud := Some "password_reset"; token_type := None |}.

(** [decoded_token["sub"]] raises a [KeyError], which the
    [except JWTError] does not catch. *)
Definition verify_password_reset_token (cfg : Settings) (now : Z)
    (token : jwt) : result (option string) :=
  match jwt_decode now token (SECRET_KEY cfg) (ALGORITHM cfg)
          "password_reset" with
  | Some decoded_token =>
      match sub decoded_token with
      | Some s => Ok (Some s)
      | None => Raise (KeyError "sub")
      end
  | None => Ok None
  end.

(** *** crud/user_crud.py *)

Definition get_user_by_email (db : list User) (email_ : string) : option User :=
  head (filter (fun u => email u = email_) db).

Definition set_hashed_password (u : User) (h : string) : User :=
  {| id := id u; email := email u; hashed_password := h;
     is_active := is_active u; is_superuser := is_superuser u |}.

(** [update_password(db, user, new_password_hashed)]: the row of [user]
    gets the new hash and is committed. *)
Definition update_password (db : list User) (user : User)
    (new_password_hashed : string) : list User * User :=
  let user' := set_hashed_password user new_password_hashed in
  ((fun u => if decide (id u = id user) then user' else u) <$> db, user').

(** The functions the module [crud.user_crud] defines. *)
Inductive user_crud_function : Type :=
  | f_get_user | f_get_user_by_email | f_get_users | f_create_user
  | f_delete_user | f_update_user_profile | f_get_company_by_rut
  | f_update_password | f_update_user.

(** [getattr(user_crud, name)] for a function call [user_crud.name(...)]:
    the module has no other callable of these names (the remaining
    attributes are the imported classes and helpers). *)
Definition user_crud_getattr (name : string) : result user_crud_function :=
  if decide (name = "get_user") then Ok f_get_user
  else if decide (name = "get_user_by_email") then Ok f_get_user_by_email
  else if decide (name = "get_users") then Ok f_get_users
  else if decide (name = "create_user") then Ok f_create_user
  else if decide (name = "delete_user") then Ok f_delete_user
  else if decide (name = "update_user_profile") then Ok f_update_user_profile
  else if decide (name = "get_company_by_rut") then Ok f_get_company_by_rut
  else if decide (name = "update_password") then Ok f_update_password
  else if decide (name = "update_user") then Ok f_update_user
  else Raise (AttributeError "crud.user_crud" name).

(** A call [f(db=db, user=user, new_password=new_password)]: no function
    of the module has a parameter [new_password]. *)
Definition call_db_user_new_password (f : user_crud_function)
    (db : list User) (user : User) (new_password : string)
    : result (list User) :=
  Raise TypeError.

(** *** routers/auth_router.py *)

Record PasswordReset : Type := {
  token : jwt;
  new_password : string
}.

Inductive background_task : Type :=
  | send_password_reset_email (email_to : string) (token : jwt).

Definition request_password_reset (cfg : Settings) (now : Z)
    (request_body_email : string) (background_tasks : list background_task)
    (db : list User) : list background_task * string :=
  let user := get_user_by_email db request_body_email in
  let background_tasks :=
    match user with
    | None => background_tasks
    | Some user =>
        let password_reset_token :=
          create_password_reset_token cfg now (email user) in
        background_tasks
          ++ [send_password_reset_email (email user) password_reset_token]
    end in
  (background_tasks,
   "If an account with that email exists, a password reset link has been sent.").

(** The endpoint returns the (unchanged or updated) table with the
    response body, or raises. *)
Definition reset_password (cfg : Settings) (now : Z)
    (reset_data : PasswordReset) (db : list User)
    : result (list User * string) :=
  email_ ← verify_password_reset_token cfg now (token reset_data);
  match email_ with
  | None | Some "" =>
      Raise (HTTPException 400 "Invalid or expired token")
  | Some email_ =>
      match get_user_by_email db email_ with
      | None => Raise (HTTPException 404 "User not found")
      | Some user =>
          if negb (is_active user)
          then Raise (HTTPException 400 "Inactive user")
          else
            change_password ← user_crud_getattr "change_password";
            db' ← call_db_user_new_password change_password db user
                     (new_password reset_data);
            Ok (db', "Password updated successfully")
      end
  end.

(** One active user and a reset token issued for that user at time 1000. *)
Definition example_user : User :=
  {| id := 1; email := "ana@example.com"; hashed_password := "$2b$12$old";
     is_active := true; is_superuser := false |}.

Definition example_reset : PasswordReset :=
  {| token := create_password_reset_token settings 1000 "ana@example.com";
     new_password := "new-password-123" |}.

(** *** Access and refresh tokens (core/security.py) *)

(** core/config.py; security.py reads both when it is imported. *)
Definition ACCESS_TOKEN_EXPIRE_MINUTES : Z := 10080.
Definition REFRESH_TOKEN_EXPIRE_DAYS : Z := 30.

(** [jwt.decode(token, key, algorithms=[alg])], no audience given:
    [None] stands for a [JWTError] (bad signature or algorithm, expired,
    not yet valid, or a token that carries an audience). *)
Definition jwt_decode_plain (now : Z) (token : jwt) (key alg : string)
    : option jwt :=
  if bool_decide (signed_with token = key)
     && bool_decide (signed_alg token = alg)
     && match exp token with Some e => bool_decide (now <= e) | None => true end
     && match nbf token with Some n => bool_decide (n <= now) | None => true end
     && bool_decide (aud token = None)
  then Some token else None.

(** [expires_delta] is in seconds; [None] and [timedelta(0)] are
    falsy. *)
Definition create_access_token (cfg : Settings) (now : Z) (subject : string)
    (expires_delta : option Z) : jwt :=
  let expire :=
    match expires_delta with
    | Some d =>
        if decide (d = 0) then now + 60 * ACCESS_TOKEN_EXPIRE_MINUTES
        else now + d
    | None => now + 60 * ACCESS_TOKEN_EXPIRE_MINUTES
    end in
  {| signed_with := SECRET_KEY cfg; signed_alg := ALGORITHM cfg;
     exp := Some expire; nbf := None; sub := Some subject; aud := None;
     token_type := Some "access" |}.

Definition create_refresh_token (cfg : Settings) (now : Z) (subject : string)
    (expires_delta : option Z) : jwt :=
  let expire :=
    match expires_delta with
    | Some d =>
        if decide (d = 0) then now + 86400 * REFRESH_TOKEN_EXPIRE_DAYS
        else now + d
    | None => now + 86400 * REFRESH_TOKEN_EXPIRE_DAYS
    end in
  {| signed_with := SECRET_KEY cfg; signed_alg := ALGORITHM cfg;
     exp := Some expire; nbf := None; sub := Some subject; aud := None;
     token_type := Some "refresh" |}.

Definition verify_refresh_token (cfg : Settings) (now : Z) (token : jwt)
    : option string :=
  match jwt_decode_plain now token (SECRET_KEY cfg) (ALGORITHM cfg) with
  | Some decoded_token =>
      if decide (token_type decoded_token = Some "refresh")
      then sub decoded_token
      else None
  | None => None
  end.

(** *** The login and refresh endpoints (routers/auth_router.py) *)

Record Token : Type := {
  access_token : jwt;
  tok_token_type : string;
  refresh_token : jwt
}.

Section Login.
(** [pwd_context.verify] and [pwd_context.hash] of passlib. *)
Context (verify_password : string -> string -> bool)
        (get_password_hash : string -> string).

(** The [headers] of the 401 responses are left out of the exception. *)
Definition login_for_access_token (cfg : Settings) (now : Z)
    (login_data_email login_data_password : string) (db : list User)
    : result Token :=
  match get_user_by_email db login_data_email with
  | None => Raise (HTTPException 401 "Incorrect email or password")
  | Some user =>
      if negb (verify_password login_data_password (hashed_password user))
      then Raise (HTTPException 401 "Incorrect email or password")
      else if negb (is_active user)
      then Raise (HTTPException 400 "Inactive user")
      else
        let access_token_expires := 60 * ACCESS_TOKEN_EXPIRE_MINUTES in
        Ok {| access_token :=
                create_access_token cfg now (email user)
                  (Some access_token_expires);
              tok_token_type := "bearer";
              refresh_token :=
                create_refresh_token cfg now (email user) None |}
  end.

(** routers/user_router.py: [PUT /users/me/change-password]. *)
Definition change_current_user_password
    (current_password new_password_ : string) (db : list User)
    (current_user : User) : result (list User) :=
  if negb (verify_password current_password (hashed_password current_user))
  then Raise (HTTPException 400 "Incorrect current password")
  else if decide (current_password = new_password_)
  then Raise (HTTPException 400
                "New password cannot be the same as the old password")
  else
    let hashed_new_password := get_password_hash new_password_ in
    Ok (update_password db current_user hashed_new_password).1.

End Login.

Definition refresh_access_token (cfg : Settings) (now : Z)
    (incoming_refresh_token : jwt) (db : list User) : result Token :=
  match verify_refresh_token cfg now incoming_refresh_token with
  | None | Some EmptyString =>
      Raise (HTTPException 401 "Invalid or expired refresh token")
  | Some email_ =>
      match get_user_by_email db email_ with
      | None => Raise (HTTPException 401 "User not found for refresh token")
      | Some user =>
          if negb (is_active user)
          then Raise (HTTPException 400 "Inactive user")
          else
            let new_access_token_expires :=
              60 * ACCESS_TOKEN_EXPIRE_MINUTES in
            Ok {| access_token :=
                    create_access_token cfg now (email user)
                      (Some new_access_token_expires);
                  tok_token_type := "bearer";
                  refresh_token :=
                    create_refresh_token cfg now (email user) None |}
      end
  end.

(** A password check for the examples: the hash is the password after
    a fixed prefix. *)
Definition example_verify (plain hashed : string) : bool :=
  bool_decide (hashed = String.append "$2b$12$" plain).

Definition example_hash (plain : string) : string :=
  String.append "$2b$12$" plain.

End Auth.

(** ** routers/transaction_router.py: bulk ingestion *)

Module TransactionRouter.
Import Tenant.

Record Warehouse : Type := {
  wh_id : Z;
  wh_name : string
}.

(** [cost] is a nullable [Numeric]; a [Decimal] is a rational. *)
Record Product : Type := {
  prod_id : Z;
  prod_name : string;
  code : string;
  prod_category : option string;
  prod_cost : option Q
}.

(** The bulk task stores every transaction with the time 00:00:00. *)
Record Transaction : Type := {
  tx_id : Z;
  reference_code : string;
  transaction_date : date;
  warehouse_id : Z
}.

Record DetailRow : Type := {
  det_transaction_id : Z;
  det_product_id : Z;
  det_quantity : Z;
  det_unit_cost : option Q;
  det_movement_type : MovementType
}.

Record tables : Type := {
  warehouses : list Warehouse;
  products : list Product;
  transactions : list Transaction;
  details : list DetailRow
}.

(** A validated payload item; [tipo] is one of the literals of
    [MovementTypeStr], that is, a [MovementType] value. *)
Record TransactionItemPayload : Type := {
  sucursal : string;
  transaccion : string;
  sku : string;
  descripcion : string;
  tipo : MovementType;
  categoria : option string;
  cantidad : Z;
  costo : option Q;
  fecha_movimiento : date
}.

(** The next value of a serial primary key. *)
Definition fresh_id (ids : list Z) : Z := 1 + foldr Z.max 0 ids.

(** A dictionary comprehension: a later pair replaces an earlier one
    with the same key. *)
Definition dict_of {V : Type} (l : list (string * V)) : gmap string V :=
  foldl (fun m kv => <[ kv.1 := kv.2 ]> m) ∅ l.

(** [defaultdict(list)] in insertion order: append to the group of the
    key or open a new group at the end. *)
Fixpoint group_append (groups : list ((string * string) * list TransactionItemPayload))
    (k : string * string) (item : TransactionItemPayload)
    : list ((string * string) * list TransactionItemPayload) :=
  match groups with
  | [] => [(k, [item])]
  | (k', items) :: rest =>
      if decide (k' = k) then (k', items ++ [item]) :: rest
      else (k', items) :: group_append rest k item
  end.

(** The task's view of the session: the tables with the pending rows,
    the caches and the sets of affected ids. *)
Record task_state : Type := {
  session : tables;
  warehouses_cache : gmap string Warehouse;
  products_cache : gmap string Product;
  affected_warehouse_ids : gset Z;
  affected_products_ids : gset Z
}.

Section Task.
(** [str.lower]. *)
Context (lower : string -> string).

(** Step 2. *)
Definition grouped_transactions (payload : list TransactionItemPayload)
    : list ((string * string) * list TransactionItemPayload) :=
  foldl (fun groups item =>
           group_append groups (lower (sucursal item), transaccion item) item)
        [] payload.

Definition affected_dates (payload : list TransactionItemPayload) : gset Z :=
  list_to_set (fecha_movimiento <$> payload).

(** Step 1. *)
Definition initial_state (db : tables) : task_state :=
  {| session := db;
     warehouses_cache :=
       dict_of ((fun w => (lower (wh_name w), w)) <$> warehouses db);
     products_cache := dict_of ((fun p => (code p, p)) <$> products db);
     affected_warehouse_ids := ∅;
     affected_products_ids := ∅ |}.

Definition existing_transactions_cache (db : tables) : gset (string * Z) :=
  list_to_set ((fun t => (reference_code t, warehouse_id t))
                 <$> transactions db).

(** "Obtener o Crear Sucursal", then [affected_warehouse_ids.add]. *)
Definition get_or_create_warehouse (st : task_state) (sucursal_lower : string)
    (first_item : TransactionItemPayload) : task_state * Warehouse :=
  match warehouses_cache st !! sucursal_lower with
  | Some warehouse =>
      ({| session := session st;
          warehouses_cache := warehouses_cache st;
          products_cache := products_cache st;
          affected_warehouse_ids :=
            {[ wh_id warehouse ]} ∪ affected_warehouse_ids st;
          affected_products_ids := affected_products_ids st |},
       warehouse)
  | None =>
      let warehouse :=
        {| wh_id := fresh_id (wh_id <$> warehouses (session st));
           wh_name := sucursal first_item |} in
      ({| session :=
            {| warehouses := warehouses (session st) ++ [warehouse];
               products := products (session st);
               transactions := transactions (session st);
               details := details (session st) |};
          warehouses_cache :=
            <[ sucursal_lower := warehouse ]> (warehouses_cache st);
          products_cache := products_cache st;
          affected_warehouse_ids :=
            {[ wh_id warehouse ]} ∪ affected_warehouse_ids st;
          affected_products_ids := affected_products_ids st |},
       warehouse)
  end.

(** [Decimal(item.costo) / Decimal(item.cantidad) if item.cantidad > 0
    else Decimal(0)]; [Decimal(None)] raises a [TypeError]. *)
Definition new_product_cost (item : TransactionItemPayload) : result Q :=
  if bool_decide (0 < cantidad item) then
    match costo item with
    | Some c => Ok (c / inject_Z (cantidad item))%Q
    | None => Raise TypeError
    end
  else Ok 0%Q.

(** "Obtener o Crear Producto". *)
Definition get_or_create_product (st : task_state)
    (item : TransactionItemPayload) : result (task_state * Product) :=
  match products_cache st !! sku item with
  | Some product => Ok (st, product)
  | None =>
      cost ← new_product_cost item;
      let product :=
        {| prod_id := fresh_id (prod_id <$> products (session st));
           prod_name := descripcion item; code := sku item;
           prod_category := categoria item; prod_cost := Some cost |} in
      Ok ({| session :=
               {| warehouses := warehouses (session st);
                  products := products (session st) ++ [product];
                  transactions := transactions (session st);
                  details := details (session st) |};
             warehouses_cache := warehouses_cache st;
             products_cache := <[ sku item := product ]> (products_cache st);
             affected_warehouse_ids := affected_warehouse_ids st;
             affected_products_ids := affected_products_ids st |},
          product)
  end.

(** Body of [for item in items]. *)
Definition add_detail (new_transaction : Transaction) (st : task_state)
    (item : TransactionItemPayload) : result task_state :=
  '(st, product) ← get_or_create_product st item;
  let detail :=
    {| det_transaction_id := tx_id new_transaction;
       det_product_id := prod_id product;
       det_quantity := cantidad item;
       det_unit_cost := prod_cost product;
       det_movement_type := tipo item |} in
  Ok {| session :=
          {| warehouses := warehouses (session st);
             products := products (session st);
             transactions := transactions (session st);
             details := details (session st) ++ [detail] |};
        warehouses_cache := warehouses_cache st;
        products_cache := products_cache st;
        affected_warehouse_ids := affected_warehouse_ids st;
        affected_products_ids :=
          {[ prod_id product ]} ∪ affected_products_ids st |}.

(** Body of [for (sucursal_lower, ref_code), items in ...]. *)
Definition process_group (existing : gset (string * Z)) (st : task_state)
    (group : (string * string) * list TransactionItemPayload)
    : result task_state :=
  let '((sucursal_lower, ref_code), items) := group in
  match items with
  | [] => Raise IndexError
  | first_item :: _ =>
      let '(st, warehouse) :=
        get_or_create_warehouse st sucursal_lower first_item in
      if decide ((ref_code, wh_id warehouse) ∈ existing) then Ok st
      else
        let new_transaction :=
          {| tx_id := fresh_id (tx_id <$> transactions (session st));
             reference_code := ref_code;
             transaction_date := fecha_movimiento first_item;
             warehouse_id := wh_id warehouse |} in
        let st :=
          {| session :=
               {| warehouses := warehouses (session st);
                  products := products (session st);
                  transactions := transactions (session st) ++ [new_transaction];
                  details := details (session st) |};
             warehouses_cache := warehouses_cache st;
             products_cache := products_cache st;
             affected_warehouse_ids := affected_warehouse_ids st;
             affected_products_ids := affected_products_ids st |} in
        for_each (add_detail new_transaction) st items
  end.

(** Steps 1 to 3 of [_process_bulk_transactions_task] up to the commit:
    the committed tables, or the tables as they were (rollback) with the
    exception. *)
Definition _process_bulk_transactions_task (db : tables)
    (payload : list TransactionItemPayload) : tables * option exn :=
  match for_each
          (process_group (existing_transactions_cache db))
          (initial_state db) (grouped_transactions payload) with
  | Ok st => (session st, None)
  | Raise e => (db, Some e)
  end.

End Task.

(** ASCII lower-casing, for the examples. *)
Definition ascii_lower_char (c : Ascii.ascii) : Ascii.ascii :=
  let n := Ascii.nat_of_ascii c in
  if (65 <=? n)%nat && (n <=? 90)%nat then Ascii.ascii_of_nat (n + 32) else c.

Fixpoint ascii_lower (s : string) : string :=
  match s with
  | EmptyString => EmptyString
  | String c s' => String (ascii_lower_char c) (ascii_lower s')
  end.

Definition empty_tables : tables :=
  {| warehouses := []; products := []; transactions := []; details := [] |}.

Definition example_item (suc ref sku_ : string) (q : Z) (c : option Q)
    : TransactionItemPayload :=
  {| sucursal := suc; transaccion := ref; sku := sku_;
     descripcion := "Producto"; tipo := VENTA; categoria := None;
     cantidad := q; costo := c; fecha_movimiento := 10 |}.

(** *** The predicates of the properties *)

Definition item_key (lower : string -> string) (item : TransactionItemPayload)
    : string * string :=
  (lower (sucursal item), transaccion item).

Definition tx_key (t : Transaction) : string * Z :=
  (reference_code t, warehouse_id t).

(** The groups partition the payload by key and none is empty. *)
Definition well_grouped (lower : string -> string)
    (payload : list TransactionItemPayload)
    (groups : list ((string * string) * list TransactionItemPayload)) : Prop :=
  (forall k items, (k, items) ∈ groups ->
     items <> [] /\ forall it, it ∈ items -> item_key lower it = k /\ it ∈ payload)
  /\ (forall it, it ∈ payload ->
        exists items, (item_key lower it, items) ∈ groups /\ it ∈ items).

(** The caches point into the session. *)
Definition caches_ok (lower : string -> string) (st : task_state) : Prop :=
  (forall k w, warehouses_cache st !! k = Some w ->
     w ∈ warehouses (session st) /\ lower (wh_name w) = k)
  /\ (forall k p, products_cache st !! k = Some p ->
        p ∈ products (session st) /\ code p = k).

(** The session extends the tables [db] it started from by the
    transactions [new_tx], whose keys were not in the table, and by the
    details [new_details], each of a new transaction. *)
Definition session_new (db : tables) (st : task_state)
    (new_tx : list Transaction) (new_details : list DetailRow) : Prop :=
  transactions (session st) = transactions db ++ new_tx
  /\ details (session st) = details db ++ new_details
  /\ (forall t, t ∈ new_tx -> tx_key t ∉ existing_transactions_cache db)
  /\ (forall d, d ∈ new_details ->
        exists t, t ∈ new_tx /\ det_transaction_id d = tx_id t).

Definition session_ok (lower : string -> string) (db : tables)
    (st : task_state) : Prop :=
  caches_ok lower st
  /\ exists new_tx new_details, session_new db st new_tx new_details.

(** The item was skipped because its transaction existed, or its detail
    was attached to its product, in a transaction of its warehouse. *)
Definition ingested (lower : string -> string) (db : tables)
    (item : TransactionItemPayload) (st : task_state) : Prop :=
  exists w,
    warehouses_cache st !! lower (sucursal item) = Some w
    /\ ((transaccion item, wh_id w) ∈ existing_transactions_cache db
        \/ exists p t d,
             products_cache st !! sku item = Some p
             /\ t ∈ transactions (session st)
             /\ tx_key t = (transaccion item, wh_id w)
             /\ d ∈ details (session st)
             /\ det_transaction_id d = tx_id t
             /\ det_product_id d = prod_id p
             /\ det_quantity d = cantidad item
             /\ det_movement_type d = tipo item).

(** Nothing the task has cached or stored is lost by a later step. *)
Definition grows (st st' : task_state) : Prop :=
  (forall k w, warehouses_cache st !! k = Some w ->
     warehouses_cache st' !! k = Some w)
  /\ (forall k p, products_cache st !! k = Some p ->
        products_cache st' !! k = Some p)
  /\ (forall t, t ∈ transactions (session st) -> t ∈ transactions (session st'))
  /\ (forall d, d ∈ details (session st) -> d ∈ details (session st')).

(** The detail of an item is in the session, attached to [t]. *)
Definition detail_attached (t : Transaction) (item : TransactionItemPayload)
    (st : task_state) : Prop :=
  exists p d,
    products_cache st !! sku item = Some p
    /\ d ∈ details (session st)
    /\ det_transaction_id d = tx_id t
    /\ det_product_id d = prod_id p
    /\ det_quantity d = cantidad item
    /\ det_movement_type d = tipo item.

(** The caches are the dictionaries of the tables of the session. *)
Definition caches_coherent (lower : string -> string) (st : task_state)
    : Prop :=
  warehouses_cache st
    = dict_of ((fun w => (lower (wh_name w), w)) <$> warehouses (session st))
  /\ products_cache st
      = dict_of ((fun p => (code p, p)) <$> products (session st)).

(** Every row of [db] is a row of [db'], at the same place and unchanged:
    the tables of [db'] are those of [db] with rows appended. *)
Definition rows_kept (db db' : tables) : Prop :=
  warehouses db `prefix_of` warehouses db'
  /\ products db `prefix_of` products db'
  /\ transactions db `prefix_of` transactions db'
  /\ details db `prefix_of` details db'.

(** No two warehouses with the same name up to case, no two products
    with the same code. *)
Definition names_unique (lower : string -> string) (db : tables) : Prop :=
  NoDup ((fun w => lower (wh_name w)) <$> warehouses db)
  /\ NoDup (code <$> products db).

(** What the task keeps true of its session, started from [db]. *)
Definition task_invariant (lower : string -> string) (db : tables)
    (st : task_state) : Prop :=
  caches_coherent lower st
  /\ rows_kept db (session st)
  /\ (names_unique lower db -> names_unique lower (session st)).

(** The keys the database enforces on the two tables: the primary key
    of [warehouses] and the constraint [_reference_code_warehouse_uc] of
    [transactions]. *)
Definition keys_unique (db : tables) : Prop :=
  NoDup (wh_id <$> warehouses db) /\ NoDup (tx_key <$> transactions db).

(** Where the transactions of the session come from, [done] being the
    keys of the groups processed so far: from the table, or from a
    processed group, for the warehouse cached under the name of the
    group. *)
Definition transactions_traced (db : tables) (done : list (string * string))
    (st : task_state) : Prop :=
  forall t, t ∈ transactions (session st) ->
    t ∈ transactions db
    \/ exists sl w, (sl, reference_code t) ∈ done
         /\ warehouses_cache st !! sl = Some w
         /\ wh_id w = warehouse_id t.

(** The group a payload item opens. *)
Definition singleton_group (lower : string -> string)
    (item : TransactionItemPayload)
    : (string * string) * list TransactionItemPayload :=
  (item_key lower item, [item]).

Definition join_groups
    (g x : (string * string) * list TransactionItemPayload)
    : (string * string) * list TransactionItemPayload :=
  (g.1, g.2 ++ x.2).

End TransactionRouter.

(** * Properties *)

Lemma bind_Ok {A B : Type} (m : result A) (k : A -> result B) (b : B) :
  m ≫= k = Ok b <-> exists a, m = Ok a /\ k a = Ok b.
Proof.
  destruct m as [a|e]; cbn; split.
  - intros H. exists a. by split.
  - by intros (a' & [= <-] & H).
  - discriminate.
  - by intros (a' & [=] & _).
Qed.

Lemma for_each_invariant {St A : Type} (body : St -> A -> result St)
    (P : St -> Prop) (Q : A -> St -> Prop) (l : list A) :
  (forall st a st', a ∈ l -> P st -> body st a = Ok st' -> P st' /\ Q a st') ->
  (forall st a st' b, a ∈ l -> P st -> Q b st -> body st a = Ok st' -> Q b st') ->
  forall st st', P st -> for_each body st l = Ok st' ->
    P st' /\ (forall b, Q b st -> Q b st') /\ forall a, a ∈ l -> Q a st'.
Proof.
  induction l as [|a l IH]; simpl; intros Hstep Hkeep st st' HP H.
  - inversion H; subst. repeat split; [done..|].
    intros a Ha. by apply elem_of_nil in Ha.
  - apply bind_Ok in H as (st1 & H1 & H2).
    assert (a ∈ a :: l) as Ha by (by left).
    destruct (Hstep _ _ _ Ha HP H1) as [HP1 HQ1].
    destruct (IH (fun st a st' Hin => Hstep st a st' (list_elem_of_further _ _ _ Hin))
                 (fun st a st' b Hin =>
                    Hkeep st a st' b (list_elem_of_further _ _ _ Hin))
                 _ _ HP1 H2) as (HP' & Hk' & HQ').
    split; [done|]. split.
    + intros b Hb. apply Hk'. exact (Hkeep _ _ _ _ Ha HP Hb H1).
    + intros b Hb. apply elem_of_cons in Hb as [->|Hb].
      * by apply Hk'.
      * by apply HQ'.
Qed.

Lemma for_each_preserves {St A : Type} (body : St -> A -> result St)
    (P : St -> Prop) (l : list A) :
  (forall st a st', a ∈ l -> P st -> body st a = Ok st' -> P st') ->
  forall st st', P st -> for_each body st l = Ok st' -> P st'.
Proof.
  induction l as [|a l IH]; simpl; intros Hstep st st' HP H.
  - by inversion H; subst.
  - apply bind_Ok in H as (st1 & H1 & H2).
    apply (IH (fun s b s' Hb => Hstep s b s' (list_elem_of_further _ _ _ Hb))
              st1 st'); [|exact H2].
    apply (Hstep st a st1); [by left|exact HP|exact H1].
Qed.

Lemma for_each_total_invariant {St A : Type} (body : St -> A -> result St)
    (P : St -> Prop) (l : list A) :
  (forall st a, a ∈ l -> P st -> exists st', body st a = Ok st' /\ P st') ->
  forall st, P st -> exists st', for_each body st l = Ok st' /\ P st'.
Proof.
  induction l as [|a l IH]; simpl; intros Hstep st HP; [by exists st|].
  destruct (Hstep st a) as (st1 & -> & HP1); [by left|exact HP|]. cbn.
  apply IH; [|exact HP1]. intros s b Hb. apply Hstep. by right.
Qed.

Lemma for_each_total {St A : Type} (body : St -> A -> result St)
    (l : list A) :
  (forall st a, a ∈ l -> exists st', body st a = Ok st') ->
  forall st, exists st', for_each body st l = Ok st'.
Proof.
  induction l as [|a l IH]; simpl; intros Hb st; [by eexists|].
  destruct (Hb st a) as [st1 ->]; [by left|]. cbn. apply IH.
  intros st' b Hin. apply Hb. by right.
Qed.

Lemma NoDup_fmap_elem {A B : Type} (f : A -> B) (l : list A) (x y : A) :
  NoDup (f <$> l) -> x ∈ l -> y ∈ l -> f x = f y -> x = y.
Proof.
  induction l as [|a l IH]; intros Hnd Hx Hy E; [by apply elem_of_nil in Hx|].
  rewrite fmap_cons in Hnd. apply NoDup_cons in Hnd as [Ha Hnd].
  apply elem_of_cons in Hx as [->|Hx], Hy as [->|Hy].
  - done.
  - exfalso. apply Ha. rewrite E. apply list_elem_of_fmap. by exists y.
  - exfalso. apply Ha. rewrite <- E. apply list_elem_of_fmap. by exists x.
  - by apply IH.
Qed.

Section MergeBy.
Context {A K : Type} `{EqDecision K} (key : A -> K) (add : A -> A -> A).
Hypothesis key_add : forall a x, key (add a x) = key a.

Lemma merge_by_keys (l : list A) (x : A) :
  key <$> merge_by key add l x =
    if decide (key x ∈ key <$> l) then key <$> l else (key <$> l) ++ [key x].
Proof.
  induction l as [|a l IH].
  - cbn [merge_by fmap list_fmap app]. rewrite decide_False; [done|].
    by intros ?%elem_of_nil.
  - cbn [merge_by]. destruct (decide (key a = key x)) as [E|Hne].
    + rewrite decide_True; [by rewrite !fmap_cons, key_add|].
      rewrite fmap_cons, E. by left.
    + rewrite !fmap_cons, IH.
      destruct (decide (key x ∈ key <$> l)) as [Hin|Hout].
      * rewrite decide_True; [done|]. by right.
      * rewrite decide_False; [done|].
        intros [?|?]%elem_of_cons; congruence.
Qed.

Lemma merge_by_NoDup (l : list A) (x : A) :
  NoDup (key <$> l) -> NoDup (key <$> merge_by key add l x).
Proof.
  intros Hnd. rewrite merge_by_keys. case_decide; [done|].
  apply NoDup_app. split; [done|]. split.
  - intros k Hk ->%list_elem_of_singleton. done.
  - apply NoDup_singleton.
Qed.

Lemma merge_by_elem (l : list A) (x y : A) :
  NoDup (key <$> l) ->
  y ∈ merge_by key add l x <->
  (y ∈ l /\ key y <> key x)
  \/ (exists a, a ∈ l /\ key a = key x /\ y = add a x)
  \/ ((key x ∉ key <$> l) /\ y = x).
Proof.
  induction l as [|a l IH]; intros Hnd.
  - cbn [merge_by]. rewrite list_elem_of_singleton. split.
    + intros ->. right. right. split; [|done]. by intros ?%elem_of_nil.
    + intros [[Hy _]|[(a & Ha & _)|[_ ->]]]; [|by apply elem_of_nil in Ha|done].
      by apply elem_of_nil in Hy.
  - rewrite fmap_cons in Hnd. apply NoDup_cons in Hnd as [Ha Hnd].
    cbn [merge_by]. destruct (decide (key a = key x)) as [E|Hne].
    + rewrite elem_of_cons. split.
      * intros [->|Hy].
        -- right. left. exists a. split; [by left|done].
        -- left. split; [by right|]. intros Ey. apply Ha.
           rewrite E, <- Ey. apply list_elem_of_fmap. by exists y.
      * intros [[Hy Hk]|[(b & Hb & Eb & ->)|[Hout _]]].
        -- apply elem_of_cons in Hy as [->|Hy]; [done|by right].
        -- apply elem_of_cons in Hb as [->|Hb]; [by left|].
           exfalso. apply Ha. rewrite E, <- Eb.
           apply list_elem_of_fmap. by exists b.
        -- exfalso. apply Hout. rewrite fmap_cons, E. by left.
    + rewrite elem_of_cons, (IH Hnd). split.
      * intros [->|[[Hy Hk]|[(b & Hb & Eb & ->)|[Hout ->]]]].
        -- left. split; [by left|done].
        -- left. split; [by right|done].
        -- right. left. exists b. split; [by right|done].
        -- right. right. split; [|done]. rewrite fmap_cons.
           intros [?|?]%elem_of_cons; [congruence|done].
      * intros [[Hy Hk]|[(b & Hb & Eb & ->)|[Hout ->]]].
        -- apply elem_of_cons in Hy as [->|Hy]; [by left|].
           right. left. by split.
        -- apply elem_of_cons in Hb as [->|Hb]; [done|].
           right. right. left. by exists b.
        -- right. right. right. split; [|done].
           intros Hin. apply Hout. rewrite fmap_cons. by right.
Qed.

(** The dictionary built from [items]: one value per key, each the
    left-to-right combination of the items of its key. *)
Lemma foldl_merge_by_spec (items : list A) :
  let G := foldl (merge_by key add) [] items in
  NoDup (key <$> G)
  /\ (forall g, g ∈ G ->
        exists first rest,
          filter (fun x => key x = key g) items = first :: rest
          /\ g = foldl add first rest)
  /\ (forall x, x ∈ items -> exists g, g ∈ G /\ key g = key x).
Proof.
  induction items as [|x items IH] using rev_ind; simpl.
  - split; [constructor|]. split; intros y Hy; by apply elem_of_nil in Hy.
  - rewrite foldl_app. simpl.
    destruct IH as (Hnd & Hval & Hcov).
    set (G := foldl (merge_by key add) [] items) in *.
    split; [by apply merge_by_NoDup|]. split.
    + intros g Hg. rewrite filter_app, filter_cons, filter_nil.
      apply (merge_by_elem G x g Hnd) in Hg
        as [[Hg Hk]|[(a & Ha & Ea & ->)|[Hout ->]]].
      * rewrite decide_False by congruence. rewrite app_nil_r. by apply Hval.
      * destruct (Hval a Ha) as (first & rest & Hf & Hfold).
        rewrite key_add, Hf. rewrite decide_True by done.
        exists first, (rest ++ [x]). split; [done|].
        by rewrite foldl_app, <- Hfold.
      * rewrite decide_True by done.
        exists x, []. split; [|done].
        assert (filter (fun y => key y = key x) items = []) as ->; [|done].
        destruct (filter (fun y => key y = key x) items) as [|y l] eqn:E;
          [done|exfalso].
        assert (y ∈ filter (fun y => key y = key x) items) as Hy
          by (rewrite E; by left).
        apply list_elem_of_filter in Hy as [Ey Hy].
        destruct (Hcov y Hy) as (g & Hg & Eg).
        apply Hout. rewrite <- Ey, <- Eg. apply list_elem_of_fmap. by exists g.
    + intros y Hy. apply elem_of_app in Hy as [Hy|Hy%list_elem_of_singleton].
      * destruct (Hcov y Hy) as (g & Hg & Eg).
        destruct (decide (key g = key x)) as [E|Hne].
        -- exists (add g x). split; [|by rewrite key_add].
           apply (merge_by_elem G x _ Hnd). right. left. by exists g.
        -- exists g. split; [|done].
           apply (merge_by_elem G x _ Hnd). by left.
      * subst y. destruct (decide (key x ∈ key <$> G)) as [Hin|Hout].
        -- apply list_elem_of_fmap in Hin as (g & Eg & Hg).
           exists (add g x). split; [|by rewrite key_add].
           apply (merge_by_elem G x _ Hnd). right. left. by exists g.
        -- exists x. split; [|done].
           apply (merge_by_elem G x _ Hnd). right. right. by split.
Qed.

End MergeBy.

(** Decide a closed decidable proposition by evaluation. *)
Ltac by_evaluation :=
  match goal with
  | |- ?G =>
      let H := fresh in
      assert (bool_decide G = true) as H by (vm_compute; reflexivity);
      exact (proj1 (bool_decide_eq_true G) H)
  end.

(** ** Properties of services/get_config.py *)

Module GetConfigSpec.
Import Tenant GetConfig.

Lemma lookup_dict_update (d other : config) (k : string) :
  dict_update d other !! k =
    match other !! k with Some v => Some v | None => d !! k end.
Proof.
  unfold dict_update. rewrite lookup_union.
  destruct (other !! k), (d !! k); reflexivity.
Qed.

Lemma dict_update_empty (d : config) : dict_update d ∅ = d.
Proof. unfold dict_update. by rewrite (left_id_L ∅ (∪)). Qed.

Lemma update_if_truthy_layer (d : config) (rows : list config) (c : option config) :
  scalar rows = Ok c -> update_if_truthy d c = dict_update d (layer_of rows).
Proof.
  destruct rows as [|c0 [|c1 rows]]; simpl; intros H; inversion H; subst; simpl.
  - by rewrite dict_update_empty.
  - destruct (decide (c0 = ∅)) as [->|]; [|reflexivity].
    by rewrite dict_update_empty.
Qed.

Lemma scalar_total {A : Type} (rows : list A) :
  (length rows <= 1)%nat -> scalar rows = Ok (head rows).
Proof.
  destruct rows as [|a [|b rows]]; simpl; intros H; try reflexivity; lia.
Qed.

Lemma apply_db_layers_spec (defaults : config) (db : list MetricConfiguration)
    (m : MetricName) (wh : option Z) :
  (length (query_config_json db m None) <= 1)%nat ->
  (forall w, wh = Some w -> (length (query_config_json db m (Some w)) <= 1)%nat) ->
  apply_db_layers defaults db m wh =
    Ok (dict_update (dict_update defaults (layer_of (query_config_json db m None)))
                    (warehouse_layer db m wh)).
Proof.
  intros Hg Hw. unfold apply_db_layers.
  pose proof (scalar_total _ Hg) as Eg. rewrite Eg. cbn.
  rewrite (update_if_truthy_layer _ _ _ Eg).
  destruct wh as [w|]; simpl.
  - pose proof (scalar_total _ (Hw w eq_refl)) as Ew. rewrite Ew. cbn.
    by rewrite (update_if_truthy_layer _ _ _ Ew).
  - by rewrite dict_update_empty.
Qed.

Lemma update_if_truthy_keys (d : config) (c : option config) (k : string) :
  is_Some (d !! k) -> is_Some (update_if_truthy d c !! k).
Proof.
  intros Hk. destruct c as [c|]; simpl; [|done].
  destruct (decide (c = ∅)); [done|].
  rewrite lookup_dict_update. by destruct (c !! k).
Qed.

(** Every key of the hardcoded defaults survives the layering. *)
Lemma get_effective_metric_config_keys (db : list MetricConfiguration)
    (m : MetricName) (wh : option Z) (cfg : config) (k : string) :
  get_effective_metric_config db m wh = Ok cfg ->
  is_Some (hardcoded_defaults m !! k) -> is_Some (cfg !! k).
Proof.
  unfold get_effective_metric_config, apply_db_layers. intros H Hk.
  apply bind_Ok in H as (g & _ & H).
  destruct wh as [w|].
  - apply bind_Ok in H as (c & _ & H). inversion H; subst.
    by do 2 apply update_if_truthy_keys.
  - inversion H; subst. by apply update_if_truthy_keys.
Qed.

Lemma get_effective_metric_config_total (db : list MetricConfiguration)
    (m : MetricName) (wh : option Z) :
  unique_active db -> exists cfg, get_effective_metric_config db m wh = Ok cfg.
Proof.
  intros Hu. eexists. unfold get_effective_metric_config.
  apply apply_db_layers_spec; [apply Hu|]. intros w _. apply Hu.
Qed.

(** C6. For every metric and optional warehouse (with at most one active
    row per layer, as the resolver's scalar queries require), the
    effective configuration is the hardcoded defaults overlaid by the
    active company-global row and then by the active warehouse row; each
    key resolves to the value of the last layer that defines it and
    falls through otherwise.  With defaults [{a:1,b:2}], global [{b:3}]
    and warehouse [{a:4}] the layering yields [{a:4,b:3}]. *)
Theorem get_effective_metric_config_layers :
  (forall (db : list MetricConfiguration) (m : MetricName) (wh : option Z),
     (length (query_config_json db m None) <= 1)%nat ->
     (forall w, wh = Some w ->
        (length (query_config_json db m (Some w)) <= 1)%nat) ->
     exists cfg,
       get_effective_metric_config db m wh = Ok cfg
       /\ cfg = dict_update
                 (dict_update (hardcoded_defaults m)
                              (layer_of (query_config_json db m None)))
                 (warehouse_layer db m wh)
       /\ forall k, cfg !! k =
            resolve_key (hardcoded_defaults m)
                        (layer_of (query_config_json db m None))
                        (warehouse_layer db m wh) k)
  /\ apply_db_layers {[ "a" := 1; "b" := 2 ]} example_rows STOCK_CERO (Some 1)
       = Ok {[ "a" := 4; "b" := 3 ]}.
Proof.
  split.
  - intros db m wh Hg Hw. eexists. split; [|split].
    + unfold get_effective_metric_config. by apply apply_db_layers_spec.
    + reflexivity.
    + intros k. unfold resolve_key. rewrite !lookup_dict_update.
      reflexivity.
  - vm_compute. reflexivity.
Qed.

Lemma get_effective_metric_config_layers_witness :
  get_effective_metric_config example_rows STOCK_CERO (Some 1) =
    Ok {[ "a" := 4; "b" := 3 ]}.
Proof.
  destruct (proj1 get_effective_metric_config_layers
              example_rows STOCK_CERO (Some 1)) as (cfg & E & -> & _).
  - vm_compute. lia.
  - intros w [= <-]. vm_compute. lia.
  - rewrite E. f_equal.
Defined.

(** *** Duplicated, foreign and reordered rows *)

Lemma scalar_many {A : Type} (rows : list A) :
  (2 <= length rows)%nat -> scalar rows = Raise MultipleResultsFound.
Proof. destruct rows as [|a [|b rows]]; simpl; intros H; [lia..|done]. Qed.

(** The resolver raises nothing but [MultipleResultsFound]. *)
Lemma get_effective_metric_config_raises (db : list MetricConfiguration)
    (m : MetricName) (wh : option Z) (e : exn) :
  get_effective_metric_config db m wh = Raise e -> e = MultipleResultsFound.
Proof.
  unfold get_effective_metric_config, apply_db_layers.
  destruct (query_config_json db m None) as [|c0 [|c1 l]]; cbn;
    try (by intros [= <-]);
    (destruct wh as [w|]; [|discriminate]);
    destruct (query_config_json db m (Some w)) as [|d0 [|d1 l']]; cbn;
    by intros [= <-].
Qed.

(** X9. Two or more active rows for the same metric and layer make the
    resolver fail: with a duplicated company-global row it raises
    [MultipleResultsFound] for every warehouse and for the global lookup;
    with a duplicated row of one warehouse it raises for that warehouse
    only.  It raises in no other case and nothing else. *)
Theorem duplicate_active_rows_raise (db : list MetricConfiguration)
    (m : MetricName) :
  ((2 <= length (query_config_json db m None))%nat ->
   forall wh, get_effective_metric_config db m wh
              = Raise MultipleResultsFound)
  /\ (forall w,
        (length (query_config_json db m None) <= 1)%nat ->
        (2 <= length (query_config_json db m (Some w)))%nat ->
        get_effective_metric_config db m (Some w) = Raise MultipleResultsFound
        /\ exists cfg, get_effective_metric_config db m None = Ok cfg)
  /\ (forall wh e,
        get_effective_metric_config db m wh = Raise e ->
        e = MultipleResultsFound
        /\ ((2 <= length (query_config_json db m None))%nat
            \/ exists w, wh = Some w
                 /\ (2 <= length (query_config_json db m (Some w)))%nat)).
Proof.
  split; [|split].
  - intros Hg wh. unfold get_effective_metric_config, apply_db_layers.
    by rewrite (scalar_many _ Hg).
  - intros w Hg Hw. split.
    + unfold get_effective_metric_config, apply_db_layers.
      rewrite (scalar_total _ Hg). cbn. by rewrite (scalar_many _ Hw).
    + eexists. unfold get_effective_metric_config.
      apply apply_db_layers_spec; [done|]. intros w' [=].
  - intros wh e H. split; [by eapply get_effective_metric_config_raises|].
    destruct (decide (2 <= length (query_config_json db m None))%nat)
      as [Hg|Hg]; [by left|right].
    destruct wh as [w|].
    + exists w. split; [done|].
      destruct (decide (2 <= length (query_config_json db m (Some w)))%nat)
        as [Hw|Hw]; [done|exfalso].
      unfold get_effective_metric_config in H.
      rewrite apply_db_layers_spec in H; [done|lia|].
      intros w' [= <-]. lia.
    + exfalso. unfold get_effective_metric_config in H.
      rewrite apply_db_layers_spec in H; [done|lia|]. intros w' [=].
Qed.

Lemma duplicate_active_rows_raise_witness :
  get_effective_metric_config (example_rows ++ example_rows) STOCK_CERO
    (Some 1) = Raise MultipleResultsFound.
Proof.
  apply (proj1 (duplicate_active_rows_raise (example_rows ++ example_rows)
                  STOCK_CERO)).
  vm_compute. lia.
Defined.

Lemma query_config_json_skip (db1 db2 : list MetricConfiguration)
    (r : MetricConfiguration) (m : MetricName) (wh : option Z) :
  config_row_matches m wh r = false ->
  query_config_json (db1 ++ r :: db2) m wh = query_config_json (db1 ++ db2) m wh.
Proof.
  intros H. unfold query_config_json.
  rewrite !filter_app, filter_cons. by rewrite decide_False by congruence.
Qed.

(** X10. A row that is inactive, or of another metric, or of another
    warehouse than the one asked for, never changes the configuration
    the resolver returns (nor whether it raises). *)
Theorem resolver_ignores_other_rows (db1 db2 : list MetricConfiguration)
    (r : MetricConfiguration) (m : MetricName) (wh : option Z) :
  mc_is_active r = false
  \/ mc_metric_name r <> m
  \/ (exists w', mc_warehouse_id r = Some w' /\ wh <> Some w') ->
  get_effective_metric_config (db1 ++ r :: db2) m wh
  = get_effective_metric_config (db1 ++ db2) m wh.
Proof.
  intros H.
  assert (forall wh', wh' = None \/ wh' = wh ->
            config_row_matches m wh' r = false) as Hno.
  { intros wh' Hwh'. unfold config_row_matches.
    destruct H as [->|[H|(w' & Hr & Hne)]].
    - apply andb_false_r.
    - by rewrite (bool_decide_eq_false_2 _ H).
    - rewrite (bool_decide_eq_false_2 (mc_warehouse_id r = wh'));
        [by rewrite andb_false_r|].
      rewrite Hr. destruct Hwh' as [->| ->]; [discriminate|congruence]. }
  unfold get_effective_metric_config, apply_db_layers.
  rewrite (query_config_json_skip _ _ _ _ None) by (apply Hno; by left).
  destruct wh as [w|]; [|done].
  by rewrite (query_config_json_skip _ _ _ _ (Some w)) by (apply Hno; by right).
Qed.

Lemma resolver_ignores_other_rows_witness :
  get_effective_metric_config
    ([] ++ {| mc_metric_name := STOCK_CERO; mc_warehouse_id := Some 2;
              mc_config_json := {[ "a" := 9 ]}; mc_is_active := true |}
        :: example_rows) STOCK_CERO (Some 1)
  = get_effective_metric_config ([] ++ example_rows) STOCK_CERO (Some 1).
Proof.
  apply resolver_ignores_other_rows.
  right. right. exists 2. split; [reflexivity|discriminate].
Defined.

Lemma scalar_Permutation {A : Type} (l1 l2 : list A) :
  l1 ≡ₚ l2 -> scalar l1 = scalar l2.
Proof.
  intros Hp. pose proof (Permutation_length Hp) as Hlen.
  destruct l1 as [|a [|b l1]], l2 as [|a' [|b' l2]]; simpl in *;
    try lia; try reflexivity.
  apply Permutation_singleton_l in Hp. by inversion Hp.
Qed.

(** X11. The resolved configuration does not depend on the order in
    which the table holds its rows. *)
Theorem resolver_order_independent (db db' : list MetricConfiguration)
    (m : MetricName) (wh : option Z) :
  db ≡ₚ db' ->
  get_effective_metric_config db m wh = get_effective_metric_config db' m wh.
Proof.
  intros Hp.
  assert (forall wh', scalar (query_config_json db m wh')
                      = scalar (query_config_json db' m wh')) as Hs.
  { intros wh'. apply scalar_Permutation. unfold query_config_json.
    by rewrite Hp. }
  unfold get_effective_metric_config, apply_db_layers.
  rewrite (Hs None). destruct wh as [w|]; [|done]. by rewrite (Hs (Some w)).
Qed.

Lemma resolver_order_independent_witness :
  get_effective_metric_config example_rows STOCK_CERO (Some 1)
  = get_effective_metric_config (reverse example_rows) STOCK_CERO (Some 1).
Proof.
  apply resolver_order_independent. vm_compute. apply perm_swap.
Defined.

End GetConfigSpec.

(** ** Properties of services/snapshot_service.py *)

Module SnapshotServiceSpec.
Import Tenant GetConfig GetConfigSpec SnapshotService.

(** *** The replay of one line *)

(** C3. An [ajuste] or [stock_inicial] line sets the running physical
    stock to its quantity and adds (quantity - physical stock before the
    line) to the day's adjustment total, leaving the reserved stock and
    the other totals alone; with opening physical stock 20 and a single
    [ajuste] of 15 the snapshot records adjustment total -5 and closing
    physical stock 15. *)
Theorem replay_ajuste_absolute_target :
  (forall (st : intra_day) (detail : TransactionDetail),
     td_movement_type detail = AJUSTE
     \/ td_movement_type detail = STOCK_INICIAL ->
     let st' := replay_detail st detail in
     current_physical_stock_intra_day st' = td_quantity detail
     /\ adjusted (totals st') =
          adjusted (totals st)
          + (td_quantity detail - current_physical_stock_intra_day st)
     /\ current_reserved_stock_intra_day st' =
          current_reserved_stock_intra_day st
     /\ set_adjusted (totals st') (adjusted (totals st)) = totals st)
  /\ (forall (reserved : Z) (ty : MovementType),
        ty = AJUSTE \/ ty = STOCK_INICIAL ->
        let s := snapshot_data_of 20 reserved
                   (replay_day 20 reserved [example_line 10 ty 15]) in
        quantity_adjusted s = -5 /\ closing_physical_stock s = 15)
  /\ (let s := compute_snapshot (example_db [example_line 10 AJUSTE 15])
                 10 1 1 in
      opening_physical_stock s = 20
      /\ quantity_adjusted s = -5 /\ closing_physical_stock s = 15).
Proof.
  split; [|split].
  - intros [phys res t] detail H. unfold replay_detail. simpl.
    destruct t; destruct H as [-> | ->]; simpl; repeat split; reflexivity.
  - intros reserved ty [-> | ->]; simpl; split; reflexivity.
  - vm_compute. repeat split; reflexivity.
Qed.

Lemma replay_ajuste_absolute_target_witness :
  let st := {| current_physical_stock_intra_day := 20;
               current_reserved_stock_intra_day := 5;
               totals := no_totals |} in
  let st' := replay_detail st (example_line 10 STOCK_INICIAL 15) in
  current_physical_stock_intra_day st' = 15 /\ adjusted (totals st') = -5.
Proof.
  intros st st'.
  destruct (proj1 replay_ajuste_absolute_target st
              (example_line 10 STOCK_INICIAL 15)) as (H1 & H2 & _).
  - right. reflexivity.
  - split; [exact H1 | exact H2].
Defined.

(** C4. A [venta] line of quantity q with reserved stock r lowers the
    physical stock by q and the reserved stock by min(q, r), adds q to
    the sold total and min(q, r) to "released from reservation", and
    leaves the reserved stock non-negative; with opening reserved stock 5
    and a single sale of 8 the snapshot closes with reserved stock 0 and
    5 units released. *)
Theorem replay_venta_reservation_drawdown :
  (forall (st : intra_day) (detail : TransactionDetail),
     td_movement_type detail = VENTA ->
     let q := td_quantity detail in
     let r := current_reserved_stock_intra_day st in
     let st' := replay_detail st detail in
     current_physical_stock_intra_day st' =
       current_physical_stock_intra_day st - q
     /\ current_reserved_stock_intra_day st' = r - Z.min q r
     /\ released_from_reservation (totals st') =
          released_from_reservation (totals st) + Z.min q r
     /\ sold (totals st') = sold (totals st) + q
     /\ 0 <= current_reserved_stock_intra_day st')
  /\ (forall physical : Z,
        let s := snapshot_data_of physical 5
                   (replay_day physical 5 [example_line 10 VENTA 8]) in
        closing_reserved_stock s = 0
        /\ quantity_released_from_reservation s = 5
        /\ closing_physical_stock s = physical - 8)
  /\ (let s := compute_snapshot (example_db [example_line 10 VENTA 8])
                 10 1 1 in
      opening_reserved_stock s = 5
      /\ closing_reserved_stock s = 0
      /\ quantity_released_from_reservation s = 5).
Proof.
  split; [|split].
  - intros [phys res t] detail H. unfold replay_detail. simpl. rewrite H.
    destruct t. case_bool_decide; simpl; repeat split; lia.
  - intros physical. simpl. repeat split; reflexivity.
  - vm_compute. repeat split; reflexivity.
Qed.

Lemma replay_venta_reservation_drawdown_witness :
  let st := {| current_physical_stock_intra_day := 20;
               current_reserved_stock_intra_day := 5;
               totals := no_totals |} in
  let st' := replay_detail st (example_line 10 VENTA 8) in
  current_reserved_stock_intra_day st' = 0
  /\ released_from_reservation (totals st') = 5.
Proof.
  intros st st'.
  destruct (proj1 replay_venta_reservation_drawdown st
              (example_line 10 VENTA 8) eq_refl) as (_ & H2 & H3 & _).
  split; [exact H2 | exact H3].
Defined.

(** *** The loop over one day *)

Lemma evaluate_keeps_snapshots (db db' : tenant_db) (d p w : Z)
    (snap : DailyStockSnapshot) (configs : gmap MetricName config)
    (company_id : Z) :
  evaluate_and_log_metrics_for_snapshot db d p w snap configs company_id
    = Ok db' ->
  daily_stock_snapshots db' = daily_stock_snapshots db
  /\ transaction_details db' = transaction_details db
  /\ metric_configurations db' = metric_configurations db.
Proof.
  unfold evaluate_and_log_metrics_for_snapshot. intros H.
  apply bind_Ok in H as (writes & _ & H). by inversion H.
Qed.

(** The snapshot of a day is computed from the transaction lines and
    from the snapshot of the day before only. *)
Lemma compute_snapshot_ext (db1 db2 : tenant_db) (d p w : Z) :
  transaction_details db1 = transaction_details db2 ->
  daily_stock_snapshots db1 !! (d - 1, p, w)
    = daily_stock_snapshots db2 !! (d - 1, p, w) ->
  compute_snapshot db1 d p w = compute_snapshot db2 d p w.
Proof.
  intros Ht Hs. unfold compute_snapshot, opening_stocks. by rewrite Ht, Hs.
Qed.

Lemma same_inputs_refl (d : date) (db : tenant_db) : same_inputs d db db.
Proof. by repeat split. Qed.

Lemma same_inputs_compute (d : date) (db0 db : tenant_db) (p w : Z) :
  same_inputs d db0 db -> compute_snapshot db d p w = compute_snapshot db0 d p w.
Proof.
  intros (Ht & _ & Hs). apply compute_snapshot_ext; [done|].
  apply Hs. simpl. lia.
Qed.

Lemma process_warehouse_step (company_id : Z) (d : date)
    (all_configs : gmap Z (gmap MetricName config))
    (global_configs : gmap MetricName config)
    (db0 db db' : tenant_db) (p w : Z) :
  same_inputs d db0 db ->
  process_warehouse company_id d all_configs global_configs p db w = Ok db' ->
  same_inputs d db0 db' /\ written d db0 p w db'
  /\ forall p' w', written d db0 p' w' db -> written d db0 p' w' db'.
Proof.
  intros Hin H. unfold process_warehouse in H.
  apply evaluate_keeps_snapshots in H as (Hs & Ht & Hc). simpl in *.
  pose proof (same_inputs_compute _ _ _ p w Hin) as Hcomp.
  destruct Hin as (Ht0 & Hc0 & Hs0).
  split; [|split].
  - split; [congruence|]. split; [congruence|].
    intros k Hk. rewrite Hs. rewrite lookup_insert_ne; [by apply Hs0|].
    intros <-. by apply Hk.
  - unfold written. rewrite Hs, Hcomp. apply lookup_insert_eq.
  - intros p' w' Hw. unfold written in *. rewrite Hs.
    destruct (decide ((d, p, w) = (d, p', w'))) as [[= <- <-]|Hne].
    + rewrite Hcomp. apply lookup_insert_eq.
    + by rewrite lookup_insert_ne.
Qed.

Lemma process_product_step (company_id : Z) (d : date)
    (all_configs : gmap Z (gmap MetricName config))
    (global_configs : gmap MetricName config) (warehouses : list Z)
    (db0 db db' : tenant_db) (p : Z) :
  same_inputs d db0 db ->
  process_product company_id d all_configs global_configs warehouses db p
    = Ok db' ->
  same_inputs d db0 db'
  /\ (forall w, w ∈ warehouses -> written d db0 p w db')
  /\ forall p' w', written d db0 p' w' db -> written d db0 p' w' db'.
Proof.
  intros Hin H. unfold process_product in H.
  pose (P := fun st : tenant_db =>
               same_inputs d db0 st
               /\ forall p' w', written d db0 p' w' db ->
                                written d db0 p' w' st).
  pose (Q := fun (w : Z) (st : tenant_db) => written d db0 p w st).
  destruct (for_each_invariant
              (process_warehouse company_id d all_configs global_configs p)
              P Q warehouses) with (st := db) (st' := db')
    as ([HP1 HP2] & _ & HQ).
  - intros st w st' _ [HPa HPb] Hb.
    destruct (process_warehouse_step _ _ _ _ _ _ _ _ _ HPa Hb)
      as (Ha & Hw & Hk).
    repeat split; [apply Ha..| |exact Hw].
    intros p' w' Hold. apply Hk. by apply HPb.
  - intros st w st' b _ [HPa HPb] HQb Hb.
    destruct (process_warehouse_step _ _ _ _ _ _ _ _ _ HPa Hb)
      as (_ & _ & Hk).
    by apply Hk.
  - split; [exact Hin|]. by intros p' w' Hold.
  - exact H.
  - split; [exact HP1|]. split; [exact HQ|exact HP2].
Qed.

Lemma process_date_spec (company_id : Z) (products warehouses : list Z)
    (db db' : tenant_db) (d : date) :
  process_date company_id products warehouses db d = Ok db' ->
  same_inputs d db db'
  /\ forall p w, p ∈ products -> w ∈ warehouses -> written d db p w db'.
Proof.
  unfold process_date. intros H.
  apply bind_Ok in H as (all_configs & _ & H).
  apply bind_Ok in H as (global_configs & _ & H).
  pose (P := fun st : tenant_db => same_inputs d db st).
  pose (Q := fun (p : Z) (st : tenant_db) =>
               forall w, w ∈ warehouses -> written d db p w st).
  destruct (for_each_invariant
              (process_product company_id d all_configs global_configs
                 warehouses)
              P Q products) with (st := db) (st' := db')
    as (HP & _ & HQ).
  - intros st p st' _ HPst Hb.
    destruct (process_product_step _ _ _ _ _ _ _ _ _ HPst Hb)
      as (Ha & Hw & _).
    split; [exact Ha|exact Hw].
  - intros st p st' b _ HPst HQb Hb w Hw.
    destruct (process_product_step _ _ _ _ _ _ _ _ _ HPst Hb)
      as (_ & _ & Hk).
    apply Hk. by apply HQb.
  - apply same_inputs_refl.
  - exact H.
  - split; [exact HP|]. intros p w Hp Hw. by apply HQ.
Qed.

(** *** Totality of a day for well-formed configurations *)

Lemma getitem_default_key (m : MetricName) (c : config) (k : string) :
  has_keys m c -> is_Some (hardcoded_defaults m !! k) ->
  exists v, getitem c k = Ok v.
Proof.
  intros Hk Hd. destruct (Hk k Hd) as [v Hv]. exists v.
  unfold getitem. by rewrite Hv.
Qed.

Lemma metric_configs_complete (db : list MetricConfiguration)
    (wh : option Z) :
  unique_active db ->
  exists g, metric_configs db wh = Ok g /\ complete g.
Proof.
  intros Hu. unfold metric_configs, all_metric_names. simpl.
  destruct (get_effective_metric_config_total db STOCK_CERO wh Hu) as [c0 E0].
  destruct (get_effective_metric_config_total db BAJA_ROTACION wh Hu) as [c1 E1].
  destruct (get_effective_metric_config_total db STOCK_CRITICO wh Hu) as [c2 E2].
  destruct (get_effective_metric_config_total db SOBRE_STOCK wh Hu) as [c3 E3].
  destruct (get_effective_metric_config_total db RECOMENDACION_COMPRA wh Hu) as [c4 E4].
  destruct (get_effective_metric_config_total db DEVOLUCIONES wh Hu) as [c5 E5].
  destruct (get_effective_metric_config_total db AJUSTE_STOCK wh Hu) as [c6 E6].
  destruct (get_effective_metric_config_total db VENTA_SIN_STOCK wh Hu) as [c7 E7].
  rewrite E0, E1, E2, E3, E4, E5, E6, E7. cbn.
  eexists. split; [reflexivity|].
  intros m. destruct m; eexists; (split; [by simplify_map_eq|]);
    intros k; by eapply get_effective_metric_config_keys.
Qed.

Lemma build_all_configs_complete (db : list MetricConfiguration)
    (warehouse_ids : list Z) :
  unique_active db ->
  exists a, build_all_configs db warehouse_ids = Ok a
            /\ forall w g, a !! w = Some g -> complete g.
Proof.
  intros Hu. unfold build_all_configs.
  assert (forall l acc, (forall w g, acc !! w = Some g -> complete g) ->
            exists a,
              for_each
                (fun (acc : gmap Z (gmap MetricName config)) wh_id =>
                   cfgs ← metric_configs db (Some wh_id);
                   Ok (<[ wh_id := cfgs ]> acc)) acc l = Ok a
              /\ forall w g, a !! w = Some g -> complete g) as Hgen.
  { induction l as [|w l IH]; simpl; intros acc Hacc; [by eexists|].
    destruct (metric_configs_complete db (Some w) Hu) as (g & -> & Hg). cbn.
    apply IH. intros w' g' Hl.
    destruct (decide (w = w')) as [<-|Hne].
    - rewrite lookup_insert_eq in Hl. by inversion Hl; subst.
    - rewrite lookup_insert_ne in Hl by done. by eapply Hacc. }
  apply Hgen. intros w g Hl. by rewrite lookup_empty in Hl.
Qed.

Lemma evaluation_writes_total (snaps : snapshots) (d p w : Z)
    (snap : DailyStockSnapshot) (configs : gmap MetricName config)
    (company_id : Z) :
  complete configs ->
  exists ws, evaluation_writes snaps d p w snap configs company_id = Ok ws.
Proof.
  intros Hc. unfold evaluation_writes.
  assert (exists ws, stock_critico_writes snaps d p w snap configs = Ok ws)
    as [ws1 ->].
  { unfold stock_critico_writes.
    destruct (Hc STOCK_CRITICO) as (c & -> & Hk). simpl.
    destruct (getitem_default_key _ _ "days_for_avg" Hk) as [v1 ->];
      [by eexists|]. cbn.
    destruct (getitem_default_key _ _ "coverage_days_threshold" Hk)
      as [v2 ->]; [by eexists|]. cbn.
    destruct (getitem_default_key _ _ "stock_qty_threshold" Hk) as [v3 ->];
      [by eexists|]. cbn.
    match goal with |- context [if ?b then _ else _] => destruct b end;
      by eexists. }
  assert (exists ws, sobre_stock_writes snaps d p w snap configs = Ok ws)
    as [ws2 ->].
  { unfold sobre_stock_writes.
    destruct (Hc SOBRE_STOCK) as (c & -> & Hk). simpl.
    destruct (getitem_default_key _ _ "days_for_avg" Hk) as [v1 ->];
      [by eexists|]. cbn.
    destruct (getitem_default_key _ _ "coverage_days_threshold" Hk)
      as [v2 ->]; [by eexists|]. cbn.
    repeat match goal with
           | |- context [if ?b then _ else _] => destruct b
           end; by eexists. }
  assert (exists ws, baja_rotacion_writes snaps d p w snap configs = Ok ws)
    as [ws3 ->].
  { unfold baja_rotacion_writes.
    destruct (Hc BAJA_ROTACION) as (c & -> & Hk). simpl.
    destruct (getitem_default_key _ _ "days_since_last_sale" Hk)
      as [v1 ->]; [by eexists|]. cbn.
    repeat match goal with
           | |- context [if ?b then _ else _] => destruct b
           end; by eexists. }
  assert (exists ws,
            recomendacion_compra_writes snaps d p w snap configs company_id
              = Ok ws) as [ws4 ->].
  { unfold recomendacion_compra_writes.
    destruct (Hc RECOMENDACION_COMPRA) as (c & -> & Hk).
    destruct (getitem_default_key _ _ "sales_days_for_recommendation" Hk)
      as [v1 ->]; [by eexists|]. cbn. by eexists. }
  cbn. by eexists.
Qed.

(** *** The loop over the days *)

Lemma compute_snapshot_opening (db : tenant_db) (d p w : Z) :
  match daily_stock_snapshots db !! (d - 1, p, w) with
  | Some prev =>
      opening_physical_stock (compute_snapshot db d p w)
        = closing_physical_stock prev
      /\ opening_reserved_stock (compute_snapshot db d p w)
        = closing_reserved_stock prev
  | None =>
      opening_physical_stock (compute_snapshot db d p w) = 0
      /\ opening_reserved_stock (compute_snapshot db d p w) = 0
  end.
Proof.
  unfold compute_snapshot, opening_stocks.
  destruct (daily_stock_snapshots db !! (d - 1, p, w)); by simpl.
Qed.

Lemma recalculate_from_spec (company_id : Z) (products warehouses : list Z)
    (days : nat) :
  forall (d0 : date) (db : tenant_db),
    let r := recalculate_from company_id products warehouses days d0 db in
    d0 <= stopped_at r <= d0 + Z.of_nat days
    /\ (raised r = None -> stopped_at r = d0 + Z.of_nat days)
    /\ metric_configurations (committed r) = metric_configurations db
    /\ (forall k : snapshot_key, k.1.1 < d0 ->
          daily_stock_snapshots (committed r) !! k
            = daily_stock_snapshots db !! k)
    /\ (forall d p w, d0 <= d < stopped_at r ->
          p ∈ products -> w ∈ warehouses ->
          opening_matches (daily_stock_snapshots (committed r)) d p w).
Proof.
  induction days as [|days IH]; intros d0 db; simpl.
  - repeat split; simpl; try lia; try done; try (intros; lia).
  - destruct (process_date company_id products warehouses db d0)
      as [db'|e] eqn:E; simpl.
    + specialize (IH (d0 + 1) db').
      destruct IH as (Hstop & Hnone & Hcfg & Hold & Hnew).
      apply process_date_spec in E as ((_ & Hc & Hs) & Hw).
      split; [lia|]. split; [intros Hr; rewrite (Hnone Hr); lia|].
      split; [congruence|]. split.
      * intros k Hk. rewrite Hold by lia. apply Hs. lia.
      * intros d p w Hd Hp Hwh.
        destruct (decide (d = d0)) as [->|Hne]; [|apply Hnew; [lia|done..]].
        exists (compute_snapshot db d0 p w). split.
        { rewrite Hold by (simpl; lia). by apply Hw. }
        rewrite Hold by (simpl; lia). rewrite Hs by (simpl; lia).
        apply compute_snapshot_opening.
    + repeat split; simpl; try lia; try discriminate; try (intros; lia).
Qed.

(** C2. After a run of the snapshot engine, every snapshot it recomputed
    (every product and warehouse of the run, every day from the start
    date up to the day the run stopped at) opens with the closing
    physical and reserved stock of the snapshot of the day before, or
    with zero when there is none.  A run that raises nothing has
    recomputed every day from the start date to today. *)
Theorem opening_stock_is_previous_closing (today : date) (db : tenant_db)
    (product_ids warehouse_ids : list Z) (start_date : date)
    (company_id : Z) :
  let r := recalculate_stock_snapshots today db product_ids warehouse_ids
             start_date company_id in
  (forall d p w, start_date <= d < stopped_at r ->
     p ∈ product_ids -> w ∈ warehouse_ids ->
     opening_matches (daily_stock_snapshots (committed r)) d p w)
  /\ (raised r = None -> stopped_at r = Z.max start_date (today + 1)).
Proof.
  unfold recalculate_stock_snapshots.
  pose proof (recalculate_from_spec company_id product_ids warehouse_ids
                (Z.to_nat (today - start_date + 1)) start_date db)
    as (Hstop & Hnone & _ & _ & Hnew).
  split; [exact Hnew|].
  intros Hr. rewrite (Hnone Hr). lia.
Qed.

Lemma opening_stock_is_previous_closing_witness :
  opening_matches (daily_stock_snapshots (committed example_run)) 11 1 1
  /\ stopped_at example_run = 13.
Proof.
  pose proof (opening_stock_is_previous_closing 12
                (example_db [example_line 10 VENTA 8;
                             example_line 11 RECEPCION 4])
                [1] [1] 10 7) as [H1 H2].
  assert (stopped_at example_run = 13) as Hrun.
  { apply H2. vm_compute. reflexivity. }
  split; [|exact Hrun].
  apply H1.
  - unfold example_run in Hrun. rewrite Hrun. lia.
  - apply list_elem_of_singleton. reflexivity.
  - apply list_elem_of_singleton. reflexivity.
Defined.

(** *** The sales of a window *)

Lemma foldr_add_Permutation (l l' : list Z) :
  l ≡ₚ l' -> foldr Z.add 0 l = foldr Z.add 0 l'.
Proof. induction 1; simpl; lia. Qed.

Lemma foldr_add_app (l1 l2 : list Z) :
  foldr Z.add 0 (l1 ++ l2) = foldr Z.add 0 l1 + foldr Z.add 0 l2.
Proof. induction l1 as [|x l1 IH]; simpl; lia. Qed.

Lemma snapshots_between_empty (snaps : snapshots) (p w : Z) (lo hi : date) :
  hi < lo -> snapshots_between snaps p w lo hi = [].
Proof.
  intros Hlt. apply elem_of_nil_inv. intros x Hx.
  apply list_elem_of_filter in Hx as [(_ & _ & Hd) _]. lia.
Qed.

(** The rows of a window are the row of its first day, if any, and the
    rows of the days after it. *)
Lemma snapshots_between_first (snaps : snapshots) (p w : Z) (lo hi : date) :
  lo <= hi ->
  snapshots_between snaps p w lo hi
  ≡ₚ match snaps !! (lo, p, w) with
     | Some s => [((lo, p, w), s)]
     | None => []
     end ++ snapshots_between snaps p w (lo + 1) hi.
Proof.
  intros Hle. apply NoDup_Permutation.
  - apply NoDup_filter, NoDup_map_to_list.
  - apply NoDup_app. split; [|split].
    + destruct (snaps !! (lo, p, w)); [apply NoDup_singleton|constructor].
    + intros x Hx Hin.
      apply list_elem_of_filter in Hin as [(_ & _ & Hd) _].
      destruct (snaps !! (lo, p, w)); [|by apply elem_of_nil in Hx].
      apply list_elem_of_singleton in Hx as ->. simpl in Hd. lia.
    + apply NoDup_filter, NoDup_map_to_list.
  - intros [[[d' p'] w'] s].
    rewrite elem_of_app. unfold snapshots_between.
    rewrite !list_elem_of_filter, !elem_of_map_to_list. simpl. split.
    + intros [(-> & -> & Hd) Hl].
      destruct (decide (d' = lo)) as [->|Hne].
      * left. rewrite Hl. by left.
      * right. split; [|done]. repeat split; lia.
    + intros [Hx|[(-> & -> & Hd) Hl]].
      * destruct (snaps !! (lo, p, w)) as [s0|] eqn:E;
          [|by apply elem_of_nil in Hx].
        apply list_elem_of_singleton in Hx. injection Hx as -> -> -> ->.
        split; [|done]. repeat split; lia.
      * split; [|done]. repeat split; lia.
Qed.

Lemma sum_quantity_sold_days (snaps : snapshots) (p w : Z) (count : nat) :
  forall lo : date,
    sum_quantity_sold snaps p w lo (lo + Z.of_nat count - 1)
    = sum_days (sold_on snaps p w) lo count.
Proof.
  induction count as [|count IH]; intros lo; unfold sum_quantity_sold.
  - by rewrite snapshots_between_empty by lia.
  - assert (lo <= lo + Z.of_nat (S count) - 1) as Hle by lia.
    rewrite (foldr_add_Permutation _ _
               (fmap_Permutation _ _ _
                  (snapshots_between_first snaps p w lo _ Hle))).
    rewrite fmap_app, foldr_add_app. simpl sum_days. f_equal.
    + unfold sold_on. by destruct (snaps !! (lo, p, w)); simpl; [lia|].
    + rewrite <- IH. unfold sum_quantity_sold. do 3 f_equal. lia.
Qed.

(** The sum the queries of the evaluation compute,
    [func.sum(quantity_sold)] over the rows whose date is [BETWEEN] the
    bounds, is the total of the units sold on the days of the window. *)
Lemma sum_quantity_sold_window (snaps : snapshots) (p w : Z) (lo hi : date) :
  sum_quantity_sold snaps p w lo hi = sold_in_window snaps p w lo hi.
Proof.
  unfold sold_in_window. destruct (decide (lo <= hi)) as [Hle|Hgt].
  - rewrite <- sum_quantity_sold_days. f_equal. lia.
  - replace (Z.to_nat (hi - lo + 1)) with 0%nat by lia. simpl.
    unfold sum_quantity_sold. by rewrite snapshots_between_empty by lia.
Qed.

(** *** The purchase recommendation *)

Ltac block_cases :=
  repeat match goal with
    | H : _ ≫= _ = Ok _ |- _ => apply bind_Ok in H as (? & ? & H)
    | H : (if ?b then _ else _) = Ok _ |- _ => destruct b
    | H : Ok _ = Ok _ |- _ => inversion H; subst; clear H
    | H : _ ∈ (if ?b then _ else _) |- _ => destruct b
    | H : _ ∈ [] |- _ => by apply elem_of_nil in H
    | H : _ ∈ [_] |- _ => apply list_elem_of_singleton in H; subst
    end.

Section Blocks.
Context (snaps : snapshots) (d p w : Z) (snap : DailyStockSnapshot)
        (configs : gmap MetricName config) (company_id : Z).

Lemma stock_cero_metric x :
  x ∈ stock_cero_writes d p w snap -> metric_of x = STOCK_CERO.
Proof. unfold stock_cero_writes. intros H. by block_cases. Qed.

Lemma stock_critico_metric ws x :
  stock_critico_writes snaps d p w snap configs = Ok ws ->
  x ∈ ws -> metric_of x = STOCK_CRITICO.
Proof. unfold stock_critico_writes. intros H Hx. by block_cases. Qed.

Lemma sobre_stock_metric ws x :
  sobre_stock_writes snaps d p w snap configs = Ok ws ->
  x ∈ ws -> metric_of x = SOBRE_STOCK.
Proof. unfold sobre_stock_writes. intros H Hx. by block_cases. Qed.

Lemma baja_rotacion_metric ws x :
  baja_rotacion_writes snaps d p w snap configs = Ok ws ->
  x ∈ ws -> metric_of x = BAJA_ROTACION.
Proof. unfold baja_rotacion_writes. intros H Hx. by block_cases. Qed.

Lemma devoluciones_metric x :
  x ∈ devoluciones_writes d p w snap -> metric_of x = DEVOLUCIONES.
Proof. unfold devoluciones_writes. intros H. by block_cases. Qed.

Lemma ajuste_stock_metric x :
  x ∈ ajuste_stock_writes d p w snap -> metric_of x = AJUSTE_STOCK.
Proof. unfold ajuste_stock_writes. intros H. by block_cases. Qed.

Lemma venta_sin_stock_metric x :
  x ∈ venta_sin_stock_writes d p w snap -> metric_of x = VENTA_SIN_STOCK.
Proof. unfold venta_sin_stock_writes. intros H. by block_cases. Qed.

(** The two [if]s of the block exclude each other: at most one alert. *)
Lemma recomendacion_compra_writes_spec (cfg : config) (n : Z) :
  configs !! RECOMENDACION_COMPRA = Some cfg ->
  cfg !! "sales_days_for_recommendation" = Some n ->
  let total := total_sold_lookback snaps d p w n in
  let available := closing_available_stock snap in
  recomendacion_compra_writes snaps d p w snap configs company_id =
    Ok (if bool_decide
             ((company_id = 47 /\ 0 < available /\ 0 < total
               /\ available < total)
              \/ (company_id <> 47 /\ available < total))
        then [recomendacion_compra_alert d p w snap n total]
        else []).
Proof.
  intros Hc Hn. unfold recomendacion_compra_writes, getitem.
  rewrite Hc, Hn. cbn. f_equal.
  repeat case_bool_decide; simpl; try reflexivity; exfalso; lia.
Qed.

(** The writes of an evaluation with the metric [m] all come from the
    block of [m]; for the purchase recommendation: *)
Lemma evaluation_writes_recompra ws x :
  evaluation_writes snaps d p w snap configs company_id = Ok ws ->
  metric_of x = RECOMENDACION_COMPRA ->
  x ∈ ws <->
  exists ws4,
    recomendacion_compra_writes snaps d p w snap configs company_id
      = Ok ws4 /\ x ∈ ws4.
Proof.
  unfold evaluation_writes. intros H Hm.
  apply bind_Ok in H as (ws1 & H1 & H).
  apply bind_Ok in H as (ws2 & H2 & H).
  apply bind_Ok in H as (ws3 & H3 & H).
  apply bind_Ok in H as (ws4 & H4 & H).
  inversion H; subst; clear H. rewrite H4.
  rewrite !elem_of_app. split.
  - intros [Hx|[Hx|[Hx|[Hx|[Hx|[Hx|[Hx|Hx]]]]]]].
    + apply stock_cero_metric in Hx. congruence.
    + apply (stock_critico_metric _ _ H1) in Hx. congruence.
    + apply (sobre_stock_metric _ _ H2) in Hx. congruence.
    + apply (baja_rotacion_metric _ _ H3) in Hx. congruence.
    + by exists ws4.
    + apply devoluciones_metric in Hx. congruence.
    + apply ajuste_stock_metric in Hx. congruence.
    + apply venta_sin_stock_metric in Hx. congruence.
  - intros (ws4' & [= <-] & Hx). tauto.
Qed.

Lemma filter_other_metric (l : list (alert_key * MetricAlert))
    (k : alert_key) :
  (forall x, x ∈ l -> metric_of x <> k.1.1.2) ->
  filter (fun x => x.1 = k) l = [].
Proof.
  intros H. induction l as [|x l IH]; [done|].
  rewrite filter_cons. destruct (decide (x.1 = k)) as [E|_].
  - exfalso. apply (H x); [by left|]. unfold metric_of. by rewrite E.
  - apply IH. intros y Hy. apply H. by right.
Qed.

Lemma evaluation_writes_filter_recompra ws ws4 :
  evaluation_writes snaps d p w snap configs company_id = Ok ws ->
  recomendacion_compra_writes snaps d p w snap configs company_id
    = Ok ws4 ->
  filter (fun x => x.1 = (d, RECOMENDACION_COMPRA, p, w)) ws =
  filter (fun x => x.1 = (d, RECOMENDACION_COMPRA, p, w)) ws4.
Proof.
  unfold evaluation_writes. intros H H4'.
  apply bind_Ok in H as (ws1 & H1 & H).
  apply bind_Ok in H as (ws2 & H2 & H).
  apply bind_Ok in H as (ws3 & H3 & H).
  apply bind_Ok in H as (ws4' & H4 & H).
  rewrite H4' in H4. inversion H4; subst ws4'.
  inversion H; subst; clear H. rewrite !filter_app.
  rewrite (filter_other_metric (stock_cero_writes d p w snap)),
    (filter_other_metric ws1), (filter_other_metric ws2),
    (filter_other_metric ws3),
    (filter_other_metric (devoluciones_writes d p w snap)),
    (filter_other_metric (ajuste_stock_writes d p w snap)),
    (filter_other_metric (venta_sin_stock_writes d p w snap)).
  - by rewrite !app_nil_r.
  - intros x Hx. by rewrite (venta_sin_stock_metric x Hx).
  - intros x Hx. by rewrite (ajuste_stock_metric x Hx).
  - intros x Hx. by rewrite (devoluciones_metric x Hx).
  - intros x Hx. by rewrite (baja_rotacion_metric _ x H3 Hx).
  - intros x Hx. by rewrite (sobre_stock_metric _ x H2 Hx).
  - intros x Hx. by rewrite (stock_critico_metric _ x H1 Hx).
  - intros x Hx. by rewrite (stock_cero_metric x Hx).
Qed.

End Blocks.

Lemma foldl_upsert_alert_lookup (ws : list (alert_key * MetricAlert)) :
  forall (tbl : alerts) (k : alert_key),
    foldl upsert_alert tbl ws !! k =
      match last (filter (fun x => x.1 = k) ws) with
      | Some x => Some x.2
      | None => tbl !! k
      end.
Proof.
  induction ws as [|x ws IH] using rev_ind; intros tbl k; [done|].
  rewrite foldl_app, filter_app. simpl. unfold upsert_alert at 1.
  rewrite filter_cons, filter_nil.
  destruct (decide (x.1 = k)) as [<-|Hne].
  - rewrite last_snoc. apply lookup_insert_eq.
  - rewrite app_nil_r. rewrite lookup_insert_ne by done. apply IH.
Qed.

(** C5. For a snapshot evaluated with a lookback window of [n] days, let
    S be the sum, over the days [snap_date - (n - 1) .. snap_date], of the
    units sold that the snapshot of the day records (the first day of the
    window being a date).  When the evaluation completes: for a company
    other than 47 a [recomendacion_compra] alert is written iff
    available < S; for company 47 iff available > 0, S > 0 and
    available < S.  A written alert has the key of the snapshot and the
    numeric value S - available, which is then the value stored in
    [metric_alerts]; when none is written the stored row, if any, is left
    as it was. *)
Theorem recomendacion_compra_rule (db db' : tenant_db) (d p w : Z)
    (snap : DailyStockSnapshot) (configs : gmap MetricName config)
    (company_id : Z) (cfg : config) (n : Z) :
  configs !! RECOMENDACION_COMPRA = Some cfg ->
  cfg !! "sales_days_for_recommendation" = Some n ->
  date_min <= d - (n - 1) <= date_max ->
  evaluate_and_log_metrics_for_snapshot db d p w snap configs company_id
    = Ok db' ->
  let total :=
    sold_in_window (daily_stock_snapshots db) p w (d - (n - 1)) d in
  let available := closing_available_stock snap in
  let key : alert_key := (d, RECOMENDACION_COMPRA, p, w) in
  exists ws,
    evaluation_writes (daily_stock_snapshots db) d p w snap configs
      company_id = Ok ws
    /\ metric_alerts db' = foldl upsert_alert (metric_alerts db) ws
    /\ (company_id <> 47 ->
          (exists x, x ∈ ws /\ metric_of x = RECOMENDACION_COMPRA)
          <-> available < total)
    /\ (company_id = 47 ->
          (exists x, x ∈ ws /\ metric_of x = RECOMENDACION_COMPRA)
          <-> 0 < available /\ 0 < total /\ available < total)
    /\ (forall x, x ∈ ws -> metric_of x = RECOMENDACION_COMPRA ->
          x.1 = key
          /\ metric_value_numeric x.2 = Some (inject_Z (total - available)))
    /\ ((exists x, x ∈ ws /\ metric_of x = RECOMENDACION_COMPRA) ->
          exists a, metric_alerts db' !! key = Some a
            /\ metric_value_numeric a
                 = Some (inject_Z (total - available)))
    /\ (~ (exists x, x ∈ ws /\ metric_of x = RECOMENDACION_COMPRA) ->
          metric_alerts db' !! key = metric_alerts db !! key).
Proof.
  intros Hcfg Hn _ Hev total available key.
  unfold evaluate_and_log_metrics_for_snapshot in Hev.
  apply bind_Ok in Hev as (ws & Hws & Hev). inversion Hev; subst db'.
  clear Hev. exists ws. split; [exact Hws|]. split; [reflexivity|].
  pose proof (recomendacion_compra_writes_spec (daily_stock_snapshots db)
                d p w snap configs company_id cfg n Hcfg Hn) as H4.
  unfold total_sold_lookback in H4. cbn zeta in H4.
  rewrite sum_quantity_sold_window in H4.
  fold total available in H4.
  assert (forall x, metric_of x = RECOMENDACION_COMPRA ->
            x ∈ ws <->
            ((company_id = 47 /\ 0 < available /\ 0 < total
              /\ available < total)
             \/ (company_id <> 47 /\ available < total))
            /\ x = recomendacion_compra_alert d p w snap n total) as Hmem.
  { intros x Hm. rewrite (evaluation_writes_recompra _ _ _ _ _ _ _ _ _ Hws Hm).
    rewrite H4. split.
    - intros (ws4 & [= <-] & Hx). case_bool_decide as Hr.
      + apply list_elem_of_singleton in Hx. by split.
      + by apply elem_of_nil in Hx.
    - intros [Hr ->]. eexists. split; [reflexivity|].
      rewrite bool_decide_eq_true_2 by done. by left. }
  assert ((exists x, x ∈ ws /\ metric_of x = RECOMENDACION_COMPRA) <->
          ((company_id = 47 /\ 0 < available /\ 0 < total
            /\ available < total)
           \/ (company_id <> 47 /\ available < total))) as Hex.
  { split.
    - intros (x & Hx & Hm). by apply (Hmem x Hm) in Hx as [? _].
    - intros Hr. exists (recomendacion_compra_alert d p w snap n total).
      split; [|reflexivity]. by apply Hmem. }
  assert (filter (fun x => x.1 = key) ws =
          if bool_decide
               ((company_id = 47 /\ 0 < available /\ 0 < total
                 /\ available < total)
                \/ (company_id <> 47 /\ available < total))
          then [recomendacion_compra_alert d p w snap n total]
          else []) as Hfilter.
  { unfold key.
    rewrite (evaluation_writes_filter_recompra _ _ _ _ _ _ _ _ _ Hws H4).
    case_bool_decide; [|done].
    rewrite filter_cons, filter_nil. by rewrite decide_True. }
  split; [|split; [|split; [|split]]].
  - intros Hne. rewrite Hex. split; [intros [?|?]; lia|intros ?; right; lia].
  - intros ->. rewrite Hex. split; [intros [?|?]; lia|intros ?; left; lia].
  - intros x Hx Hm. apply (Hmem x Hm) in Hx as [_ ->]. by split.
  - intros Hr. apply Hex in Hr. simpl.
    rewrite foldl_upsert_alert_lookup, Hfilter.
    rewrite bool_decide_eq_true_2 by done. simpl. by eexists.
  - intros Hr. rewrite Hex in Hr. simpl.
    rewrite foldl_upsert_alert_lookup, Hfilter.
    by rewrite bool_decide_eq_false_2.
Qed.

Lemma recomendacion_compra_rule_witness :
  exists db' a,
    evaluate_and_log_metrics_for_snapshot example_evaluated_db example_day
      1 1 example_sold_snapshot example_configs 7 = Ok db'
    /\ metric_alerts db' !! (example_day, RECOMENDACION_COMPRA, 1, 1)
       = Some a
    /\ metric_value_numeric a = Some (inject_Z 10).
Proof.
  destruct (evaluation_writes_total
              (daily_stock_snapshots example_evaluated_db) example_day 1 1
              example_sold_snapshot example_configs 7) as [ws0 Hws0].
  { intros m. exists (hardcoded_defaults m).
    split; [by destruct m|]. intros k Hk. exact Hk. }
  assert (exists db', evaluate_and_log_metrics_for_snapshot
                        example_evaluated_db example_day 1 1
                        example_sold_snapshot example_configs 7 = Ok db')
    as [db' Hev].
  { unfold evaluate_and_log_metrics_for_snapshot. rewrite Hws0. cbn.
    by eexists. }
  destruct (recomendacion_compra_rule example_evaluated_db db' example_day
              1 1 example_sold_snapshot example_configs 7
              (hardcoded_defaults RECOMENDACION_COMPRA) 15)
    as (ws & _ & _ & Hne & _ & _ & Hst & _).
  - reflexivity.
  - reflexivity.
  - vm_compute. split; discriminate.
  - exact Hev.
  - destruct Hst as (a & Ha & Hv).
    + apply Hne; [lia|]. vm_compute. reflexivity.
    + exists db', a. split; [exact Hev|]. split; [exact Ha|]. exact Hv.
Defined.

(** *** The stock equations of a day *)

Lemma replay_detail_ledger (st : intra_day) (detail : TransactionDetail) :
  let net := fun t : daily_totals =>
    purchased t + returned t + transfer_in t + adjusted t
    - sold t - transfer_out t in
  let st' := replay_detail st detail in
  current_physical_stock_intra_day st' - net (totals st')
    = current_physical_stock_intra_day st - net (totals st)
  /\ current_reserved_stock_intra_day st' - newly_reserved (totals st')
       + released_from_reservation (totals st')
     = current_reserved_stock_intra_day st - newly_reserved (totals st)
       + released_from_reservation (totals st)
  /\ released_from_reservation (totals st') - sold (totals st')
     <= released_from_reservation (totals st) - sold (totals st).
Proof.
  destruct st as [physical reserved t]. unfold replay_detail.
  destruct (td_movement_type detail); simpl;
    try case_bool_decide; simpl; lia.
Qed.

Lemma replay_ledger (l : list TransactionDetail) :
  forall st : intra_day,
    let net := fun t : daily_totals =>
      purchased t + returned t + transfer_in t + adjusted t
      - sold t - transfer_out t in
    let st' := foldl replay_detail st l in
    current_physical_stock_intra_day st' - net (totals st')
      = current_physical_stock_intra_day st - net (totals st)
    /\ current_reserved_stock_intra_day st' - newly_reserved (totals st')
         + released_from_reservation (totals st')
       = current_reserved_stock_intra_day st - newly_reserved (totals st)
         + released_from_reservation (totals st)
    /\ released_from_reservation (totals st') - sold (totals st')
       <= released_from_reservation (totals st) - sold (totals st).
Proof.
  induction l as [|x l IH]; intros st; simpl; [lia|].
  specialize (IH (replay_detail st x)). simpl in IH.
  pose proof (replay_detail_ledger st x) as Hx. simpl in Hx. lia.
Qed.

Lemma compute_snapshot_balanced (db : tenant_db) (d p w : Z) :
  balanced (compute_snapshot db d p w).
Proof.
  unfold compute_snapshot.
  destruct (opening_stocks (daily_stock_snapshots db) d p w) as [op ore].
  unfold replay_day, balanced.
  match goal with
  | |- context [foldl replay_detail ?st ?l] =>
      pose proof (replay_ledger l st) as H
  end.
  simpl in *. lia.
Qed.

(** Every snapshot of a run is the one computed from the committed
    tables. *)
Lemma recalculate_from_consistent (company_id : Z)
    (products warehouses : list Z) (days : nat) :
  forall (d0 : date) (db : tenant_db),
    let r := recalculate_from company_id products warehouses days d0 db in
    transaction_details (committed r) = transaction_details db
    /\ up_to_date d0 (stopped_at r) products warehouses (committed r).
Proof.
  induction days as [|days IH]; intros d0 db; simpl.
  - split; [done|]. intros d p w (Hd & _). lia.
  - destruct (process_date company_id products warehouses db d0)
      as [db'|e] eqn:E; simpl.
    + destruct (IH (d0 + 1) db') as [Ht Hnew].
      pose proof (recalculate_from_spec company_id products warehouses days
                    (d0 + 1) db') as (_ & _ & _ & Hold & _).
      apply process_date_spec in E as ((Ht0 & _ & Hs) & Hw).
      split; [congruence|].
      intros d p w (Hd & Hp & Hwh).
      destruct (decide (d = d0)) as [->|Hne]; [|apply Hnew; repeat split; [lia..|done|done]].
      rewrite Hold by (simpl; lia). rewrite (Hw p w Hp Hwh). f_equal.
      apply compute_snapshot_ext; [congruence|].
      rewrite Hold by (simpl; lia). symmetry. apply Hs. simpl. lia.
    + split; [done|]. intros d p w (Hd & _). lia.
Qed.

(** X1. The stock equations hold for the snapshot the engine computes
    for any day, product and warehouse, and so for every snapshot a run
    has committed: closing physical = opening physical + purchased +
    returned + transferred in + adjusted - sold - transferred out;
    closing reserved = opening reserved + newly reserved - released;
    available = physical - reserved; and the units released from
    reservation never exceed the units sold. *)
Theorem snapshot_stock_equations (today : date) (db : tenant_db)
    (product_ids warehouse_ids : list Z) (start_date : date)
    (company_id : Z) :
  (forall d p w, balanced (compute_snapshot db d p w))
  /\ let r := recalculate_stock_snapshots today db product_ids warehouse_ids
                start_date company_id in
     forall d p w,
       in_run start_date (stopped_at r) product_ids warehouse_ids d p w ->
       exists s, daily_stock_snapshots (committed r) !! (d, p, w) = Some s
                 /\ balanced s.
Proof.
  split; [intros d p w; apply compute_snapshot_balanced|].
  intros r d p w Hin.
  destruct (recalculate_from_consistent company_id product_ids warehouse_ids
              (Z.to_nat (today - start_date + 1)) start_date db) as [_ Hup].
  eexists. split; [by apply Hup|]. apply compute_snapshot_balanced.
Qed.

(** *** The order of the lines of a day *)

Lemma same_physical_refl (st : intra_day) : same_physical st st.
Proof. by repeat split. Qed.

Lemma same_physical_trans (st1 st2 st3 : intra_day) :
  same_physical st1 st2 -> same_physical st2 st3 -> same_physical st1 st3.
Proof. unfold same_physical. intuition congruence. Qed.

Lemma replay_detail_same_physical (st1 st2 : intra_day)
    (x : TransactionDetail) :
  same_physical st1 st2 ->
  same_physical (replay_detail st1 x) (replay_detail st2 x).
Proof.
  destruct st1 as [ph1 r1 t1], st2 as [ph2 r2 t2].
  unfold same_physical, replay_detail. simpl.
  intros (-> & H1 & H2 & H3 & H4 & H5 & H6 & H7).
  destruct (td_movement_type x); simpl;
    repeat case_bool_decide; simpl; repeat split; congruence.
Qed.

Lemma replay_same_physical (l : list TransactionDetail) :
  forall st1 st2, same_physical st1 st2 ->
    same_physical (foldl replay_detail st1 l) (foldl replay_detail st2 l).
Proof.
  induction l as [|x l IH]; intros st1 st2 H; simpl; [done|].
  by apply IH, replay_detail_same_physical.
Qed.

Lemma replay_detail_swap (st : intra_day) (x y : TransactionDetail) :
  ~ is_adjustment x -> ~ is_adjustment y ->
  same_physical (replay_detail (replay_detail st x) y)
                (replay_detail (replay_detail st y) x).
Proof.
  destruct st as [ph r t]. unfold is_adjustment, same_physical, replay_detail.
  intros Hx Hy.
  destruct (td_movement_type x), (td_movement_type y); simpl;
    try (exfalso; tauto);
    repeat case_bool_decide; simpl; repeat split; lia.
Qed.

Lemma replay_permutation (l1 l2 : list TransactionDetail) :
  l1 ≡ₚ l2 -> Forall (fun x => ~ is_adjustment x) l1 ->
  forall st1 st2, same_physical st1 st2 ->
    same_physical (foldl replay_detail st1 l1) (foldl replay_detail st2 l2).
Proof.
  induction 1 as [|x l1 l2 Hp IH|x y l|l1 l2 l3 Hp1 IH1 Hp2 IH2];
    intros Hall st1 st2 Hst; simpl.
  - done.
  - apply Forall_cons in Hall as [_ Hall].
    by apply IH, replay_detail_same_physical.
  - apply Forall_cons in Hall as [Hy Hall].
    apply Forall_cons in Hall as [Hx Hall].
    apply replay_same_physical.
    eapply same_physical_trans; [by apply replay_detail_swap|].
    by do 2 apply replay_detail_same_physical.
  - eapply same_physical_trans; [by apply IH1|].
    apply IH2; [|apply same_physical_refl].
    by rewrite <- Hp1.
Qed.

(** X2. Without lines that set an absolute stock ([ajuste],
    [stock_inicial]) the order in which the lines of a day are replayed
    does not change the closing physical stock nor the totals sold,
    returned, purchased, transferred and newly reserved: lines stored
    with the same time may be read in any order. *)
Theorem closing_physical_order_independent
    (opening_physical opening_reserved : Z)
    (l1 l2 : list TransactionDetail) :
  l1 ≡ₚ l2 ->
  (forall x, x ∈ l1 -> ~ is_adjustment x) ->
  let s1 := snapshot_data_of opening_physical opening_reserved
              (replay_day opening_physical opening_reserved l1) in
  let s2 := snapshot_data_of opening_physical opening_reserved
              (replay_day opening_physical opening_reserved l2) in
  closing_physical_stock s1 = closing_physical_stock s2
  /\ quantity_sold s1 = quantity_sold s2
  /\ quantity_returned s1 = quantity_returned s2
  /\ quantity_purchased s1 = quantity_purchased s2
  /\ quantity_adjusted s1 = quantity_adjusted s2
  /\ quantity_transfer_in s1 = quantity_transfer_in s2
  /\ quantity_transfer_out s1 = quantity_transfer_out s2
  /\ quantity_newly_reserved s1 = quantity_newly_reserved s2.
Proof.
  intros Hp Hall. simpl. unfold replay_day.
  apply (replay_permutation l1 l2 Hp); [|apply same_physical_refl].
  by apply Forall_forall.
Qed.

Lemma closing_physical_order_independent_witness :
  closing_physical_stock
    (snapshot_data_of 20 5
       (replay_day 20 5 [example_line 10 VENTA 8; example_line 10 RECEPCION 4]))
  = closing_physical_stock
      (snapshot_data_of 20 5
         (replay_day 20 5 [example_line 10 RECEPCION 4; example_line 10 VENTA 8])).
Proof.
  refine (proj1 (closing_physical_order_independent 20 5
                   [example_line 10 VENTA 8; example_line 10 RECEPCION 4]
                   [example_line 10 RECEPCION 4; example_line 10 VENTA 8]
                   _ _)).
  - apply perm_swap.
  - intros x Hx [H|H];
      apply elem_of_cons in Hx as [-> | Hx%list_elem_of_singleton];
      subst; discriminate.
Defined.

(** *** The reserved stock *)

Lemma replay_reserved_nonnegative (l : list TransactionDetail) :
  forall st : intra_day,
    0 <= current_reserved_stock_intra_day st ->
    (forall x, x ∈ l -> td_movement_type x = RESERVADO -> 0 <= td_quantity x) ->
    0 <= current_reserved_stock_intra_day (foldl replay_detail st l).
Proof.
  induction l as [|x l IH]; intros st Hr Hq; simpl; [done|].
  apply IH; [|intros y Hy; apply Hq; by right].
  assert (td_movement_type x = RESERVADO -> 0 <= td_quantity x) as Hx
    by (apply Hq; by left).
  destruct st as [ph r t]. unfold replay_detail. simpl in *.
  destruct (td_movement_type x); simpl;
    try case_bool_decide; simpl; try lia.
  specialize (Hx eq_refl). lia.
Qed.

Lemma insert_by_time_perm (x : TransactionDetail) (l : list TransactionDetail) :
  insert_by_time x l ≡ₚ x :: l.
Proof.
  induction l as [|y l IH]; simpl; [done|].
  case_bool_decide; [done|]. rewrite IH. apply perm_swap.
Qed.

Lemma order_by_time_perm (l : list TransactionDetail) : order_by_time l ≡ₚ l.
Proof.
  induction l as [|x l IH]; simpl; [done|].
  rewrite insert_by_time_perm. by rewrite IH.
Qed.

Lemma query_daily_transactions_elem (rows : list TransactionDetail)
    (d p w : Z) (x : TransactionDetail) :
  x ∈ query_daily_transactions rows d p w <->
  x ∈ rows /\ td_transaction_date x = d /\ td_product_id x = p
  /\ td_warehouse_id x = w.
Proof.
  unfold query_daily_transactions. rewrite order_by_time_perm.
  rewrite list_elem_of_filter. tauto.
Qed.

Lemma compute_snapshot_reserved_nonnegative (db : tenant_db) (d p w : Z) :
  (forall x, x ∈ transaction_details db ->
     td_movement_type x = RESERVADO -> 0 <= td_quantity x) ->
  (forall s, daily_stock_snapshots db !! (d - 1, p, w) = Some s ->
     0 <= closing_reserved_stock s) ->
  0 <= closing_reserved_stock (compute_snapshot db d p w).
Proof.
  intros Hq Hprev. unfold compute_snapshot, opening_stocks.
  assert (forall x, x ∈ query_daily_transactions (transaction_details db) d p w ->
            td_movement_type x = RESERVADO -> 0 <= td_quantity x) as Hq'.
  { intros x Hx. apply Hq. by apply query_daily_transactions_elem in Hx as [? _]. }
  destruct (daily_stock_snapshots db !! (d - 1, p, w)) as [prev|]; simpl.
  - apply replay_reserved_nonnegative; [|exact Hq']. simpl. by apply Hprev.
  - by apply replay_reserved_nonnegative.
Qed.

(** X3. When no reservation line has a negative quantity and the
    snapshots of the day before the start date have a non-negative
    reserved stock, every snapshot a run commits has a non-negative
    closing reserved stock, so its available stock never exceeds its
    physical stock. *)
Theorem reserved_stock_never_negative (today : date) (db : tenant_db)
    (product_ids warehouse_ids : list Z) (start_date : date)
    (company_id : Z) :
  (forall x, x ∈ transaction_details db ->
     td_movement_type x = RESERVADO -> 0 <= td_quantity x) ->
  (forall p w s, daily_stock_snapshots db !! (start_date - 1, p, w) = Some s ->
     0 <= closing_reserved_stock s) ->
  let r := recalculate_stock_snapshots today db product_ids warehouse_ids
             start_date company_id in
  forall d p w,
    in_run start_date (stopped_at r) product_ids warehouse_ids d p w ->
    exists s, daily_stock_snapshots (committed r) !! (d, p, w) = Some s
              /\ 0 <= closing_reserved_stock s
              /\ closing_available_stock s <= closing_physical_stock s.
Proof.
  intros Hq Hprev r.
  destruct (recalculate_from_consistent company_id product_ids warehouse_ids
              (Z.to_nat (today - start_date + 1)) start_date db) as [Ht Hup].
  pose proof (recalculate_from_spec company_id product_ids warehouse_ids
                (Z.to_nat (today - start_date + 1)) start_date db)
    as (_ & _ & _ & Hold & _).
  fold (recalculate_stock_snapshots today db product_ids warehouse_ids
          start_date company_id) in Ht, Hup, Hold. fold r in Ht, Hup, Hold.
  assert (forall (n : nat) d p w, d = start_date + Z.of_nat n ->
            in_run start_date (stopped_at r) product_ids warehouse_ids d p w ->
            0 <= closing_reserved_stock (compute_snapshot (committed r) d p w))
    as Hind.
  { induction n as [|n IH]; intros d p w -> Hin.
    - apply compute_snapshot_reserved_nonnegative; [by rewrite Ht|].
      intros s Hs. rewrite Hold in Hs by (simpl; lia).
      replace (start_date + Z.of_nat 0 - 1) with (start_date - 1) in Hs by lia.
      by eapply Hprev.
    - apply compute_snapshot_reserved_nonnegative; [by rewrite Ht|].
      intros s Hs. destruct Hin as (Hd & Hp & Hw).
      assert (in_run start_date (stopped_at r) product_ids warehouse_ids
                (start_date + Z.of_nat (S n) - 1) p w) as Hin'
        by (repeat split; [lia..|done|done]).
      rewrite (Hup _ _ _ Hin') in Hs. inversion Hs; subst s.
      apply IH; [lia|exact Hin']. }
  intros d p w Hin. eexists. split; [by apply Hup|].
  assert (0 <= closing_reserved_stock (compute_snapshot (committed r) d p w))
    as Hres.
  { apply (Hind (Z.to_nat (d - start_date))); [|exact Hin].
    destruct Hin as (Hd & _). lia. }
  split; [exact Hres|].
  pose proof (compute_snapshot_balanced (committed r) d p w) as (_ & _ & Hav & _).
  lia.
Qed.

Lemma reserved_stock_never_negative_witness :
  exists s, daily_stock_snapshots (committed example_run) !! (11, 1, 1) = Some s
            /\ 0 <= closing_reserved_stock s
            /\ closing_available_stock s <= closing_physical_stock s.
Proof.
  apply (reserved_stock_never_negative 12
           (example_db [example_line 10 VENTA 8; example_line 11 RECEPCION 4])
           [1] [1] 10 7).
  - intros x Hx Hty.
    apply elem_of_cons in Hx as [-> | Hx%list_elem_of_singleton];
      subst; discriminate.
  - intros p w s Hs. simpl in Hs.
    apply lookup_singleton_Some in Hs as [_ <-]. simpl. lia.
  - split; [split; [lia|vm_compute; reflexivity]|].
    split; by apply list_elem_of_singleton.
Defined.

(** *** The alerts of one evaluation *)

Lemma recomendacion_compra_metric (snaps : snapshots) (d p w : Z)
    (snap : DailyStockSnapshot) (configs : gmap MetricName config)
    (company_id : Z) (ws : list (alert_key * MetricAlert))
    (x : alert_key * MetricAlert) :
  recomendacion_compra_writes snaps d p w snap configs company_id = Ok ws ->
  x ∈ ws ->
  exists n total, x = recomendacion_compra_alert d p w snap n total.
Proof.
  unfold recomendacion_compra_writes. intros H Hx.
  destruct (configs !! RECOMENDACION_COMPRA) as [cfg|]; [|discriminate].
  apply bind_Ok in H as (n & _ & H). inversion H; subst; clear H.
  apply elem_of_app in Hx as [Hx|Hx]; block_cases; by do 2 eexists.
Qed.

(** Every write of an evaluation has the key of the snapshot (with its
    own metric) and carries the closing stocks of the snapshot. *)
Lemma evaluation_writes_elem (snaps : snapshots) (d p w : Z)
    (snap : DailyStockSnapshot) (configs : gmap MetricName config)
    (company_id : Z) (ws : list (alert_key * MetricAlert))
    (x : alert_key * MetricAlert) :
  evaluation_writes snaps d p w snap configs company_id = Ok ws ->
  x ∈ ws ->
  x.1 = (d, metric_of x, p, w)
  /\ physical_stock_at_alert x.2 = closing_physical_stock snap
  /\ available_stock_at_alert x.2 = closing_available_stock snap
  /\ reserved_stock_at_alert x.2 = closing_reserved_stock snap
  /\ metric_value_text x.2 = None
  /\ is_Some (metric_value_numeric x.2).
Proof.
  unfold evaluation_writes. intros H Hx.
  apply bind_Ok in H as (ws1 & H1 & H).
  apply bind_Ok in H as (ws2 & H2 & H).
  apply bind_Ok in H as (ws3 & H3 & H).
  apply bind_Ok in H as (ws4 & H4 & H).
  inversion H; subst; clear H.
  rewrite !elem_of_app in Hx.
  destruct Hx as [Hx|[Hx|[Hx|[Hx|[Hx|[Hx|[Hx|Hx]]]]]]].
  - unfold stock_cero_writes in Hx. block_cases. by repeat split.
  - unfold stock_critico_writes in H1. block_cases. by repeat split.
  - unfold sobre_stock_writes in H2. block_cases; by repeat split.
  - unfold baja_rotacion_writes in H3. block_cases. by repeat split.
  - destruct (recomendacion_compra_metric _ _ _ _ _ _ _ _ _ H4 Hx)
      as (n & total & ->). by repeat split.
  - unfold devoluciones_writes in Hx. block_cases. by repeat split.
  - unfold ajuste_stock_writes in Hx. block_cases. by repeat split.
  - unfold venta_sin_stock_writes in Hx. block_cases. by repeat split.
Qed.

(** At most one write per metric: the metrics of the writes are a
    sublist of the metrics in evaluation order. *)
Lemma evaluation_writes_metrics (snaps : snapshots) (d p w : Z)
    (snap : DailyStockSnapshot) (configs : gmap MetricName config)
    (company_id : Z) (ws : list (alert_key * MetricAlert)) :
  evaluation_writes snaps d p w snap configs company_id = Ok ws ->
  (metric_of <$> ws) `sublist_of`
    [STOCK_CERO; STOCK_CRITICO; SOBRE_STOCK; BAJA_ROTACION;
     RECOMENDACION_COMPRA; DEVOLUCIONES; AJUSTE_STOCK; VENTA_SIN_STOCK].
Proof.
  unfold evaluation_writes. intros H.
  apply bind_Ok in H as (ws1 & H1 & H).
  apply bind_Ok in H as (ws2 & H2 & H).
  apply bind_Ok in H as (ws3 & H3 & H).
  apply bind_Ok in H as (ws4 & H4 & H).
  inversion H; subst; clear H.
  rewrite !fmap_app.
  change [STOCK_CERO; STOCK_CRITICO; SOBRE_STOCK; BAJA_ROTACION;
          RECOMENDACION_COMPRA; DEVOLUCIONES; AJUSTE_STOCK; VENTA_SIN_STOCK]
    with ([STOCK_CERO] ++ [STOCK_CRITICO] ++ [SOBRE_STOCK] ++ [BAJA_ROTACION]
          ++ [RECOMENDACION_COMPRA] ++ [DEVOLUCIONES] ++ [AJUSTE_STOCK]
          ++ [VENTA_SIN_STOCK]).
  repeat apply sublist_app.
  - unfold stock_cero_writes. case_bool_decide; [done|apply sublist_nil_l].
  - unfold stock_critico_writes in H1. block_cases;
      [done|apply sublist_nil_l].
  - unfold sobre_stock_writes in H2.
    block_cases; try done; apply sublist_nil_l.
  - unfold baja_rotacion_writes in H3.
    block_cases; try done; apply sublist_nil_l.
  - unfold recomendacion_compra_writes in H4.
    destruct (configs !! RECOMENDACION_COMPRA) as [cfg|]; [|discriminate].
    apply bind_Ok in H4 as (n & _ & H4). inversion H4; subst; clear H4.
    repeat case_bool_decide; simpl; try done;
      try apply sublist_nil_l; exfalso; congruence.
  - unfold devoluciones_writes. case_bool_decide; [done|apply sublist_nil_l].
  - unfold ajuste_stock_writes. case_bool_decide; [done|apply sublist_nil_l].
  - unfold venta_sin_stock_writes.
    case_bool_decide; [done|apply sublist_nil_l].
Qed.

(** A write of an evaluation comes from the block of its metric. *)
Lemma evaluation_writes_of_metric (snaps : snapshots) (d p w : Z)
    (snap : DailyStockSnapshot) (configs : gmap MetricName config)
    (company_id : Z) (ws : list (alert_key * MetricAlert)) :
  evaluation_writes snaps d p w snap configs company_id = Ok ws ->
  exists ws1 ws2 ws3 ws4,
    stock_critico_writes snaps d p w snap configs = Ok ws1
    /\ sobre_stock_writes snaps d p w snap configs = Ok ws2
    /\ baja_rotacion_writes snaps d p w snap configs = Ok ws3
    /\ recomendacion_compra_writes snaps d p w snap configs company_id
       = Ok ws4
    /\ forall x, x ∈ ws <->
         match metric_of x with
         | STOCK_CERO => x ∈ stock_cero_writes d p w snap
         | STOCK_CRITICO => x ∈ ws1
         | SOBRE_STOCK => x ∈ ws2
         | BAJA_ROTACION => x ∈ ws3
         | RECOMENDACION_COMPRA => x ∈ ws4
         | DEVOLUCIONES => x ∈ devoluciones_writes d p w snap
         | AJUSTE_STOCK => x ∈ ajuste_stock_writes d p w snap
         | VENTA_SIN_STOCK => x ∈ venta_sin_stock_writes d p w snap
         end.
Proof.
  unfold evaluation_writes. intros H.
  apply bind_Ok in H as (ws1 & H1 & H).
  apply bind_Ok in H as (ws2 & H2 & H).
  apply bind_Ok in H as (ws3 & H3 & H).
  apply bind_Ok in H as (ws4 & H4 & H).
  inversion H; subst; clear H.
  exists ws1, ws2, ws3, ws4. repeat (split; [done|]).
  intros x. rewrite !elem_of_app.
  pose proof (stock_cero_metric d p w snap x) as M0.
  pose proof (stock_critico_metric snaps d p w snap configs ws1 x H1) as M1.
  pose proof (sobre_stock_metric snaps d p w snap configs ws2 x H2) as M2.
  pose proof (baja_rotacion_metric snaps d p w snap configs ws3 x H3) as M3.
  pose proof (devoluciones_metric d p w snap x) as M5.
  pose proof (ajuste_stock_metric d p w snap x) as M6.
  pose proof (venta_sin_stock_metric d p w snap x) as M7.
  assert (x ∈ ws4 -> metric_of x = RECOMENDACION_COMPRA) as M4.
  { intros Hx.
    destruct (recomendacion_compra_metric _ _ _ _ _ _ _ _ _ H4 Hx)
      as (n & total & ->). reflexivity. }
  destruct (metric_of x); split; intros Hx;
    repeat match goal with
           | H : _ \/ _ |- _ => destruct H as [H|H]
           | H : ?P, M : ?P -> _ = _ |- _ =>
               first [discriminate (M H) | clear M]
           end; tauto.
Qed.

Lemma filter_key_none (ws : list (alert_key * MetricAlert)) (k : alert_key) :
  (forall x, x ∈ ws -> x.1 <> k) ->
  filter (fun x : alert_key * MetricAlert => x.1 = k) ws = [].
Proof.
  induction ws as [|y ws IH]; intros Hk; [done|].
  rewrite filter_cons. rewrite decide_False by (apply Hk; by left).
  apply IH. intros x Hx. apply Hk. by right.
Qed.

Lemma filter_key_unique (ws : list (alert_key * MetricAlert))
    (x : alert_key * MetricAlert) :
  NoDup (fst <$> ws) -> x ∈ ws ->
  filter (fun y : alert_key * MetricAlert => y.1 = x.1) ws = [x].
Proof.
  induction ws as [|y ws IH]; intros Hnd Hx; [by apply elem_of_nil in Hx|].
  rewrite fmap_cons in Hnd. apply NoDup_cons in Hnd as [Hy Hnd].
  rewrite filter_cons. apply elem_of_cons in Hx as [<-|Hx].
  - rewrite decide_True by done. f_equal. apply filter_key_none.
    intros z Hz E. apply Hy. apply list_elem_of_fmap. by exists z.
  - rewrite decide_False; [by apply IH|].
    intros E. apply Hy. apply list_elem_of_fmap. by exists x.
Qed.

Lemma NoDup_metrics_keys (ws : list (alert_key * MetricAlert)) :
  NoDup (metric_of <$> ws) -> NoDup (fst <$> ws).
Proof.
  intros H. apply (NoDup_fmap_1 (fun k : alert_key => k.1.1.2)).
  by rewrite <- list_fmap_compose.
Qed.

(** X6. An evaluation that completes has written at most one alert per
    metric.  Every alert it has written has the date, product and
    warehouse of the snapshot, carries the closing physical, available
    and reserved stock of the snapshot, and is the row stored under its
    key afterwards; every other alert row is left as it was, and no alert
    row is ever removed: an alert written by an earlier evaluation stays
    when its condition no longer holds. *)
Theorem evaluation_one_alert_per_metric (db db' : tenant_db) (d p w : Z)
    (snap : DailyStockSnapshot) (configs : gmap MetricName config)
    (company_id : Z) :
  evaluate_and_log_metrics_for_snapshot db d p w snap configs company_id
    = Ok db' ->
  exists ws,
    evaluation_writes (daily_stock_snapshots db) d p w snap configs
      company_id = Ok ws
    /\ NoDup (metric_of <$> ws)
    /\ (forall x, x ∈ ws ->
          x.1 = (d, metric_of x, p, w)
          /\ physical_stock_at_alert x.2 = closing_physical_stock snap
          /\ available_stock_at_alert x.2 = closing_available_stock snap
          /\ reserved_stock_at_alert x.2 = closing_reserved_stock snap
          /\ metric_alerts db' !! x.1 = Some x.2)
    /\ (forall k, (forall x, x ∈ ws -> x.1 <> k) ->
          metric_alerts db' !! k = metric_alerts db !! k)
    /\ (forall k, is_Some (metric_alerts db !! k) ->
          is_Some (metric_alerts db' !! k))
    /\ daily_stock_snapshots db' = daily_stock_snapshots db.
Proof.
  unfold evaluate_and_log_metrics_for_snapshot. intros Hev.
  apply bind_Ok in Hev as (ws & Hws & Hev). inversion Hev; subst db'.
  clear Hev. exists ws. split; [exact Hws|].
  assert (NoDup (metric_of <$> ws)) as Hnd.
  { eapply sublist_NoDup; [|by eapply evaluation_writes_metrics].
    by_evaluation. }
  split; [exact Hnd|].
  split; [|split; [|split; [|reflexivity]]].
  - intros x Hx.
    destruct (evaluation_writes_elem _ _ _ _ _ _ _ _ _ Hws Hx)
      as (Hk & H1 & H2 & H3 & _).
    repeat (split; [done|]). simpl.
    rewrite foldl_upsert_alert_lookup.
    by rewrite (filter_key_unique ws x (NoDup_metrics_keys ws Hnd) Hx).
  - intros k Hk. simpl. rewrite foldl_upsert_alert_lookup.
    by rewrite (filter_key_none ws k Hk).
  - intros k Hk. simpl. rewrite foldl_upsert_alert_lookup.
    by destruct (last _).
Qed.

Lemma evaluation_one_alert_per_metric_witness :
  exists ws db',
    evaluate_and_log_metrics_for_snapshot example_evaluated_db example_day
      1 1 example_sold_snapshot example_configs 7 = Ok db'
    /\ evaluation_writes (daily_stock_snapshots example_evaluated_db)
         example_day 1 1 example_sold_snapshot example_configs 7 = Ok ws
    /\ NoDup (metric_of <$> ws).
Proof.
  destruct (evaluation_writes_total
              (daily_stock_snapshots example_evaluated_db) example_day 1 1
              example_sold_snapshot example_configs 7) as [ws0 Hws0].
  { intros m. exists (hardcoded_defaults m).
    split; [by destruct m|]. intros k Hk. exact Hk. }
  assert (exists db', evaluate_and_log_metrics_for_snapshot
                        example_evaluated_db example_day 1 1
                        example_sold_snapshot example_configs 7 = Ok db')
    as [db' Hev].
  { unfold evaluate_and_log_metrics_for_snapshot. rewrite Hws0. cbn.
    by eexists. }
  destruct (evaluation_one_alert_per_metric example_evaluated_db db'
              example_day 1 1 example_sold_snapshot example_configs 7 Hev)
    as (ws & H1 & H2 & _).
  exists ws, db'. by repeat split.
Defined.



Lemma Qlt_bool_iff (x y : Q) : Qlt_bool x y = true <-> (x < y)%Q.
Proof.
  unfold Qlt_bool. rewrite negb_true_iff, <- not_true_iff_false, Qle_bool_iff.
  split; [apply Qnot_le_lt|apply Qlt_not_le].
Qed.

(** The alerts of one metric are those of its block. *)
Lemma block_alert_iff (ws block : list (alert_key * MetricAlert))
    (m : MetricName) :
  (forall x, metric_of x = m -> x ∈ ws <-> x ∈ block) ->
  (forall x, x ∈ block -> metric_of x = m) ->
  (exists x, x ∈ ws /\ metric_of x = m) <-> block <> [].
Proof.
  intros Hmem Hblock. split.
  - intros (x & Hx & Hm) ->. apply (Hmem x Hm) in Hx.
    by apply elem_of_nil in Hx.
  - destruct block as [|a block]; [done|]. intros _.
    assert (a ∈ a :: block) as Ha by (by left).
    exists a. split; [|by apply Hblock]. apply Hmem; [by apply Hblock|done].
Qed.

(** The average of a window without sales is zero. *)
Lemma average_daily_sales_zero (n : Z) : (average_daily_sales 0 n == 0)%Q.
Proof.
  unfold average_daily_sales. destruct (bool_decide (0 < n)); [|reflexivity].
  unfold Qdiv. apply Qmult_0_l.
Qed.

Lemma coverage_or_999_zero (stock : Z) (avg : Q) :
  (avg == 0)%Q -> coverage_or_999 stock avg = inject_Z 999.
Proof.
  intros Havg. unfold coverage_or_999.
  assert (Qlt_bool 0 avg = false) as ->; [|done].
  apply not_true_iff_false. unfold Qlt_bool.
  rewrite negb_true_iff, <- not_true_iff_false, Qle_bool_iff.
  intros H. apply H. rewrite Havg. apply Qle_refl.
Qed.

(** X8. The critical-stock alert, where the rounding of the average
    does not enter.  [days_for_avg = n], [coverage_days_threshold = c]
    and [stock_qty_threshold = t] are the parameters, the first day of
    the window, [snap_date - n], being a date.  When the evaluation
    completes: an available stock of at most [t] always gives a
    [stock_critico] alert, so with [t >= 0] every snapshot with a
    [stock_cero] alert has a [stock_critico] alert as well; and when the
    snapshots of the [n] days before the snapshot day record no sale, the
    alert is written iff the available stock is at most max(0, t), with
    the value 999. *)
Theorem stock_critico_rule (snaps : snapshots) (d p w : Z)
    (snap : DailyStockSnapshot) (configs : gmap MetricName config)
    (company_id : Z) (cfg : config) (n c t : Z)
    (ws : list (alert_key * MetricAlert)) :
  configs !! STOCK_CRITICO = Some cfg ->
  cfg !! "days_for_avg" = Some n ->
  cfg !! "coverage_days_threshold" = Some c ->
  cfg !! "stock_qty_threshold" = Some t ->
  date_min <= d - n <= date_max ->
  evaluation_writes snaps d p w snap configs company_id = Ok ws ->
  let available := closing_available_stock snap in
  let critico := exists x, x ∈ ws /\ metric_of x = STOCK_CRITICO in
  (available <= t -> critico)
  /\ (0 <= t -> (exists x, x ∈ ws /\ metric_of x = STOCK_CERO) -> critico)
  /\ (sold_in_window snaps p w (d - n) (d - 1) = 0 ->
      (critico <-> available <= Z.max 0 t)
      /\ forall x, x ∈ ws -> metric_of x = STOCK_CRITICO ->
           metric_value_numeric x.2 = Some (inject_Z 999)).
Proof.
  intros Hcfg Hn Hcov Ht _ Hws available critico.
  destruct (evaluation_writes_of_metric _ _ _ _ _ _ _ _ Hws)
    as (ws1 & ws2 & ws3 & ws4 & H1 & _ & _ & _ & Hmem).
  pose proof (fun x => stock_critico_metric _ _ _ _ _ _ _ x H1) as Hblock.
  assert (forall x, metric_of x = STOCK_CRITICO -> x ∈ ws <-> x ∈ ws1)
    as Hmem1.
  { intros x Hm. rewrite (Hmem x). by rewrite Hm. }
  pose proof (block_alert_iff ws ws1 STOCK_CRITICO Hmem1 Hblock) as Hiff.
  fold critico in Hiff.
  unfold stock_critico_writes, getitem in H1.
  rewrite Hcfg in H1. simpl in H1. rewrite Hn, Hcov, Ht in H1. cbn in H1.
  rewrite sum_quantity_sold_window in H1. fold available in H1.
  assert (available <= t -> critico) as Hlow.
  { intros Hle. apply Hiff.
    rewrite (bool_decide_eq_true_2 (available <= t)) in H1 by done.
    rewrite orb_true_r in H1. by inversion H1. }
  split; [exact Hlow|]. split.
  - intros Ht0 (x & Hx & Hm). apply Hlow.
    apply Hmem in Hx. rewrite Hm in Hx.
    unfold stock_cero_writes in Hx.
    destruct (bool_decide (closing_available_stock snap <= 0)) eqn:E;
      [|by apply elem_of_nil in Hx].
    apply bool_decide_eq_true in E. unfold available. lia.
  - intros Hsum. rewrite Hsum in H1.
    pose proof (average_daily_sales_zero n) as Havg.
    assert (Qle_bool (inject_Z available)
              (average_daily_sales 0 n * inject_Z c)
            = bool_decide (available <= 0)) as Hcmp.
    { apply eq_true_iff_eq. rewrite Qle_bool_iff, bool_decide_eq_true.
      rewrite Havg, Qmult_0_l. change 0%Q with (inject_Z 0).
      by rewrite <- Zle_Qle. }
    rewrite Hcmp in H1. split.
    + rewrite Hiff.
      destruct (bool_decide (available <= 0)) eqn:E0;
        [apply bool_decide_eq_true in E0|apply bool_decide_eq_false in E0];
        simpl in H1.
      * inversion H1. split; [intros _; lia|done].
      * destruct (bool_decide (available <= t)) eqn:E1;
          [apply bool_decide_eq_true in E1|apply bool_decide_eq_false in E1];
          inversion H1.
        -- split; [intros _; lia|done].
        -- split; [done|]. intros Hle. lia.
    + intros x Hx Hm. apply Hmem1 in Hx; [|done].
      destruct (bool_decide (available <= 0) || bool_decide (available <= t));
        inversion H1; subst ws1; [|by apply elem_of_nil in Hx].
      apply list_elem_of_singleton in Hx as ->. simpl.
      by rewrite (coverage_or_999_zero _ _ Havg).
Qed.

Lemma stock_critico_rule_witness :
  exists ws,
    evaluation_writes ∅ example_day 1 1 (example_snapshot 0 0)
      example_configs 7 = Ok ws
    /\ exists y, y ∈ ws /\ metric_of y = STOCK_CRITICO.
Proof.
  destruct (evaluation_writes_total ∅ example_day 1 1 (example_snapshot 0 0)
              example_configs 7) as [ws Hws].
  { intros m. exists (hardcoded_defaults m).
    split; [by destruct m|]. intros k Hk. exact Hk. }
  exists ws. split; [exact Hws|].
  refine (proj1 (stock_critico_rule ∅ example_day 1 1 (example_snapshot 0 0)
                   example_configs 7 (hardcoded_defaults STOCK_CRITICO)
                   30 3 3 ws _ _ _ _ _ Hws) _).
  - reflexivity.
  - reflexivity.
  - reflexivity.
  - reflexivity.
  - vm_compute. split; discriminate.
  - simpl. lia.
Defined.

(** *** Overstock and slow rotation *)

(** X28. The overstock alert, where the rounding of the average does
    not enter.  [days_for_avg = n] and [coverage_days_threshold = c] are
    the parameters, the first day of the window, [snap_date - n], being a
    date.  When the evaluation completes: if the snapshots of the [n]
    days before the snapshot day record no sale, a [sobre_stock] alert is
    written iff there is physical stock, whatever the threshold, and its
    value is 999; and with [c >= 0] a product without physical stock
    never gets the alert. *)
Theorem sobre_stock_rule (snaps : snapshots) (d p w : Z)
    (snap : DailyStockSnapshot) (configs : gmap MetricName config)
    (company_id : Z) (cfg : config) (n c : Z)
    (ws : list (alert_key * MetricAlert)) :
  configs !! SOBRE_STOCK = Some cfg ->
  cfg !! "days_for_avg" = Some n ->
  cfg !! "coverage_days_threshold" = Some c ->
  date_min <= d - n <= date_max ->
  evaluation_writes snaps d p w snap configs company_id = Ok ws ->
  let physical := closing_physical_stock snap in
  let sobre := exists x, x ∈ ws /\ metric_of x = SOBRE_STOCK in
  (sold_in_window snaps p w (d - n) (d - 1) = 0 ->
     (sobre <-> 0 < physical)
     /\ forall x, x ∈ ws -> metric_of x = SOBRE_STOCK ->
          metric_value_numeric x.2 = Some (inject_Z 999))
  /\ (0 <= c -> physical <= 0 -> ~ sobre).
Proof.
  intros Hcfg Hn Hcov _ Hws physical sobre.
  destruct (evaluation_writes_of_metric _ _ _ _ _ _ _ _ Hws)
    as (ws1 & ws2 & ws3 & ws4 & _ & H2 & _ & _ & Hmem).
  pose proof (fun x => sobre_stock_metric _ _ _ _ _ _ _ x H2) as Hblock.
  assert (forall x, metric_of x = SOBRE_STOCK -> x ∈ ws <-> x ∈ ws2) as Hmem2.
  { intros x Hm. rewrite (Hmem x). by rewrite Hm. }
  pose proof (block_alert_iff ws ws2 SOBRE_STOCK Hmem2 Hblock) as Hiff.
  fold sobre in Hiff.
  unfold sobre_stock_writes, getitem in H2.
  rewrite Hcfg in H2. simpl in H2. rewrite Hn, Hcov in H2. cbn in H2.
  rewrite sum_quantity_sold_window in H2. fold physical in H2.
  split.
  - intros Hsum. rewrite Hsum in H2.
    pose proof (average_daily_sales_zero n) as Havg.
    assert (Qeq_bool (average_daily_sales 0 n) 0 = true) as E0
      by (by apply Qeq_bool_iff).
    assert (Qlt_bool 0 (average_daily_sales 0 n) = false) as E1.
    { apply not_true_iff_false. rewrite Qlt_bool_iff. rewrite Havg.
      apply Qlt_irrefl. }
    rewrite E0, E1 in H2. simpl in H2. split.
    + rewrite Hiff.
      destruct (bool_decide (0 < physical)) eqn:Ep;
        [apply bool_decide_eq_true in Ep|apply bool_decide_eq_false in Ep];
        inversion H2; [by split|]. split; [done|]. intros ?. lia.
    + intros x Hx Hm. apply Hmem2 in Hx; [|done].
      destruct (bool_decide (0 < physical)); inversion H2; subst ws2;
        [|by apply elem_of_nil in Hx].
      apply list_elem_of_singleton in Hx as ->. simpl.
      by rewrite (coverage_or_999_zero _ _ Havg).
  - intros Hc Hp. rewrite Hiff.
    assert (ws2 = []) as ->; [|by intros Hne].
    rewrite (bool_decide_eq_false_2 (0 < physical)) in H2 by lia.
    rewrite andb_false_r in H2.
    destruct (Qlt_bool 0 _) eqn:E1; [|by inversion H2].
    destruct (Qlt_bool (_ * inject_Z c) (inject_Z physical)) eqn:E2;
      [|by inversion H2].
    exfalso. apply Qlt_bool_iff in E1, E2.
    apply (Qlt_irrefl (inject_Z physical)).
    eapply Qle_lt_trans; [|exact E2].
    apply Qle_trans with (inject_Z 0).
    + by rewrite <- Zle_Qle.
    + apply Qmult_le_0_compat; [by apply Qlt_le_weak|].
      change 0%Q with (inject_Z 0). by rewrite <- Zle_Qle.
Qed.

Lemma sobre_stock_rule_witness :
  exists ws,
    evaluation_writes ∅ example_day 1 1 (example_snapshot 5 0)
      example_configs 7 = Ok ws
    /\ exists x, x ∈ ws /\ metric_of x = SOBRE_STOCK.
Proof.
  destruct (evaluation_writes_total ∅ example_day 1 1 (example_snapshot 5 0)
              example_configs 7) as [ws Hws].
  { intros m. exists (hardcoded_defaults m).
    split; [by destruct m|]. intros k Hk. exact Hk. }
  exists ws. split; [exact Hws|].
  destruct (sobre_stock_rule ∅ example_day 1 1 (example_snapshot 5 0)
              example_configs 7 (hardcoded_defaults SOBRE_STOCK) 30 30 ws)
    as [H1 _].
  - reflexivity.
  - reflexivity.
  - reflexivity.
  - vm_compute. split; discriminate.
  - exact Hws.
  - destruct H1 as [[_ Hs] _]; [vm_compute; reflexivity|].
    apply Hs. simpl. lia.
Defined.





(** *** What a run leaves alone *)

Lemma untouched_outside_refl (K : Z -> Z -> Z -> Prop) (db : tenant_db) :
  untouched_outside K db db.
Proof. by repeat split. Qed.

Lemma untouched_outside_trans (K : Z -> Z -> Z -> Prop)
    (db1 db2 db3 : tenant_db) :
  untouched_outside K db1 db2 -> untouched_outside K db2 db3 ->
  untouched_outside K db1 db3.
Proof.
  intros (A1 & A2 & A3 & A4 & A5 & A6) (B1 & B2 & B3 & B4 & B5 & B6).
  split; [congruence|]. split; [congruence|].
  split; [intros d p w Hk; by rewrite B3, A3|].
  split; [intros d m p w Hk; by rewrite B4, A4|].
  split; [intros k Hk; by apply B5, A5|intros k Hk; by apply B6, A6].
Qed.

Lemma untouched_outside_mono (K K' : Z -> Z -> Z -> Prop)
    (db db' : tenant_db) :
  (forall d p w, K d p w -> K' d p w) ->
  untouched_outside K db db' -> untouched_outside K' db db'.
Proof.
  intros Hsub (A1 & A2 & A3 & A4 & A5 & A6).
  split; [done|]. split; [done|].
  split; [intros d p w Hk; apply A3; intros HK; by apply Hk, Hsub|].
  split; [intros d m p w Hk; apply A4; intros HK; by apply Hk, Hsub|].
  by split.
Qed.

Lemma for_each_preorder {St A : Type} (body : St -> A -> result St)
    (R : St -> St -> Prop) (l : list A) :
  (forall st, R st st) ->
  (forall st1 st2 st3, R st1 st2 -> R st2 st3 -> R st1 st3) ->
  (forall st a st', a ∈ l -> body st a = Ok st' -> R st st') ->
  forall st st', for_each body st l = Ok st' -> R st st'.
Proof.
  intros Hrefl Htrans. induction l as [|a l IH]; simpl; intros Hstep st st' H.
  - inversion H; subst. apply Hrefl.
  - apply bind_Ok in H as (st1 & H1 & H2).
    eapply Htrans; [apply (Hstep st a st1); [by left|done]|].
    apply IH; [|done]. intros st0 b st0' Hb. apply Hstep. by right.
Qed.

Lemma process_warehouse_untouched (company_id : Z) (d : date)
    (all_configs : gmap Z (gmap MetricName config))
    (global_configs : gmap MetricName config)
    (db db' : tenant_db) (p w : Z) :
  process_warehouse company_id d all_configs global_configs p db w = Ok db' ->
  untouched_outside (fun d' p' w' => d' = d /\ p' = p /\ w' = w) db db'
  /\ daily_stock_snapshots db' =
       <[ (d, p, w) := compute_snapshot db d p w ]> (daily_stock_snapshots db).
Proof.
  unfold process_warehouse, evaluate_and_log_metrics_for_snapshot.
  intros H. apply bind_Ok in H as (ws & Hws & H).
  inversion H; subst; clear H. simpl. split; [|done].
  split; [done|]. split; [done|]. simpl.
  split; [|split; [|split]].
  - intros d' p' w' Hk. apply lookup_insert_ne. intros [= <- <- <-]. by apply Hk.
  - intros d' m p' w' Hk. rewrite foldl_upsert_alert_lookup.
    rewrite filter_key_none; [done|].
    intros x Hx E.
    destruct (evaluation_writes_elem _ _ _ _ _ _ _ _ _ Hws Hx) as (Hkey & _).
    rewrite Hkey in E. injection E as <- _ <- <-. by apply Hk.
  - intros k Hk. destruct (decide (k = (d, p, w))) as [->|Hne].
    + rewrite lookup_insert_eq. by eexists.
    + by rewrite lookup_insert_ne.
  - intros k Hk. rewrite foldl_upsert_alert_lookup. by destruct (last _).
Qed.

Lemma process_date_untouched (company_id : Z) (products warehouses : list Z)
    (db db' : tenant_db) (d : date) :
  process_date company_id products warehouses db d = Ok db' ->
  untouched_outside
    (fun d' p' w' => d' = d /\ p' ∈ products /\ w' ∈ warehouses) db db'.
Proof.
  unfold process_date. intros H.
  apply bind_Ok in H as (all_configs & _ & H).
  apply bind_Ok in H as (global_configs & _ & H).
  revert H. apply for_each_preorder.
  - apply untouched_outside_refl.
  - apply untouched_outside_trans.
  - intros st p st' Hp. unfold process_product. apply for_each_preorder.
    + apply untouched_outside_refl.
    + apply untouched_outside_trans.
    + intros st1 w st1' Hw Hb.
      apply process_warehouse_untouched in Hb as [Hb _].
      eapply untouched_outside_mono; [|exact Hb].
      intros d' p' w' (-> & -> & ->). by repeat split.
Qed.

Lemma recalculate_from_untouched (company_id : Z)
    (products warehouses : list Z) (days : nat) :
  forall (d0 : date) (db : tenant_db),
    let r := recalculate_from company_id products warehouses days d0 db in
    untouched_outside (in_run d0 (stopped_at r) products warehouses)
      db (committed r).
Proof.
  induction days as [|days IH]; intros d0 db; simpl.
  - apply untouched_outside_refl.
  - destruct (process_date company_id products warehouses db d0)
      as [db'|e] eqn:E; simpl; [|apply untouched_outside_refl].
    pose proof (recalculate_from_spec company_id products warehouses days
                  (d0 + 1) db') as (Hstop & _).
    simpl in Hstop.
    eapply untouched_outside_trans.
    + eapply untouched_outside_mono; [|exact (process_date_untouched _ _ _ _ _ _ E)].
      intros d p w (-> & Hp & Hw). repeat split; [lia..|done|done].
    + eapply untouched_outside_mono; [|apply IH].
      intros d p w ((Hd1 & Hd2) & Hp & Hw). repeat split; [lia..|done|done].
Qed.

(** X4. A run of the snapshot engine never changes a transaction line
    or a metric configuration, and it leaves every snapshot and every
    alert as it was unless its day lies between the start date and the
    last committed day and its product and warehouse are among those of
    the run.  It never removes a snapshot or an alert. *)
Theorem recalculate_leaves_the_rest (today : date) (db : tenant_db)
    (product_ids warehouse_ids : list Z) (start_date : date)
    (company_id : Z) :
  let r := recalculate_stock_snapshots today db product_ids warehouse_ids
             start_date company_id in
  untouched_outside
    (in_run start_date (stopped_at r) product_ids warehouse_ids)
    db (committed r)
  /\ stopped_at r <= Z.max start_date (today + 1).
Proof.
  split; [apply recalculate_from_untouched|].
  pose proof (recalculate_from_spec company_id product_ids warehouse_ids
                (Z.to_nat (today - start_date + 1)) start_date db)
    as (Hstop & _).
  unfold recalculate_stock_snapshots. lia.
Qed.

(** *** A duplicated configuration row *)

Lemma for_each_raises {St A : Type} (body : St -> A -> result St)
    (l : list A) (a : A) (e : exn) :
  a ∈ l ->
  (forall st, body st a = Raise e) ->
  (forall st b e', b ∈ l -> body st b = Raise e' -> e' = e) ->
  forall st, for_each body st l = Raise e.
Proof.
  induction l as [|b l IH]; intros Ha Hraise Honly st;
    [by apply elem_of_nil in Ha|].
  simpl. destruct (body st b) as [st'|e'] eqn:E; cbn.
  - apply IH; [|done|intros st0 c e0 Hc; apply Honly; by right].
    apply elem_of_cons in Ha as [->|Ha]; [|done].
    by rewrite Hraise in E.
  - f_equal. eapply Honly; [|exact E]. by left.
Qed.

Lemma metric_configs_raises (db : list MetricConfiguration) (wh : option Z)
    (e : exn) :
  metric_configs db wh = Raise e -> e = MultipleResultsFound.
Proof.
  unfold metric_configs.
  generalize (∅ : gmap MetricName config).
  induction all_metric_names as [|m l IH]; intros acc; simpl; [done|].
  destruct (get_effective_metric_config db m wh) as [cfg|e'] eqn:E; cbn.
  - apply IH.
  - intros [= <-]. by eapply get_effective_metric_config_raises.
Qed.

Lemma metric_configs_duplicate (db : list MetricConfiguration)
    (m : MetricName) (wh : option Z) :
  (2 <= length (query_config_json db m None))%nat ->
  metric_configs db wh = Raise MultipleResultsFound.
Proof.
  intros Hdup. unfold metric_configs.
  apply (for_each_raises _ _ m).
  - by destruct m; by_evaluation.
  - intros st.
    unfold get_effective_metric_config, apply_db_layers.
    by rewrite (scalar_many _ Hdup).
  - intros st b e' _.
    destruct (get_effective_metric_config db b wh) as [cfg|e0] eqn:E; cbn;
      [done|].
    intros [= <-]. by eapply get_effective_metric_config_raises.
Qed.

Lemma process_date_duplicate (company_id : Z) (products warehouses : list Z)
    (db : tenant_db) (d : date) (m : MetricName) :
  (2 <= length (query_config_json (metric_configurations db) m None))%nat ->
  process_date company_id products warehouses db d
  = Raise MultipleResultsFound.
Proof.
  intros Hdup. unfold process_date.
  rewrite (metric_configs_duplicate _ m None Hdup).
  destruct (build_all_configs (metric_configurations db) warehouses)
    as [a|e] eqn:E; cbn; [done|].
  f_equal. revert E. unfold build_all_configs.
    generalize (∅ : gmap Z (gmap MetricName config)).
  induction warehouses as [|w l IH]; intros acc; simpl; [done|].
  destruct (metric_configs (metric_configurations db) (Some w))
    as [g|e'] eqn:Eg; cbn.
  - apply IH.
  - intros [= <-]. by eapply metric_configs_raises.
Qed.

(** X12. A metric with two active company-global configuration rows
    stops the engine: a run that has at least one day to process raises
    [MultipleResultsFound] on the first day and commits nothing,
    whatever the products and warehouses. *)
Theorem duplicate_configuration_stops_run (today : date) (db : tenant_db)
    (product_ids warehouse_ids : list Z) (start_date : date)
    (company_id : Z) (m : MetricName) :
  (2 <= length (query_config_json (metric_configurations db) m None))%nat ->
  start_date <= today ->
  let r := recalculate_stock_snapshots today db product_ids warehouse_ids
             start_date company_id in
  raised r = Some MultipleResultsFound
  /\ committed r = db
  /\ stopped_at r = start_date.
Proof.
  intros Hdup Hle. unfold recalculate_stock_snapshots.
  destruct (Z.to_nat (today - start_date + 1)) as [|days] eqn:E; [lia|].
  simpl. by rewrite (process_date_duplicate _ _ _ _ _ m Hdup).
Qed.

Lemma duplicate_configuration_stops_run_witness :
  raised
    (recalculate_stock_snapshots 12
       {| metric_configurations := example_rows ++ example_rows;
          transaction_details := []; daily_stock_snapshots := ∅;
          metric_alerts := ∅ |} [1] [1] 10 7)
  = Some MultipleResultsFound.
Proof.
  refine (proj1 (duplicate_configuration_stops_run 12
                   {| metric_configurations := example_rows ++ example_rows;
                      transaction_details := []; daily_stock_snapshots := ∅;
                      metric_alerts := ∅ |} [1] [1] 10 7 STOCK_CERO _ _)).
  - vm_compute. lia.
  - lia.
Defined.

(** *** What an evaluation reads *)

Lemma filter_map_to_list_agree (P : snapshot_key * DailyStockSnapshot -> Prop)
    `{forall x, Decision (P x)} (S S' : snapshots) :
  (forall k v, P (k, v) -> S !! k = Some v <-> S' !! k = Some v) ->
  filter P (map_to_list S) ≡ₚ filter P (map_to_list S').
Proof.
  intros Hagree. apply NoDup_Permutation.
  - apply NoDup_filter, NoDup_map_to_list.
  - apply NoDup_filter, NoDup_map_to_list.
  - intros [k v]. rewrite !list_elem_of_filter, !elem_of_map_to_list.
    split; intros [HP Hl]; (split; [done|]); by apply (Hagree k v HP).
Qed.

Lemma sum_quantity_sold_ext (S S' : snapshots) (p w : Z) (lo hi : date) :
  (forall d, lo <= d <= hi -> S !! (d, p, w) = S' !! (d, p, w)) ->
  sum_quantity_sold S p w lo hi = sum_quantity_sold S' p w lo hi.
Proof.
  intros Hagree. unfold sum_quantity_sold, snapshots_between.
  apply foldr_add_Permutation. apply fmap_Permutation.
  apply filter_map_to_list_agree.
  intros [[d p'] w'] v (Hp & Hw & Hd). simpl in *. subst p' w'.
  by rewrite Hagree.
Qed.

Lemma last_sale_date_ext (S S' : snapshots) (p w : Z) (d : date) :
  (forall d', d' <= d -> S !! (d', p, w) = S' !! (d', p, w)) ->
  last_sale_date S p w d = last_sale_date S' p w d.
Proof.
  intros Hagree. unfold last_sale_date.
  assert (forall l l' : list Z, l ≡ₚ l' ->
            foldr (fun x acc => match acc with
                                | Some m => Some (Z.max x m)
                                | None => Some x
                                end) None l
            = foldr (fun x acc => match acc with
                                  | Some m => Some (Z.max x m)
                                  | None => Some x
                                  end) None l') as Hperm.
  { induction 1 as [|x l l' _ IH|x y l|l1 l2 l3 _ IH1 _ IH2]; simpl.
    - done.
    - by rewrite IH.
    - destruct (foldr _ None l); f_equal; lia.
    - by rewrite IH1. }
  apply Hperm. apply fmap_Permutation. apply filter_map_to_list_agree.
  intros [[d' p'] w'] v (Hp & Hw & _ & Hd). simpl in *. subst p' w'.
  by rewrite Hagree.
Qed.

(** An evaluation reads, of the snapshot table, the rows of its product
    and warehouse up to its day only. *)
Lemma evaluation_writes_ext (S S' : snapshots) (d p w : Z)
    (snap : DailyStockSnapshot) (configs : gmap MetricName config)
    (company_id : Z) :
  (forall d', d' <= d -> S !! (d', p, w) = S' !! (d', p, w)) ->
  evaluation_writes S d p w snap configs company_id
  = evaluation_writes S' d p w snap configs company_id.
Proof.
  intros Hagree.
  assert (forall lo hi, hi <= d ->
            sum_quantity_sold S p w lo hi = sum_quantity_sold S' p w lo hi)
    as Hsum.
  { intros lo hi Hhi. apply sum_quantity_sold_ext.
    intros d' Hd'. apply Hagree. lia. }
  assert (stock_critico_writes S d p w snap configs
          = stock_critico_writes S' d p w snap configs) as E1.
  { unfold stock_critico_writes.
    destruct (getitem _ "days_for_avg") as [n|]; [|done]. cbn.
    by rewrite (Hsum (d - n) (d - 1)) by lia. }
  assert (sobre_stock_writes S d p w snap configs
          = sobre_stock_writes S' d p w snap configs) as E2.
  { unfold sobre_stock_writes.
    destruct (getitem _ "days_for_avg") as [n|]; [|done]. cbn.
    by rewrite (Hsum (d - n) (d - 1)) by lia. }
  assert (baja_rotacion_writes S d p w snap configs
          = baja_rotacion_writes S' d p w snap configs) as E3.
  { unfold baja_rotacion_writes.
    by rewrite (last_sale_date_ext S S' p w d Hagree). }
  assert (recomendacion_compra_writes S d p w snap configs company_id
          = recomendacion_compra_writes S' d p w snap configs company_id)
    as E4.
  { unfold recomendacion_compra_writes, total_sold_lookback.
    destruct (configs !! RECOMENDACION_COMPRA) as [cfg|]; [|done].
    destruct (getitem cfg _) as [n|]; [|done]. cbn.
    by rewrite (Hsum (d - (n - 1)) d) by lia. }
  unfold evaluation_writes. by rewrite E1, E2, E3, E4.
Qed.

Lemma foldl_upsert_alert_id (ws : list (alert_key * MetricAlert)) :
  forall tbl : alerts,
    (forall x, x ∈ ws -> tbl !! x.1 = Some x.2) ->
    foldl upsert_alert tbl ws = tbl.
Proof.
  induction ws as [|x ws IH]; intros tbl Hall; simpl; [done|].
  unfold upsert_alert at 2. rewrite insert_id by (apply Hall; by left).
  apply IH. intros y Hy. apply Hall. by right.
Qed.

(** *** Running the engine again *)

Lemma evaluation_writes_NoDup_keys (snaps : snapshots) (d p w : Z)
    (snap : DailyStockSnapshot) (configs : gmap MetricName config)
    (company_id : Z) (ws : list (alert_key * MetricAlert)) :
  evaluation_writes snaps d p w snap configs company_id = Ok ws ->
  NoDup (fst <$> ws).
Proof.
  intros H. apply NoDup_metrics_keys.
  eapply sublist_NoDup; [|by eapply evaluation_writes_metrics].
  by_evaluation.
Qed.

Lemma process_warehouse_alerts (company_id : Z) (d : date)
    (all_configs : gmap Z (gmap MetricName config))
    (global_configs : gmap MetricName config)
    (db0 db db' : tenant_db) (p w : Z) :
  same_inputs d db0 db ->
  process_warehouse company_id d all_configs global_configs p db w = Ok db' ->
  alerts_written company_id d all_configs global_configs db0 p w db'
  /\ forall p' w',
       alerts_written company_id d all_configs global_configs db0 p' w' db ->
       alerts_written company_id d all_configs global_configs db0 p' w' db'.
Proof.
  intros Hin H.
  pose proof (same_inputs_compute _ _ _ p w Hin) as Hcomp.
  unfold process_warehouse, evaluate_and_log_metrics_for_snapshot in H.
  apply bind_Ok in H as (ws & Hws & H). inversion H; subst; clear H.
  simpl in Hws. rewrite Hcomp in Hws.
  assert (alerts_written company_id d all_configs global_configs db0 p w
            {| metric_configurations := metric_configurations db;
               transaction_details := transaction_details db;
               daily_stock_snapshots :=
                 <[ (d, p, w) := compute_snapshot db0 d p w ]>
                   (daily_stock_snapshots db);
               metric_alerts := foldl upsert_alert (metric_alerts db) ws |})
    as Hfresh.
  { intros ws' Hws' x Hx. simpl in *.
    rewrite Hws in Hws'. injection Hws' as <-.
    rewrite foldl_upsert_alert_lookup.
    by rewrite (filter_key_unique ws x
                  (evaluation_writes_NoDup_keys _ _ _ _ _ _ _ _ Hws) Hx). }
  simpl. rewrite Hcomp. split; [exact Hfresh|].
  intros p' w' Hold.
  destruct (decide ((p', w') = (p, w))) as [[= -> ->]|Hne]; [exact Hfresh|].
  intros ws' Hws' x Hx. simpl in *.
  rewrite (evaluation_writes_ext _ (daily_stock_snapshots db)) in Hws'.
  - rewrite foldl_upsert_alert_lookup. rewrite filter_key_none.
    + by apply (Hold ws').
    + intros y Hy E.
      destruct (evaluation_writes_elem _ _ _ _ _ _ _ _ _ Hws Hy) as (Hky & _).
      destruct (evaluation_writes_elem _ _ _ _ _ _ _ _ _ Hws' Hx) as (Hkx & _).
      rewrite Hky, Hkx in E. apply Hne. by injection E as _ <- <-.
  - intros d' _. apply lookup_insert_ne. intros [= _ <- <-]. by apply Hne.
Qed.

Lemma process_product_alerts (company_id : Z) (d : date)
    (all_configs : gmap Z (gmap MetricName config))
    (global_configs : gmap MetricName config) (warehouses : list Z)
    (db0 db db' : tenant_db) (p : Z) :
  same_inputs d db0 db ->
  process_product company_id d all_configs global_configs warehouses db p
    = Ok db' ->
  (forall w, w ∈ warehouses ->
     alerts_written company_id d all_configs global_configs db0 p w db')
  /\ forall p' w',
       alerts_written company_id d all_configs global_configs db0 p' w' db ->
       alerts_written company_id d all_configs global_configs db0 p' w' db'.
Proof.
  intros Hin H. unfold process_product in H.
  pose (P := fun st : tenant_db =>
               same_inputs d db0 st
               /\ forall p' w',
                    alerts_written company_id d all_configs global_configs
                      db0 p' w' db ->
                    alerts_written company_id d all_configs global_configs
                      db0 p' w' st).
  pose (Q := fun (w : Z) (st : tenant_db) =>
               alerts_written company_id d all_configs global_configs
                 db0 p w st).
  destruct (for_each_invariant
              (process_warehouse company_id d all_configs global_configs p)
              P Q warehouses) with (st := db) (st' := db')
    as ([_ HP2] & _ & HQ).
  - intros st w st' _ [HPa HPb] Hb.
    destruct (process_warehouse_step _ _ _ _ _ _ _ _ _ HPa Hb) as (Ha & _).
    destruct (process_warehouse_alerts _ _ _ _ _ _ _ _ _ HPa Hb) as (Hw & Hk).
    split; [|exact Hw]. split; [exact Ha|].
    intros p' w' Hold. apply Hk. by apply HPb.
  - intros st w st' b _ [HPa HPb] HQb Hb.
    destruct (process_warehouse_alerts _ _ _ _ _ _ _ _ _ HPa Hb) as (_ & Hk).
    by apply Hk.
  - split; [exact Hin|]. by intros p' w' Hold.
  - exact H.
  - split; [exact HQ|exact HP2].
Qed.

Lemma process_date_alerts (company_id : Z) (products warehouses : list Z)
    (db db' : tenant_db) (d : date)
    (all_configs : gmap Z (gmap MetricName config))
    (global_configs : gmap MetricName config) :
  build_all_configs (metric_configurations db) warehouses = Ok all_configs ->
  metric_configs (metric_configurations db) None = Ok global_configs ->
  process_date company_id products warehouses db d = Ok db' ->
  forall p w, p ∈ products -> w ∈ warehouses ->
    alerts_written company_id d all_configs global_configs db p w db'.
Proof.
  unfold process_date. intros -> -> H. cbn in H.
  pose (P := fun st : tenant_db => same_inputs d db st).
  pose (Q := fun (p : Z) (st : tenant_db) =>
               forall w, w ∈ warehouses ->
                 alerts_written company_id d all_configs global_configs
                   db p w st).
  destruct (for_each_invariant
              (process_product company_id d all_configs global_configs
                 warehouses)
              P Q products) with (st := db) (st' := db')
    as (_ & _ & HQ).
  - intros st p st' _ HPst Hb.
    destruct (process_product_step _ _ _ _ _ _ _ _ _ HPst Hb) as (Ha & _).
    destruct (process_product_alerts _ _ _ _ _ _ _ _ _ HPst Hb) as (Hw & _).
    split; [exact Ha|exact Hw].
  - intros st p st' b _ HPst HQb Hb w Hw.
    destruct (process_product_alerts _ _ _ _ _ _ _ _ _ HPst Hb) as (_ & Hk).
    apply Hk. by apply HQb.
  - apply same_inputs_refl.
  - exact H.
  - intros p w Hp Hw. by apply HQ.
Qed.

(** Every alert of a run is the one evaluated on the committed tables. *)
Lemma recalculate_from_alerts_current (company_id : Z)
    (products warehouses : list Z) (days : nat) :
  forall (d0 : date) (db : tenant_db),
    let r := recalculate_from company_id products warehouses days d0 db in
    alerts_current company_id d0 (stopped_at r) products warehouses
      (committed r).
Proof.
  induction days as [|days IH]; intros d0 db; simpl.
  - intros d p w ac gc (Hd & _). lia.
  - destruct (process_date company_id products warehouses db d0)
      as [db'|e] eqn:E; simpl; [|intros d p w ac gc (Hd & _); lia].
    pose proof (recalculate_from_spec company_id products warehouses days
                  (d0 + 1) db') as (_ & _ & Hcfg & Hold & _).
    destruct (recalculate_from_consistent company_id products warehouses days
                (d0 + 1) db') as [Ht _].
    pose proof (recalculate_from_untouched company_id products warehouses
                  days (d0 + 1) db') as (_ & _ & _ & Halerts & _).
    simpl in Hcfg, Hold, Ht, Halerts.
    intros d p w ac gc (Hd & Hp & Hw) Hac Hgc.
    destruct (decide (d = d0)) as [->|Hne];
      [|apply (IH (d0 + 1) db'); [repeat split; [lia..|done|done]|done..]].
    pose proof (process_date_spec _ _ _ _ _ _ E) as ((Ht0 & Hc0 & Hs0) & _).
    rewrite Hcfg, Hc0 in Hac, Hgc.
    pose proof (process_date_alerts _ _ _ _ _ _ _ _ Hac Hgc E p w Hp Hw)
      as Hday.
    intros ws Hws x Hx.
    rewrite (evaluation_writes_ext _ (daily_stock_snapshots db')) in Hws
      by (intros d' Hd'; apply Hold; simpl; lia).
    rewrite (compute_snapshot_ext _ db) in Hws.
    + destruct (evaluation_writes_elem _ _ _ _ _ _ _ _ _ Hws Hx) as (Hk & _).
      rewrite Hk. rewrite Halerts by (intros ((Hlo & _) & _); lia).
      rewrite <- Hk. by apply (Hday ws).
    + congruence.
    + rewrite Hold by (simpl; lia). apply Hs0. simpl. lia.
Qed.

(** A day whose snapshots and alerts are those the engine computes is
    left as it is. *)
Lemma process_date_current (company_id : Z) (products warehouses : list Z)
    (db db' : tenant_db) (d : date) :
  up_to_date d (d + 1) products warehouses db ->
  alerts_current company_id d (d + 1) products warehouses db ->
  process_date company_id products warehouses db d = Ok db' ->
  db' = db.
Proof.
  unfold process_date. intros Hup Hal H.
  apply bind_Ok in H as (all_configs & Hac & H).
  apply bind_Ok in H as (global_configs & Hgc & H).
  pose (R := fun st st' : tenant_db => st = db -> st' = db).
  assert (forall st, R st st) as Hrefl by (intros st Hst; exact Hst).
  assert (forall st1 st2 st3, R st1 st2 -> R st2 st3 -> R st1 st3) as Htrans
    by (intros st1 st2 st3 H12 H23 H1; exact (H23 (H12 H1))).
  assert (R db db') as HR; [|by apply HR].
  apply (for_each_preorder _ R products Hrefl Htrans) in H; [done|].
  intros st p st' Hp Hb. unfold process_product in Hb.
  apply (for_each_preorder _ R warehouses Hrefl Htrans) in Hb; [done|].
  intros st1 w st1' Hw Hb1 ->.
  assert (in_run d (d + 1) products warehouses d p w) as Hin
    by (repeat split; [lia..|done|done]).
  unfold process_warehouse, evaluate_and_log_metrics_for_snapshot in Hb1.
  apply bind_Ok in Hb1 as (ws & Hws & Hb1). inversion Hb1; subst; clear Hb1.
  simpl in *.
  rewrite (insert_id _ _ _ (Hup d p w Hin)) in *.
  rewrite (foldl_upsert_alert_id ws)
    by (by apply (Hal d p w all_configs global_configs Hin Hac Hgc ws)).
  by destruct db.
Qed.

Lemma recalculate_from_current (company_id : Z)
    (products warehouses : list Z) (days : nat) :
  forall (d0 : date) (db : tenant_db),
    up_to_date d0 (d0 + Z.of_nat days) products warehouses db ->
    alerts_current company_id d0 (d0 + Z.of_nat days) products warehouses
      db ->
    committed (recalculate_from company_id products warehouses days d0 db)
    = db.
Proof.
  induction days as [|days IH]; intros d0 db Hup Hal; simpl; [done|].
  destruct (process_date company_id products warehouses db d0)
    as [db'|e] eqn:E; simpl; [|done].
  apply process_date_current in E as ->.
  - apply IH.
    + intros d p w ((Hd1 & Hd2) & Hp & Hw).
      apply Hup. repeat split; [lia..|done|done].
    + intros d p w ac gc ((Hd1 & Hd2) & Hp & Hw).
      apply Hal. repeat split; [lia..|done|done].
  - intros d p w ((Hd1 & Hd2) & Hp & Hw).
    apply Hup. repeat split; [lia..|done|done].
  - intros d p w ac gc ((Hd1 & Hd2) & Hp & Hw).
    apply Hal. repeat split; [lia..|done|done].
Qed.

(** *** The storage order of the lines *)

Lemma insert_by_time_sorted (x : TransactionDetail)
    (l : list TransactionDetail) :
  Sorted by_time l -> Sorted by_time (insert_by_time x l).
Proof.
  induction l as [|y l IH]; simpl; intros Hs.
  - by repeat constructor.
  - case_bool_decide as Hxy.
    + constructor; [done|]. by constructor.
    + apply Sorted_inv in Hs as [Hs Hhd]. constructor; [by apply IH|].
      destruct l as [|z l]; simpl.
      * constructor. unfold by_time. lia.
      * case_bool_decide; constructor.
        -- unfold by_time. lia.
        -- by apply HdRel_inv in Hhd.
Qed.

Lemma order_by_time_sorted (l : list TransactionDetail) :
  StronglySorted by_time (order_by_time l).
Proof.
  apply Sorted_StronglySorted.
  - intros a b c. unfold by_time. lia.
  - induction l as [|x l IH]; simpl; [constructor|].
    by apply insert_by_time_sorted.
Qed.

(** Two sorted readings of the same lines are the same list when no two
    different lines have the same time. *)
Lemma sorted_by_time_unique (l1 : list TransactionDetail) :
  forall l2,
    StronglySorted by_time l1 -> StronglySorted by_time l2 -> l1 ≡ₚ l2 ->
    (forall x y, x ∈ l1 -> y ∈ l1 ->
       td_transaction_time x = td_transaction_time y -> x = y) ->
    l1 = l2.
Proof.
  induction l1 as [|a l1 IH]; intros l2 Hs1 Hs2 Hperm Htie.
  - by apply Permutation_nil_l in Hperm.
  - destruct l2 as [|b l2];
      [symmetry in Hperm; by apply Permutation_nil_l in Hperm|].
    apply StronglySorted_inv in Hs1 as [Hs1 Ha].
    apply StronglySorted_inv in Hs2 as [Hs2 Hb].
    rewrite Forall_forall in Ha, Hb.
    assert (b ∈ a :: l1) as Hb1 by (rewrite Hperm; by left).
    assert (a ∈ b :: l2) as Ha2 by (rewrite <- Hperm; by left).
    assert (a = b) as <-.
    { apply Htie; [by left|done|].
      apply elem_of_cons in Hb1 as [->|Hb1]; [done|].
      apply elem_of_cons in Ha2 as [->|Ha2]; [done|].
      specialize (Ha b Hb1). specialize (Hb a Ha2).
      unfold by_time in *. lia. }
    f_equal. apply IH; [done..| |].
    + by apply Permutation_cons_inv in Hperm.
    + intros x y Hx Hy. apply Htie; by right.
Qed.

Lemma query_daily_transactions_storage (rows rows' : list TransactionDetail)
    (d p w : Z) :
  rows' ≡ₚ rows -> tie_free rows ->
  query_daily_transactions rows' d p w = query_daily_transactions rows d p w.
Proof.
  intros Hperm Htie. unfold query_daily_transactions.
  apply sorted_by_time_unique.
  - apply order_by_time_sorted.
  - apply order_by_time_sorted.
  - rewrite !order_by_time_perm. by rewrite Hperm.
  - intros x y Hx Hy Ht.
    rewrite order_by_time_perm in Hx, Hy.
    apply list_elem_of_filter in Hx as [(Hx1 & Hx2 & Hx3) Hx].
    apply list_elem_of_filter in Hy as [(Hy1 & Hy2 & Hy3) Hy].
    rewrite Hperm in Hx, Hy. apply Htie; [done|done|congruence..|done].
Qed.

Lemma compute_snapshot_with_lines (db : tenant_db)
    (lines : list TransactionDetail) (d p w : Z) :
  lines ≡ₚ transaction_details db -> tie_free (transaction_details db) ->
  compute_snapshot (with_lines db lines) d p w = compute_snapshot db d p w.
Proof.
  intros Hperm Htie. unfold compute_snapshot. simpl.
  by rewrite (query_daily_transactions_storage _ _ d p w Hperm Htie).
Qed.

Lemma process_warehouse_with_lines (company_id : Z) (d : date)
    (all_configs : gmap Z (gmap MetricName config))
    (global_configs : gmap MetricName config)
    (lines : list TransactionDetail) (db : tenant_db) (p w : Z) :
  lines ≡ₚ transaction_details db -> tie_free (transaction_details db) ->
  process_warehouse company_id d all_configs global_configs p
    (with_lines db lines) w
  = relines lines
      (process_warehouse company_id d all_configs global_configs p db w).
Proof.
  intros Hperm Htie.
  unfold process_warehouse, evaluate_and_log_metrics_for_snapshot.
  rewrite (compute_snapshot_with_lines db lines d p w Hperm Htie). simpl.
  by destruct (evaluation_writes _ _ _ _ _ _ _).
Qed.

Lemma for_each_with_lines {A : Type} (body : tenant_db -> A -> result tenant_db)
    (lines : list TransactionDetail) (l : list A) :
  (forall db a,
     lines ≡ₚ transaction_details db -> tie_free (transaction_details db) ->
     body (with_lines db lines) a = relines lines (body db a)) ->
  (forall db a db', body db a = Ok db' ->
     transaction_details db' = transaction_details db) ->
  forall db,
    lines ≡ₚ transaction_details db -> tie_free (transaction_details db) ->
    for_each body (with_lines db lines) l
    = relines lines (for_each body db l).
Proof.
  intros Hbody Hkeep. induction l as [|a l IH]; intros db Hperm Htie; simpl;
    [done|].
  rewrite (Hbody db a Hperm Htie).
  destruct (body db a) as [db1|e] eqn:E; cbn; [|done].
  apply IH; by rewrite (Hkeep _ _ _ E).
Qed.

Lemma process_date_with_lines (company_id : Z) (products warehouses : list Z)
    (lines : list TransactionDetail) (db : tenant_db) (d : date) :
  lines ≡ₚ transaction_details db -> tie_free (transaction_details db) ->
  process_date company_id products warehouses (with_lines db lines) d
  = relines lines (process_date company_id products warehouses db d).
Proof.
  intros Hperm Htie. unfold process_date.
  change (metric_configurations (with_lines db lines))
    with (metric_configurations db).
  destruct (build_all_configs (metric_configurations db) warehouses)
    as [all_configs|e]; [|done].
  change (Ok all_configs ≫= ?k) with (k all_configs). cbv beta.
  destruct (metric_configs (metric_configurations db) None)
    as [global_configs|e]; [|done].
  change (Ok global_configs ≫= ?k) with (k global_configs). cbv beta.
  assert (forall p st w st',
            process_warehouse company_id d all_configs global_configs p st w
              = Ok st' ->
            transaction_details st' = transaction_details st) as Hkeep.
  { intros p st w st' H.
    by apply process_warehouse_untouched in H as [(Ht & _) _]. }
  apply for_each_with_lines; [| |done..].
  - intros st p Hp Ht. unfold process_product.
    apply for_each_with_lines; [| |done..].
    + intros st1 w Hp1 Ht1. by apply process_warehouse_with_lines.
    + intros st1 w st1'. apply Hkeep.
  - intros st p st' H. unfold process_product in H. revert H.
    apply (for_each_preorder _
             (fun a b => transaction_details b = transaction_details a)).
    + done.
    + intros st1 st2 st3 H12 H23. congruence.
    + intros st1 w st1' _. apply Hkeep.
Qed.

(** A run does not depend on the order in which the lines are stored
    when their times fix the order in which they are read. *)
Lemma recalculate_from_with_lines (company_id : Z)
    (products warehouses : list Z) (lines : list TransactionDetail)
    (days : nat) :
  forall (d0 : date) (db : tenant_db),
    lines ≡ₚ transaction_details db -> tie_free (transaction_details db) ->
    let r := recalculate_from company_id products warehouses days d0 db in
    recalculate_from company_id products warehouses days d0
      (with_lines db lines)
    = {| committed := with_lines (committed r) lines;
         stopped_at := stopped_at r;
         raised := raised r |}.
Proof.
  induction days as [|days IH]; intros d0 db Hperm Htie; simpl; [done|].
  rewrite (process_date_with_lines _ _ _ _ _ _ Hperm Htie).
  destruct (process_date company_id products warehouses db d0)
    as [db'|e] eqn:E; simpl; [|done].
  apply process_date_spec in E as ((Ht & _) & _).
  apply IH; by rewrite Ht.
Qed.

(** X5. Running the engine twice over the same range gives the same
    database as running it once.  When the first run raises nothing and
    no two lines of the same day, product and warehouse have the same
    time, so that [ORDER BY transaction_time] fixes the order in which
    they are read, the second run leaves every table (snapshots, alerts,
    lines, configurations) as the first run committed it, whether it
    completes or not and in whatever order the lines are stored by then.
    The second run still issues its upserts: what it rewrites are the
    values the rows already hold (the column [updated_at] of a snapshot,
    which is not part of the rows here, is set anew). *)
Theorem recalculate_twice_changes_nothing (today : date) (db : tenant_db)
    (product_ids warehouse_ids : list Z) (start_date : date)
    (company_id : Z) (lines : list TransactionDetail) :
  let r1 := recalculate_stock_snapshots today db product_ids warehouse_ids
              start_date company_id in
  let stored := with_lines (committed r1) lines in
  let r2 := recalculate_stock_snapshots today stored product_ids
              warehouse_ids start_date company_id in
  raised r1 = None ->
  tie_free (transaction_details db) ->
  lines ≡ₚ transaction_details db ->
  committed r2 = stored.
Proof.
  intros r1 stored r2 Hr1 Htie Hperm.
  unfold r2, stored, r1, recalculate_stock_snapshots in *.
  set (days := Z.to_nat (today - start_date + 1)) in *.
  pose proof (recalculate_from_spec company_id product_ids warehouse_ids
                days start_date db) as (_ & Hstop & _).
  destruct (recalculate_from_consistent company_id product_ids warehouse_ids
              days start_date db) as [Ht Hup].
  pose proof (recalculate_from_alerts_current company_id product_ids
                warehouse_ids days start_date db) as Hal.
  simpl in Hal. rewrite (Hstop Hr1) in Hup, Hal.
  rewrite recalculate_from_with_lines by (by rewrite Ht).
  simpl. f_equal. by apply recalculate_from_current.
Qed.

Lemma recalculate_twice_changes_nothing_witness :
  committed
    (recalculate_stock_snapshots 12
       (with_lines (committed example_run)
          [example_line 11 RECEPCION 4; example_line 10 VENTA 8])
       [1] [1] 10 7)
  = with_lines (committed example_run)
      [example_line 11 RECEPCION 4; example_line 10 VENTA 8].
Proof.
  apply (recalculate_twice_changes_nothing 12
           (example_db [example_line 10 VENTA 8;
                        example_line 11 RECEPCION 4])
           [1] [1] 10 7
           [example_line 11 RECEPCION 4; example_line 10 VENTA 8]).
  - vm_compute. reflexivity.
  - intros x y Hx Hy Hd _ _ _. simpl in Hx, Hy.
    apply elem_of_cons in Hx as [->|Hx%list_elem_of_singleton];
      apply elem_of_cons in Hy as [->|Hy%list_elem_of_singleton];
      subst; try reflexivity; discriminate Hd.
  - simpl. apply perm_swap.
Defined.

End SnapshotServiceSpec.

(** ** Properties of get_consecutive_alert_days *)

Module AlertDaysSpec.
Import Tenant AlertDays.

Lemma scan_run (tbl : alerts) (p w : Z) (m : MetricName) (D : date) (k : Z) :
  run_length tbl p w m D k ->
  forall (remaining : nat) (i : Z), 0 <= i <= k ->
    scan tbl p w m D remaining i i = Z.min k (i + Z.of_nat remaining).
Proof.
  intros (Hk & Hrun & Hgap).
  induction remaining as [|r IH]; intros i Hi; cbn [scan]; [lia|].
  unfold alert_exists. destruct (decide (i = k)) as [Heq|Hne].
  - subst i. rewrite bool_decide_eq_false_2; [lia|].
    rewrite Hgap. by intros [? ?].
  - rewrite bool_decide_eq_true_2 by (apply Hrun; lia).
    rewrite IH by lia. lia.
Qed.

Lemma consecutive_alert_days_run (tbl : alerts) (p w : Z) (m : MetricName)
    (D : date) (k cap : Z) :
  run_length tbl p w m D k ->
  consecutive_alert_days tbl p w m D cap = Z.min k (Z.max 0 (cap + 1)).
Proof.
  intros Hrun. unfold consecutive_alert_days.
  rewrite (scan_run _ _ _ _ _ _ Hrun) by (destruct Hrun; lia). lia.
Qed.

Lemma example_streak_run (n : nat) :
  Forall (fun i : Z => is_Some (example_streak n !! (100 - i, STOCK_CERO, 1, 1)))
         (seqZ 0 (Z.of_nat n)) ->
  example_streak n !! (100 - Z.of_nat n, STOCK_CERO, 1, 1) = None ->
  run_length (example_streak n) 1 1 STOCK_CERO 100 (Z.of_nat n).
Proof.
  intros Hall Hgap. split; [lia|]. split; [|exact Hgap].
  intros i Hi. rewrite Forall_forall in Hall. apply Hall.
  apply elem_of_seqZ. lia.
Qed.

(** C7, as stated, fails: with alerts on the 40 days up to day 100 the
    run has length 40 but the router's function, called without a cap,
    returns 31; and the copy in utils/calculate_alerts_days.py called
    without a cap on a run of 100 days returns 91, its default cap
    being 90, not 30. *)
Lemma consecutive_alert_days_counterexample :
  run_length (example_streak 40) 1 1 STOCK_CERO 100 40
  /\ Router.get_consecutive_alert_days (example_streak 40) 1 1 STOCK_CERO
       100 None = 31
  /\ ~ returns_run_length Router.get_consecutive_alert_days
  /\ run_length (example_streak 100) 1 1 STOCK_CERO 100 100
  /\ Utils.get_consecutive_alert_days (example_streak 100) 1 1 STOCK_CERO
       100 None = 91
  /\ ~ returns_run_length Utils.get_consecutive_alert_days
  /\ Utils.default_max_lookback_days <> 30.
Proof.
  assert (run_length (example_streak 40) 1 1 STOCK_CERO 100 40) as H40.
  { apply (example_streak_run 40).
    - by_evaluation.
    - vm_compute. reflexivity. }
  assert (run_length (example_streak 100) 1 1 STOCK_CERO 100 100) as H100.
  { apply (example_streak_run 100).
    - by_evaluation.
    - vm_compute. reflexivity. }
  assert (Router.get_consecutive_alert_days (example_streak 40) 1 1
            STOCK_CERO 100 None = 31) as R40.
  { unfold Router.get_consecutive_alert_days.
    by rewrite (consecutive_alert_days_run _ _ _ _ _ _ _ H40). }
  assert (Utils.get_consecutive_alert_days (example_streak 100) 1 1
            STOCK_CERO 100 None = 91) as U100.
  { unfold Utils.get_consecutive_alert_days.
    by rewrite (consecutive_alert_days_run _ _ _ _ _ _ _ H100). }
  split; [exact H40|]. split; [exact R40|]. split.
  { intros Hf. specialize (Hf _ _ _ _ _ _ H40). rewrite R40 in Hf. lia. }
  split; [exact H100|]. split; [exact U100|]. split.
  { intros Hf. specialize (Hf _ _ _ _ _ _ H100). rewrite U100 in Hf. lia. }
  unfold Utils.default_max_lookback_days. lia.
Qed.

(** C7, amended. With k the length of the unbroken run of alert days
    ending at the end date, both copies of [get_consecutive_alert_days]
    return min(k, cap + 1) (0 for a negative cap): the scan stops at the
    first gap or after cap + 1 days.  Without a cap argument the cap is
    30 for the copy in routers/metrics_router.py and 90 for the copy in
    utils/calculate_alerts_days.py, so alerts on D, D-1, D-2 and none on
    D-3 give 3 with either default, whatever older alerts exist. *)
Theorem consecutive_alert_days_capped (tbl : alerts) (p w : Z)
    (m : MetricName) (D : date) (k : Z) (cap : option Z) :
  run_length tbl p w m D k ->
  Router.get_consecutive_alert_days tbl p w m D cap
    = Z.min k (Z.max 0 (default 30 cap + 1))
  /\ Utils.get_consecutive_alert_days tbl p w m D cap
    = Z.min k (Z.max 0 (default 90 cap + 1))
  /\ (k = 3 ->
      Router.get_consecutive_alert_days tbl p w m D None = 3
      /\ Utils.get_consecutive_alert_days tbl p w m D None = 3).
Proof.
  intros Hrun.
  unfold Router.get_consecutive_alert_days, Utils.get_consecutive_alert_days.
  rewrite !(consecutive_alert_days_run _ _ _ _ _ _ _ Hrun).
  unfold Router.default_max_lookback_days, Utils.default_max_lookback_days.
  split; [reflexivity|]. split; [reflexivity|].
  intros ->. simpl. split; lia.
Qed.

Lemma consecutive_alert_days_capped_witness :
  Router.get_consecutive_alert_days example_gap 1 1 STOCK_CERO 100 None = 3
  /\ Utils.get_consecutive_alert_days example_gap 1 1 STOCK_CERO 100 None = 3.
Proof.
  apply (consecutive_alert_days_capped example_gap 1 1 STOCK_CERO 100 3 None);
    [|reflexivity].
  split; [lia|]. split; [|vm_compute; reflexivity].
  intros i Hi.
  assert (i = 0 \/ i = 1 \/ i = 2) as [-> | [-> | ->]] by lia;
    vm_compute; eexists; reflexivity.
Defined.

(** *** What the loop returns, whatever the alerts *)

Lemma scan_spec (tbl : alerts) (p w : Z) (m : MetricName) (D : date)
    (remaining : nat) :
  forall i acc : Z,
    let n := scan tbl p w m D remaining i acc in
    acc <= n <= acc + Z.of_nat remaining
    /\ (forall j, 0 <= j < n - acc ->
          is_Some (tbl !! (D - (i + j), m, p, w)))
    /\ (n - acc < Z.of_nat remaining ->
          tbl !! (D - (i + (n - acc)), m, p, w) = None).
Proof.
  induction remaining as [|remaining IH]; intros i acc; simpl.
  - repeat split; try lia; intros; lia.
  - unfold alert_exists. case_bool_decide as E.
    + destruct (IH (i + 1) (acc + 1)) as (Hb & Hall & Hstop).
      split; [lia|]. split.
      * intros j Hj. destruct (decide (j = 0)) as [->|Hne].
        -- by replace (i + 0) with i by lia.
        -- replace (i + j) with (i + 1 + (j - 1)) by lia. apply Hall. lia.
      * intros Hlt.
        replace (i + (scan tbl p w m D remaining (i + 1) (acc + 1) - acc))
          with (i + 1 + (scan tbl p w m D remaining (i + 1) (acc + 1)
                         - (acc + 1))) by lia.
        apply Hstop. lia.
    + split; [lia|]. split; [intros j Hj; lia|]. intros _.
      replace (i + (acc - acc)) with i by lia.
      apply eq_None_not_Some. exact E.
Qed.

(** X13. Whatever the alerts, the number [n] that
    [get_consecutive_alert_days] returns for a cap [c] satisfies
    0 <= n <= max(0, c + 1); each of the [n] days ending at the end date
    has an alert; and when [n] is below c + 1 the day before them has
    none.  So the result is 0 exactly when the end date has no alert (or
    the cap is negative), and it never decreases when the cap grows. *)
Theorem consecutive_alert_days_spec (tbl : alerts) (p w : Z)
    (m : MetricName) (D : date) (cap : Z) :
  let n := consecutive_alert_days tbl p w m D cap in
  0 <= n <= Z.max 0 (cap + 1)
  /\ (forall i, 0 <= i < n -> is_Some (tbl !! (D - i, m, p, w)))
  /\ (n < cap + 1 -> tbl !! (D - n, m, p, w) = None)
  /\ (n = 0 <-> cap < 0 \/ tbl !! (D, m, p, w) = None)
  /\ (forall cap', cap <= cap' ->
        n <= consecutive_alert_days tbl p w m D cap').
Proof.
  assert (forall c,
            let n := consecutive_alert_days tbl p w m D c in
            0 <= n <= Z.max 0 (c + 1)
            /\ (forall i, 0 <= i < n -> is_Some (tbl !! (D - i, m, p, w)))
            /\ (n < c + 1 -> tbl !! (D - n, m, p, w) = None)) as Hbase.
  { intros c. unfold consecutive_alert_days.
    destruct (scan_spec tbl p w m D (Z.to_nat (c + 1)) 0 0)
      as (Hb & Hall & Hstop).
    split; [lia|]. split.
    - intros i Hi. specialize (Hall i). rewrite Z.add_0_l in Hall.
      apply Hall. lia.
    - intros Hlt. rewrite Z.sub_0_r, Z.add_0_l in Hstop. apply Hstop. lia. }
  intros n. destruct (Hbase cap) as (Hb & Hall & Hstop). fold n in Hb, Hall, Hstop.
  split; [exact Hb|]. split; [exact Hall|]. split; [exact Hstop|]. split.
  - split.
    + intros Hn. destruct (decide (cap < 0)) as [|Hc]; [by left|right].
      rewrite Hn in Hstop. rewrite Z.sub_0_r in Hstop. apply Hstop. lia.
    + intros [Hc|Hnone]; [lia|].
      destruct (decide (n = 0)) as [|Hne]; [done|exfalso].
      destruct (Hall 0) as [a Ha]; [lia|].
      rewrite Z.sub_0_r in Ha. congruence.
  - intros cap' Hle.
    destruct (Hbase cap') as (Hb' & Hall' & Hstop').
    set (n' := consecutive_alert_days tbl p w m D cap') in *.
    destruct (decide (n <= n')) as [|Hgt]; [done|exfalso].
    destruct (Hall n') as [a Ha]; [lia|].
    rewrite Hstop' in Ha by lia. discriminate.
Qed.

(** *** The copy of the report generator *)

Lemma elem_of_alert_dates (tbl : alerts) (p w : Z) (m : MetricName)
    (D : date) (start d : Z) :
  d ∈ ReportService.alert_dates tbl p w m start D <->
  is_Some (tbl !! (d, m, p, w)) /\ start <= d <= D.
Proof.
  unfold ReportService.alert_dates.
  rewrite elem_of_list_to_set, list_elem_of_fmap. split.
  - intros ([[[[d' m'] p'] w'] a] & -> & Hin).
    apply list_elem_of_filter in Hin as [(<- & <- & <- & Hd) Hin].
    apply elem_of_map_to_list in Hin. simpl in *. split; [by eexists|done].
  - intros [[a Ha] Hd]. exists ((d, m, p, w), a). split; [done|].
    apply list_elem_of_filter. split; [simpl; intuition lia|].
    by apply elem_of_map_to_list.
Qed.

Lemma report_scan_agrees (tbl : alerts) (p w : Z) (m : MetricName)
    (D : date) (cap : Z) (remaining : nat) :
  forall i acc : Z,
    0 <= i -> i + Z.of_nat remaining <= cap + 1 ->
    ReportService.scan (ReportService.alert_dates tbl p w m (D - cap) D) D
      remaining i acc
    = scan tbl p w m D remaining i acc.
Proof.
  induction remaining as [|remaining IH]; intros i acc Hi Hle; simpl; [done|].
  unfold alert_exists.
  destruct (decide (D - i ∈ ReportService.alert_dates tbl p w m (D - cap) D))
    as [Hin|Hnin].
  - apply elem_of_alert_dates in Hin as [Hs _].
    rewrite bool_decide_eq_true_2 by done. apply IH; lia.
  - rewrite bool_decide_eq_false_2; [done|].
    intros Hs. apply Hnin. apply elem_of_alert_dates. split; [done|lia].
Qed.

(** X14. The copy of [get_consecutive_alert_days] in the report
    generator fetches the alert dates of the window once and then counts.
    For an end date that is a date and a cap (30 days by default in both
    copies) such that the first day of the window, end date - cap, is a
    date too, it returns the same number as the copy of the metrics
    router.  For any other cap it raises [OverflowError], whatever the
    alerts. *)
Theorem report_service_copy_agrees (tbl : alerts) (p w : Z)
    (m : MetricName) (D : date) (cap : option Z) :
  date_min <= D <= date_max ->
  let c := default ReportService.default_max_lookback_days cap in
  (date_min <= D - c <= date_max ->
   ReportService.get_consecutive_alert_days tbl p w m D cap
   = Ok (Router.get_consecutive_alert_days tbl p w m D cap))
  /\ (~ date_min <= D - c <= date_max ->
      ReportService.get_consecutive_alert_days tbl p w m D cap
      = Raise OverflowError).
Proof.
  intros HD c.
  unfold ReportService.get_consecutive_alert_days, date_minus_days.
  fold c. split.
  - intros Hc.
    rewrite bool_decide_eq_true_2
      by (unfold date_min, date_max, timedelta_max_days in *; lia).
    rewrite bool_decide_eq_true_2 by done. cbn.
    unfold Router.get_consecutive_alert_days, consecutive_alert_days.
    change Router.default_max_lookback_days
      with ReportService.default_max_lookback_days.
    fold c.
    destruct (decide (ReportService.alert_dates tbl p w m (D - c) D = ∅))
      as [E|_]; f_equal.
    + destruct (Z.to_nat (c + 1)) as [|remaining] eqn:En; simpl; [done|].
      unfold alert_exists. rewrite bool_decide_eq_false_2; [done|].
      intros Hs.
      assert (D ∈ ReportService.alert_dates tbl p w m (D - c) D) as Hin.
      { apply elem_of_alert_dates. split; [|lia].
        by replace (D - 0) with D in Hs by lia. }
      rewrite E in Hin. by apply not_elem_of_empty in Hin.
    + destruct (decide (0 <= c + 1)) as [Hc1|Hc1].
      * apply report_scan_agrees; lia.
      * by replace (Z.to_nat (c + 1)) with 0%nat by lia.
  - intros Hc. case_bool_decide; [|done].
    by rewrite bool_decide_eq_false_2.
Qed.

Lemma report_service_copy_agrees_witness :
  ReportService.get_consecutive_alert_days ∅ 1 1 STOCK_CERO 738000 None
  = Ok (Router.get_consecutive_alert_days ∅ 1 1 STOCK_CERO 738000 None)
  /\ ReportService.get_consecutive_alert_days ∅ 1 1 STOCK_CERO 738000
       (Some 800000)
     = Raise OverflowError.
Proof.
  split.
  - apply (report_service_copy_agrees ∅ 1 1 STOCK_CERO 738000 None);
      vm_compute; split; discriminate.
  - apply (report_service_copy_agrees ∅ 1 1 STOCK_CERO 738000 (Some 800000)).
    + vm_compute. split; discriminate.
    + vm_compute. intros [H _]. by apply H.
Defined.

End AlertDaysSpec.

(** ** Properties of the read endpoint of routers/metrics_router.py *)

Module MetricsRouterSpec.
Import Tenant MetricsRouter.

(** *** The query *)





(** *** The accumulators *)










Lemma sum_Z_cons (a : Z) (l : list Z) : sum_Z (a :: l) = a + sum_Z l.
Proof. reflexivity. Qed.








(** *** The grid and the escalation items *)

Lemma merge_grid_merge_by (l : list MetricGridItem) (x : MetricGridItem) :
  merge_grid l x = merge_by metricId extend_grid l x.
Proof. induction l as [|a l IH]; simpl; [done|]. by rewrite IH. Qed.

Lemma merge_escalation_merge_by (l : list EscalationItem)
    (x : EscalationItem) :
  merge_escalation l x = merge_by esc_name add_escalation l x.
Proof. induction l as [|a l IH]; simpl; [done|]. by rewrite IH. Qed.

Lemma foldl_merge_grid (items : list MetricGridItem) :
  forall l, foldl merge_grid l items
            = foldl (merge_by metricId extend_grid) l items.
Proof.
  induction items as [|x items IH]; intros l; simpl; [done|].
  by rewrite IH, merge_grid_merge_by.
Qed.

Lemma foldl_merge_escalation (items : list EscalationItem) :
  forall l, foldl merge_escalation l items
            = foldl (merge_by esc_name add_escalation) l items.
Proof.
  induction items as [|x items IH]; intros l; simpl; [done|].
  by rewrite IH, merge_escalation_merge_by.
Qed.

Lemma aggregate_grid (raw : list GeneratedMetricReport) :
  forall agg,
    aggregated_grid (foldl aggregate_report agg raw) =
      foldl merge_grid (aggregated_grid agg) (all_grid_items raw).
Proof.
  induction raw as [|row raw IH]; intros agg; simpl; [done|].
  rewrite IH. unfold all_grid_items. simpl. by rewrite foldl_app.
Qed.

Lemma aggregate_escalation (raw : list GeneratedMetricReport) :
  forall agg,
    aggregated_escalation_items (foldl aggregate_report agg raw) =
      foldl merge_escalation (aggregated_escalation_items agg)
        (all_escalation_items raw).
Proof.
  induction raw as [|row raw IH]; intros agg; simpl; [done|].
  rewrite IH. unfold all_escalation_items. simpl. by rewrite foldl_app.
Qed.

Lemma foldl_extend_grid (rest : list MetricGridItem) :
  forall first : MetricGridItem,
    let g := foldl extend_grid first rest in
    grid_name g = grid_name first /\ metricId g = metricId first
    /\ data g = data first ++ concat (data <$> rest).
Proof.
  induction rest as [|x rest IH]; intros first; simpl.
  - by rewrite app_nil_r.
  - destruct (IH (extend_grid first x)) as (H1 & H2 & H3).
    split; [exact H1|]. split; [exact H2|]. rewrite H3. simpl.
    by rewrite <- app_assoc.
Qed.

Lemma foldl_add_escalation (rest : list EscalationItem) :
  forall first : EscalationItem,
    let e := foldl add_escalation first rest in
    esc_name e = esc_name first /\ title e = title first
    /\ value e = value first
    /\ esc_quantity e = esc_quantity first + sum_Z (esc_quantity <$> rest)
    /\ amountAlert e = amountAlert first + sum_Z (amountAlert <$> rest)
    /\ products e = products first ++ concat (products <$> rest).
Proof.
  induction rest as [|x rest IH]; intros first.
  - simpl. rewrite app_nil_r. unfold sum_Z. simpl. repeat split; lia.
  - destruct (IH (add_escalation first x)) as (H1 & H2 & H3 & H4 & H5 & H6).
    rewrite !fmap_cons, !sum_Z_cons. cbn [foldl concat].
    split; [exact H1|]. split; [exact H2|]. split; [exact H3|].
    split; [rewrite H4; simpl; lia|]. split; [rewrite H5; simpl; lia|].
    rewrite H6. simpl. by rewrite <- app_assoc.
Qed.

(** X15. The grid of a range.  For a range with at least one stored
    report the grid of the response has one item per metric id found in
    the reports; the item has the name of the first stored grid item of
    that metric and, as data, the data rows of all stored grid items of
    that metric, concatenated in the order the reports are visited. *)
Theorem range_grid_concatenates :
  forall (default_response : MetricsApiResponse)
         (tbl : list GeneratedMetricReport) (dateInit dateEnd : date)
         (target_warehouse_id : option Z),
    let raw := daily_reports_raw tbl dateInit dateEnd target_warehouse_id in
    let resp := get_company_metrics_report default_response tbl dateInit
                  dateEnd target_warehouse_id in
    raw <> [] ->
    NoDup (metricId <$> resp_grid resp)
    /\ (forall g, g ∈ resp_grid resp ->
          exists first rest,
            filter (fun x => metricId x = metricId g) (all_grid_items raw)
              = first :: rest
            /\ grid_name g = grid_name first
            /\ data g = concat (data <$> first :: rest))
    /\ (forall x, x ∈ all_grid_items raw ->
          exists g, g ∈ resp_grid resp /\ metricId g = metricId x).
Proof.
  intros default_response tbl dateInit dateEnd target raw resp Hraw.
  assert (resp = aggregate_reports raw) as ->.
  { unfold resp, get_company_metrics_report. fold raw. by destruct raw. }
  unfold aggregate_reports, build_response. cbn [resp_grid].
  rewrite aggregate_grid, foldl_merge_grid.
  cbn [aggregated_grid empty_aggregation].
  destruct (foldl_merge_by_spec metricId extend_grid (fun a x => eq_refl)
              (all_grid_items raw)) as (Hnd & Hval & Hcov).
  split; [exact Hnd|]. split; [|exact Hcov].
  intros g Hg. destruct (Hval g Hg) as (first & rest & Hf & ->).
  destruct (foldl_extend_grid rest first) as (H1 & H2 & H3).
  exists first, rest. split; [exact Hf|]. by split.
Qed.

Lemma range_grid_concatenates_witness :
  NoDup (metricId <$> resp_grid
           (get_company_metrics_report example_default_response
              [example_escalation_report 10 5; example_escalation_report 11 6]
              10 11 None)).
Proof.
  refine (proj1 (range_grid_concatenates example_default_response
                   [example_escalation_report 10 5;
                    example_escalation_report 11 6] 10 11 None _)).
  vm_compute. discriminate.
Defined.

Lemma insert_by_alert_days_perm (x : EscalationProductItem)
    (l : list EscalationProductItem) :
  insert_by_alert_days x l ≡ₚ x :: l.
Proof.
  induction l as [|y l IH]; simpl; [done|].
  case_bool_decide; [done|]. rewrite IH. apply Permutation_swap.
Qed.

Lemma sort_by_alert_days_perm (l : list EscalationProductItem) :
  sort_by_alert_days l ≡ₚ l.
Proof.
  induction l as [|x l IH]; simpl; [done|].
  rewrite insert_by_alert_days_perm. by rewrite IH.
Qed.

Lemma insert_by_alert_days_sorted (x : EscalationProductItem)
    (l : list EscalationProductItem) :
  Sorted by_alert_days_desc l ->
  Sorted by_alert_days_desc (insert_by_alert_days x l).
Proof.
  induction l as [|y l IH]; simpl; intros Hs.
  - by repeat constructor.
  - case_bool_decide as Hxy.
    + constructor; [done|]. by constructor.
    + apply Sorted_inv in Hs as [Hs Hhd]. constructor; [by apply IH|].
      destruct l as [|z l]; simpl.
      * constructor. unfold by_alert_days_desc. lia.
      * case_bool_decide; constructor.
        -- unfold by_alert_days_desc. lia.
        -- by apply HdRel_inv in Hhd.
Qed.

Lemma sort_by_alert_days_sorted (l : list EscalationProductItem) :
  StronglySorted by_alert_days_desc (sort_by_alert_days l).
Proof.
  apply Sorted_StronglySorted.
  - intros a b c. unfold by_alert_days_desc. lia.
  - induction l as [|x l IH]; simpl; [constructor|].
    by apply insert_by_alert_days_sorted.
Qed.

Lemma insert_by_alert_days_filter (k : Z) (x : EscalationProductItem)
    (l : list EscalationProductItem) :
  filter (fun y => alertDays y = k) (insert_by_alert_days x l)
  = filter (fun y => alertDays y = k) (x :: l).
Proof.
  induction l as [|y l IH]; simpl; [done|].
  case_bool_decide as Hxy; [done|].
  rewrite filter_cons, IH, !filter_cons.
  destruct (decide (alertDays y = k)), (decide (alertDays x = k));
    try done; lia.
Qed.

Lemma sort_by_alert_days_stable (k : Z) (l : list EscalationProductItem) :
  filter (fun y => alertDays y = k) (sort_by_alert_days l)
  = filter (fun y => alertDays y = k) l.
Proof.
  induction l as [|x l IH]; simpl; [done|].
  rewrite insert_by_alert_days_filter, !filter_cons. by rewrite IH.
Qed.

Lemma StronglySorted_take_drop (l : list EscalationProductItem) (n : nat) :
  StronglySorted by_alert_days_desc l ->
  StronglySorted by_alert_days_desc (take n l)
  /\ forall x y, x ∈ take n l -> y ∈ drop n l -> alertDays y <= alertDays x.
Proof.
  intros Hs. rewrite <- (take_drop n l) in Hs.
  apply StronglySorted_app in Hs as (Hrel & Hl & _).
  split; [exact Hl|]. intros x y Hx Hy. by apply (Hrel x y).
Qed.

(** X16. The ranking of escalated products.  The post-processing of an
    escalation item keeps at most four products, in descending order of
    alert days; they are the first four of a stable sort of the item's
    products (products with equal alert days keep their order), so no
    product left out has more alert days than a product kept.  The
    counters of the item ([quantity], [amountAlert]) are not cut down to
    the products kept. *)
Theorem escalation_ranking (item : EscalationItem) :
  let kept := products (top_products item) in
  (length kept <= 4)%nat
  /\ StronglySorted by_alert_days_desc kept
  /\ (exists rest,
        kept ++ rest ≡ₚ products item
        /\ forall x y, x ∈ kept -> y ∈ rest -> alertDays y <= alertDays x)
  /\ (forall k,
        filter (fun y => alertDays y = k) (sort_by_alert_days (products item))
        = filter (fun y => alertDays y = k) (products item))
  /\ kept = take 4 (sort_by_alert_days (products item))
  /\ amountAlert (top_products item) = amountAlert item
  /\ esc_quantity (top_products item) = esc_quantity item
  /\ esc_name (top_products item) = esc_name item.
Proof.
  simpl.
  destruct (StronglySorted_take_drop _ 4
              (sort_by_alert_days_sorted (products item))) as [Hs Htop].
  split; [rewrite length_take; lia|]. split; [exact Hs|]. split.
  - exists (drop 4 (sort_by_alert_days (products item))).
    split; [|exact Htop]. rewrite take_drop. apply sort_by_alert_days_perm.
  - split; [|done]. intros k. apply sort_by_alert_days_stable.
Qed.

(** X17. The escalation items of a range.  For a range with at least
    one stored report the response has one escalation item per name found
    in the reports; it has the title and threshold of the first stored
    item of that name, as [quantity] and [amountAlert] the sums over all
    stored items of that name, and as products the first four of the
    stable descending sort by alert days of all their products. *)
Theorem range_escalation_sums :
  forall (default_response : MetricsApiResponse)
         (tbl : list GeneratedMetricReport) (dateInit dateEnd : date)
         (target_warehouse_id : option Z),
    let raw := daily_reports_raw tbl dateInit dateEnd target_warehouse_id in
    let resp := get_company_metrics_report default_response tbl dateInit
                  dateEnd target_warehouse_id in
    raw <> [] ->
    NoDup (esc_name <$> resp_products resp)
    /\ (forall e, e ∈ resp_products resp ->
          exists first rest,
            filter (fun x => esc_name x = esc_name e)
                   (all_escalation_items raw) = first :: rest
            /\ title e = title first /\ value e = value first
            /\ esc_quantity e = sum_Z (esc_quantity <$> first :: rest)
            /\ amountAlert e = sum_Z (amountAlert <$> first :: rest)
            /\ products e =
                 take 4 (sort_by_alert_days
                           (concat (products <$> first :: rest))))
    /\ (forall x, x ∈ all_escalation_items raw ->
          exists e, e ∈ resp_products resp /\ esc_name e = esc_name x).
Proof.
  intros default_response tbl dateInit dateEnd target raw resp Hraw.
  assert (resp = aggregate_reports raw) as ->.
  { unfold resp, get_company_metrics_report. fold raw. by destruct raw. }
  unfold aggregate_reports, build_response. cbn [resp_products].
  rewrite aggregate_escalation, foldl_merge_escalation.
  cbn [aggregated_escalation_items empty_aggregation].
  destruct (foldl_merge_by_spec esc_name add_escalation (fun a x => eq_refl)
              (all_escalation_items raw)) as (Hnd & Hval & Hcov).
  split; [|split].
  - rewrite <- list_fmap_compose.
    by replace (esc_name ∘ top_products) with esc_name by done.
  - intros e He. apply list_elem_of_fmap in He as (e0 & -> & He0).
    destruct (Hval e0 He0) as (first & rest & Hf & ->).
    destruct (foldl_add_escalation rest first)
      as (H1 & H2 & H3 & H4 & H5 & H6).
    exists first, rest. cbn [esc_name title value esc_quantity amountAlert
                               products top_products].
    rewrite !fmap_cons, !sum_Z_cons.
    split; [exact Hf|]. split; [exact H2|]. split; [exact H3|].
    split; [exact H4|]. split; [exact H5|]. by rewrite H6.
  - intros x Hx. destruct (Hcov x Hx) as (e & He & Ee).
    exists (top_products e). split; [|exact Ee].
    apply list_elem_of_fmap. by exists e.
Qed.

Lemma range_escalation_sums_witness :
  NoDup (esc_name <$> resp_products
           (get_company_metrics_report example_default_response
              [example_escalation_report 10 5; example_escalation_report 11 6]
              10 11 None)).
Proof.
  refine (proj1 (range_escalation_sums example_default_response
                   [example_escalation_report 10 5;
                    example_escalation_report 11 6] 10 11 None _)).
  vm_compute. discriminate.
Defined.

(** *** The escalation block of [_create_report_for_warehouse] *)

Lemma escalation_candidates_elem (tbl : alerts) (target_date : date)
    (display_config : MetricDisplayConfiguration) (rows : list alert_row)
    (x : EscalationProductItem) :
  x ∈ escalation_candidates tbl target_date display_config rows <->
  exists row, row ∈ rows
    /\ escalates tbl target_date
         (product_number_or_3 (dc_product_number display_config)) row
    /\ ep_name x = ar_product_name row
    /\ alertDays x =
         AlertDays.Router.get_consecutive_alert_days tbl (ar_product_id row)
           (ar_warehouse_id row) (ar_metric_name row) target_date None.
Proof.
  unfold escalation_candidates, escalates. rewrite list_elem_of_omap. split.
  - intros (row & Hrow & Hx). exists row. split; [done|].
    case_bool_decide; [|discriminate]. inversion Hx; subst. by repeat split.
  - intros (row & Hrow & Hesc & Hn & Hd). exists row. split; [done|].
    rewrite bool_decide_eq_true_2 by done. destruct x as [n d].
    simpl in *. by subst.
Qed.

Lemma escalation_candidates_length (tbl : alerts) (target_date : date)
    (display_config : MetricDisplayConfiguration) (rows : list alert_row) :
  length (escalation_candidates tbl target_date display_config rows)
  = length (filter (escalates tbl target_date
                      (product_number_or_3 (dc_product_number display_config)))
                   rows).
Proof.
  unfold escalation_candidates, escalates.
  induction rows as [|row rows IH]; [done|].
  rewrite filter_cons. cbn [omap list_omap].
  case_bool_decide as E.
  - rewrite decide_True by done. simpl. by rewrite IH.
  - by rewrite decide_False by done.
Qed.

(** X18. The escalation item [_create_report_for_warehouse] builds for
    a metric.  The threshold is [product_number] when that is a number
    other than 0, and 3 when it is null or 0.  [amountAlert] counts the
    alerts of the day whose run of consecutive alert days exceeds the
    threshold, [products] lists at most four of them, by descending run,
    and every listed run is above the threshold and at most 31: the run
    is counted with the default cap of 30 days, so a threshold of 31 or
    more never escalates anything. *)
Theorem escalation_item_threshold (tbl : alerts) (target_date : date)
    (display_config : MetricDisplayConfiguration)
    (all_counters : list CounterItem) (rows : list alert_row) :
  let e := escalation_item tbl target_date display_config all_counters rows in
  (forall n, dc_product_number display_config = Some n -> n <> 0 ->
     value e = n)
  /\ (dc_product_number display_config = None
      \/ dc_product_number display_config = Some 0 -> value e = 3)
  /\ amountAlert e
     = Z.of_nat (length (filter (escalates tbl target_date (value e)) rows))
  /\ (length (products e) <= 4)%nat
  /\ StronglySorted by_alert_days_desc (products e)
  /\ (forall x, x ∈ products e ->
        value e < alertDays x <= 31
        /\ exists row, row ∈ rows /\ ep_name x = ar_product_name row
             /\ escalates tbl target_date (value e) row)
  /\ (31 <= value e -> amountAlert e = 0 /\ products e = []).
Proof.
  intros e.
  set (cands := escalation_candidates tbl target_date display_config rows).
  assert (forall x, x ∈ cands ->
            value e < alertDays x <= 31
            /\ exists row, row ∈ rows /\ ep_name x = ar_product_name row
                 /\ escalates tbl target_date (value e) row) as Hcand.
  { intros x Hx.
    apply escalation_candidates_elem in Hx as (row & Hrow & Hesc & Hn & Hd).
    split; [|by exists row].
    unfold escalates in Hesc. rewrite <- Hd in Hesc. split; [exact Hesc|].
    rewrite Hd. unfold AlertDays.Router.get_consecutive_alert_days.
    pose proof (AlertDaysSpec.scan_spec tbl (ar_product_id row)
                  (ar_warehouse_id row) (ar_metric_name row) target_date
                  (Z.to_nat (AlertDays.Router.default_max_lookback_days + 1))
                  0 0) as (Hb & _).
    unfold AlertDays.consecutive_alert_days. simpl default.
    unfold AlertDays.Router.default_max_lookback_days in *. lia. }
  split; [|split; [|split; [|split; [|split; [|split]]]]].
  - intros n Hn Hne. simpl. rewrite Hn. simpl.
    by rewrite decide_False by done.
  - intros [Hn|Hn]; simpl; by rewrite Hn.
  - simpl. rewrite (Permutation_length (sort_by_alert_days_perm _)).
    by rewrite escalation_candidates_length.
  - simpl. rewrite length_take. lia.
  - simpl. apply (StronglySorted_take_drop _ 4), sort_by_alert_days_sorted.
  - intros x Hx. apply Hcand. simpl in Hx.
    apply elem_of_take in Hx as (i & Hx & _).
    apply list_elem_of_lookup_2 in Hx.
    by rewrite sort_by_alert_days_perm in Hx.
  - intros Hbig.
    assert (cands = []) as Hnil.
    { destruct cands as [|x l] eqn:E; [done|exfalso].
      destruct (Hcand x) as [Hx _]; [by left|]. lia. }
    simpl. fold cands. by rewrite Hnil.
Qed.


End MetricsRouterSpec.

(** ** Properties of the password-reset endpoints *)

Module AuthSpec.
Import Auth.

(** The function the endpoint was meant to reach: it stores the hash it
    is given in the row of the user. *)
Lemma update_password_sets_hash (db : list User) (user : User) (h : string)
    (u : User) :
  u ∈ (update_password db user h).1 -> id u = id user ->
  hashed_password u = h /\ email u = email user.
Proof.
  unfold update_password. simpl. intros Hin Hid.
  apply list_elem_of_fmap in Hin as (u0 & -> & _).
  destruct (decide (id u0 = id user)) as [_|Hne]; [by split|].
  by destruct Hne.
Qed.

(** Whatever the valid token and the active user, the endpoint raises. *)
Lemma reset_password_valid_token_raises (cfg : Settings) (now : Z)
    (reset_data : PasswordReset) (db : list User) (email_ : string)
    (user : User) :
  verify_password_reset_token cfg now (token reset_data) = Ok (Some email_) ->
  email_ <> "" ->
  get_user_by_email db email_ = Some user ->
  is_active user = true ->
  reset_password cfg now reset_data db
    = Raise (AttributeError "crud.user_crud" "change_password").
Proof.
  intros Hv Hne Hu Ha. unfold reset_password. rewrite Hv. cbn.
  destruct email_ as [|a e]; [done|]. rewrite Hu, Ha. reflexivity.
Qed.

(** C1, on the code. Ten minutes after a reset token was issued for the
    active user [ana@example.com], [POST /auth/password-reset] with that
    token and a new password verifies the token, finds the user and then
    raises [AttributeError]: [crud.user_crud] has no [change_password].
    No success message is returned and the stored hash stays as it was. *)
Theorem reset_password_attribute_error :
  verify_password_reset_token settings 1600 (token example_reset)
    = Ok (Some "ana@example.com")
  /\ get_user_by_email [example_user] "ana@example.com" = Some example_user
  /\ reset_password settings 1600 example_reset [example_user]
     = Raise (AttributeError "crud.user_crud" "change_password").
Proof. repeat split; reflexivity. Qed.

(** C9. The response body of [POST /auth/password-reset-request] is the
    same fixed message for every email and every state of the user table;
    only the queued background tasks differ: a reset email is queued
    exactly when a user with the email exists. *)
Theorem request_password_reset_no_leak (cfg : Settings) (now : Z)
    (email_ : string) (tasks : list background_task) :
  (forall db db' : list User,
     (request_password_reset cfg now email_ tasks db).2
       = (request_password_reset cfg now email_ tasks db').2)
  /\ (forall db : list User,
        (request_password_reset cfg now email_ tasks db).2 =
          "If an account with that email exists, a password reset link has been sent.")
  /\ (forall db : list User,
        (request_password_reset cfg now email_ tasks db).1 = tasks
        <-> get_user_by_email db email_ = None).
Proof.
  split; [|split].
  - intros db db'. reflexivity.
  - intros db. reflexivity.
  - intros db. unfold request_password_reset. simpl.
    destruct (get_user_by_email db email_) as [u|]; split; try done.
    intros H. apply (f_equal length) in H. rewrite length_app in H.
    simpl in H. lia.
Qed.

(** *** The errors of the reset endpoint *)

(** X23. The password-reset endpoint never answers with success and
    never changes the users table.  It raises, in this order of
    precedence: [KeyError] for a valid token without a subject; 400
    "Invalid or expired token" for a token that does not verify or whose
    subject is empty; 404 "User not found" when no user has the email of
    the token; 400 "Inactive user" for an inactive user; and for every
    valid token of an active user the [AttributeError] of the missing
    [user_crud.change_password]. *)
Theorem reset_password_never_succeeds (cfg : Settings) (now : Z)
    (reset_data : PasswordReset) (db : list User) :
  exists e,
    reset_password cfg now reset_data db = Raise e
    /\ match verify_password_reset_token cfg now (token reset_data) with
       | Raise e' => e = e' /\ e' = KeyError "sub"
       | Ok None => e = HTTPException 400 "Invalid or expired token"
       | Ok (Some email_) =>
           if decide (email_ = "")
           then e = HTTPException 400 "Invalid or expired token"
           else
             match get_user_by_email db email_ with
             | None => e = HTTPException 404 "User not found"
             | Some user =>
                 if is_active user
                 then e = AttributeError "crud.user_crud" "change_password"
                 else e = HTTPException 400 "Inactive user"
             end
       end.
Proof.
  unfold reset_password.
  destruct (verify_password_reset_token cfg now (token reset_data))
    as [[email_|]|e'] eqn:E; cbn.
  - destruct email_ as [|c rest]; [by eexists|].
    destruct (decide (String c rest = "")) as [?|_]; [done|].
    destruct (get_user_by_email db (String c rest)) as [u|]; [|by eexists].
    destruct (is_active u); cbn; by eexists.
  - by eexists.
  - exists e'. split; [done|]. split; [done|].
    unfold verify_password_reset_token in E.
    destruct (jwt_decode _ _ _ _ _) as [d|]; [|discriminate].
    destruct (sub d); [discriminate|]. by inversion E.
Qed.

(** *** Access and refresh tokens *)

Lemma only_refresh_tokens_refresh_lemma (cfg : Settings) (now now' : Z)
    (subject : string) (expires_delta : option Z) :
  verify_refresh_token cfg now' (create_refresh_token cfg now subject None)
    = (if bool_decide (now' <= now + 2592000) then Some subject else None)
  /\ verify_refresh_token cfg now'
       (create_access_token cfg now subject expires_delta) = None
  /\ verify_refresh_token cfg now'
       (create_password_reset_token cfg now subject) = None.
Proof.
  unfold verify_refresh_token, jwt_decode_plain, create_refresh_token,
    create_access_token, create_password_reset_token. simpl.
  rewrite !bool_decide_eq_true_2 by done. simpl.
  split; [|split].
  - unfold REFRESH_TOKEN_EXPIRE_DAYS.
    replace (now + 86400 * 30) with (now + 2592000) by lia.
    by case_bool_decide.
  - rewrite !andb_true_r.
    by destruct (bool_decide _).
  - by rewrite andb_false_r.
Qed.

(** X24. Only refresh tokens refresh.  [verify_refresh_token] returns
    the subject of a token made by [create_refresh_token] with the
    default lifetime exactly while it is not older than 30 days; it
    rejects every token made by [create_access_token] and every
    password-reset token, at any time. *)
Theorem only_refresh_tokens_refresh (cfg : Settings) (now now' : Z)
    (subject : string) (expires_delta : option Z) :
  verify_refresh_token cfg now' (create_refresh_token cfg now subject None)
    = (if bool_decide (now' <= now + 2592000) then Some subject else None)
  /\ verify_refresh_token cfg now'
       (create_access_token cfg now subject expires_delta) = None
  /\ verify_refresh_token cfg now'
       (create_password_reset_token cfg now subject) = None.
Proof. apply only_refresh_tokens_refresh_lemma. Qed.

(** X25. Login, then refresh.  The refresh token of a successful login
    is accepted by the refresh endpoint at any time within the next 30
    days, provided the user still exists and is active: the endpoint
    then issues a new access token (7 days) and a new refresh token (30
    days) for the same email.  The access token of the same login is
    always refused with 401. *)
Theorem login_then_refresh (verify_password : string -> string -> bool)
    (cfg : Settings) (now now' : Z) (login_email login_password : string)
    (db db' : list User) (tk : Token) (user' : User) :
  login_for_access_token verify_password cfg now login_email login_password db
    = Ok tk ->
  login_email <> "" ->
  now' <= now + 2592000 ->
  get_user_by_email db' login_email = Some user' ->
  is_active user' = true ->
  exists tk',
    refresh_access_token cfg now' (refresh_token tk) db' = Ok tk'
    /\ sub (access_token tk') = Some login_email
    /\ sub (refresh_token tk') = Some login_email
    /\ exp (access_token tk') = Some (now' + 604800)
    /\ exp (refresh_token tk') = Some (now' + 2592000)
    /\ refresh_access_token cfg now' (access_token tk) db'
       = Raise (HTTPException 401 "Invalid or expired refresh token").
Proof.
  unfold login_for_access_token. intros Hlogin Hne Hnow Huser Hactive.
  destruct (get_user_by_email db login_email) as [user|] eqn:Eu;
    [|discriminate].
  destruct (verify_password login_password (hashed_password user));
    [|discriminate].
  destruct (is_active user); [|discriminate].
  simpl in Hlogin. inversion Hlogin; subst tk; clear Hlogin.
  assert (email user = login_email) as Hemail.
  { unfold get_user_by_email in Eu.
    assert (user ∈ filter (fun u => email u = login_email) db) as Hin.
    { destruct (filter _ db); [discriminate|]. inversion Eu. by left. }
    by apply list_elem_of_filter in Hin as [? _]. }
  assert (email user' = login_email) as Hemail'.
  { unfold get_user_by_email in Huser.
    assert (user' ∈ filter (fun u => email u = login_email) db') as Hin.
    { destruct (filter _ db'); [discriminate|]. inversion Huser. by left. }
    by apply list_elem_of_filter in Hin as [? _]. }
  destruct (only_refresh_tokens_refresh_lemma cfg now now' (email user)
              (Some (60 * ACCESS_TOKEN_EXPIRE_MINUTES))) as (Hr & Ha & _).
  unfold refresh_access_token. cbn [refresh_token access_token].
  rewrite Hr, Ha, Hemail. rewrite bool_decide_eq_true_2 by done.
  destruct login_email as [|c rest]; [done|].
  rewrite Huser, Hactive. simpl. eexists. split; [reflexivity|].
  rewrite Hemail'. simpl. repeat split; f_equal; unfold
    ACCESS_TOKEN_EXPIRE_MINUTES, REFRESH_TOKEN_EXPIRE_DAYS; lia.
Qed.

Lemma login_then_refresh_witness :
  exists tk',
    refresh_access_token settings 2000
      (create_refresh_token settings 1000 "ana@example.com" None)
      [example_user] = Ok tk'
    /\ sub (access_token tk') = Some "ana@example.com".
Proof.
  destruct (login_then_refresh example_verify settings 1000 2000
              "ana@example.com" "old" [example_user] [example_user]
              {| access_token :=
                   create_access_token settings 1000 "ana@example.com"
                     (Some (60 * ACCESS_TOKEN_EXPIRE_MINUTES));
                 tok_token_type := "bearer";
                 refresh_token :=
                   create_refresh_token settings 1000 "ana@example.com" None |}
              example_user) as (tk' & H1 & H2 & _).
  - vm_compute. reflexivity.
  - discriminate.
  - lia.
  - reflexivity.
  - reflexivity.
  - exists tk'. split; [exact H1|exact H2].
Defined.

(** *** Changing the own password *)

Lemma update_password_rows (db : list User) (user : User) (h : string) :
  NoDup (id <$> db) -> user ∈ db ->
  id <$> (update_password db user h).1 = id <$> db
  /\ email <$> (update_password db user h).1 = email <$> db
  /\ forall u, u ∈ (update_password db user h).1 <->
       (u ∈ db /\ id u <> id user) \/ u = set_hashed_password user h.
Proof.
  intros Hnd Hin. unfold update_password. simpl.
  assert (forall u, u ∈ db -> id u = id user -> u = user) as Huniq.
  { intros u Hu E. by apply (NoDup_fmap_elem id db u user Hnd). }
  split; [|split].
  - rewrite <- list_fmap_compose. apply list_fmap_ext.
    intros i u Hu. simpl. by case_decide.
  - rewrite <- list_fmap_compose. apply list_fmap_ext.
    intros i u Hu. simpl. case_decide as E; [|done].
    apply list_elem_of_lookup_2 in Hu. by rewrite (Huniq u Hu E).
  - intros u. rewrite list_elem_of_fmap. split.
    + intros (u0 & -> & Hu0). case_decide; [by right|by left].
    + intros [[Hu Hne] | ->].
      * exists u. split; [|done]. by rewrite decide_False.
      * exists user. split; [|done]. by rewrite decide_True.
Qed.

(** X26. Changing the own password.  The endpoint refuses with 400 when
    the current password does not verify against the stored hash, and
    when the new password equals the current one; otherwise it stores
    the hash of the new password in the row of the caller and changes
    nothing else: with distinct user ids every other row, and the id and
    email of every row, stay as they were. *)
Theorem change_password_changes_one_hash
    (verify_password : string -> string -> bool)
    (get_password_hash : string -> string)
    (current_password new_password_ : string) (db : list User)
    (current_user : User) :
  NoDup (id <$> db) -> current_user ∈ db ->
  let r := change_current_user_password verify_password get_password_hash
             current_password new_password_ db current_user in
  (verify_password current_password (hashed_password current_user) = false ->
   r = Raise (HTTPException 400 "Incorrect current password"))
  /\ (verify_password current_password (hashed_password current_user) = true ->
      current_password = new_password_ ->
      r = Raise (HTTPException 400
                   "New password cannot be the same as the old password"))
  /\ (verify_password current_password (hashed_password current_user) = true ->
      current_password <> new_password_ ->
      exists db',
        r = Ok db'
        /\ id <$> db' = id <$> db /\ email <$> db' = email <$> db
        /\ forall u, u ∈ db' <->
             (u ∈ db /\ id u <> id current_user)
             \/ u = set_hashed_password current_user
                      (get_password_hash new_password_)).
Proof.
  intros Hnd Hin r. unfold r, change_current_user_password.
  split; [by intros ->|]. split.
  - intros -> ->. simpl. by rewrite decide_True.
  - intros -> Hne. simpl. rewrite decide_False by done.
    eexists. split; [reflexivity|]. by apply update_password_rows.
Qed.

Lemma change_password_changes_one_hash_witness :
  exists db',
    change_current_user_password example_verify example_hash "old" "new-pass"
      [example_user] example_user = Ok db'
    /\ email <$> db' = ["ana@example.com"]
    /\ set_hashed_password example_user (example_hash "new-pass") ∈ db'.
Proof.
  destruct (change_password_changes_one_hash example_verify example_hash
              "old" "new-pass" [example_user] example_user)
    as (_ & _ & H).
  - apply NoDup_singleton.
  - by left.
  - destruct H as (db' & E & _ & Hm & Hin); [reflexivity|discriminate|].
    exists db'. split; [exact E|]. split; [exact Hm|].
    apply Hin. by right.
Defined.

End AuthSpec.

(** ** Properties of bulk ingestion *)

Module TransactionRouterSpec.
Import Tenant TransactionRouter.

Lemma grows_refl (st : task_state) : grows st st.
Proof. by repeat split. Qed.

Lemma grows_trans (st1 st2 st3 : task_state) :
  grows st1 st2 -> grows st2 st3 -> grows st1 st3.
Proof.
  intros (A1 & A2 & A3 & A4) (B1 & B2 & B3 & B4).
  repeat split; eauto.
Qed.

Lemma ingested_grows (lower : string -> string) (db : tables)
    (item : TransactionItemPayload) (st st' : task_state) :
  grows st st' -> ingested lower db item st -> ingested lower db item st'.
Proof.
  intros (G1 & G2 & G3 & G4) (w & Hw & H). exists w. split; [by apply G1|].
  destruct H as [H|(p & t & d & Hp & Ht & Hk & Hd & H)]; [by left|].
  right. exists p, t, d. split; [by apply G2|]. split; [by apply G3|].
  split; [done|]. split; [by apply G4|]. done.
Qed.

(** *** Grouping *)

Lemma group_append_elem
    (groups : list ((string * string) * list TransactionItemPayload))
    (k : string * string) (x : TransactionItemPayload)
    (k' : string * string) (items : list TransactionItemPayload) :
  (k', items) ∈ group_append groups k x ->
  (k', items) ∈ groups
  \/ (k' = k /\ exists items0, items = items0 ++ [x]
                 /\ (items0 = [] \/ (k, items0) ∈ groups)).
Proof.
  induction groups as [|[k0 its0] groups IH]; simpl.
  - intros E%list_elem_of_singleton. inversion E; subst.
    right. split; [done|]. exists []. split; [done|]. by left.
  - destruct (decide (k0 = k)) as [->|Hne].
    + intros [E|Hin]%elem_of_cons.
      * inversion E; subst. right. split; [done|]. exists its0.
        split; [done|]. right. by left.
      * left. by right.
    + intros [E|Hin]%elem_of_cons.
      * inversion E; subst. left. by left.
      * destruct (IH Hin) as [H|(-> & its & -> & H)].
        -- left. by right.
        -- right. split; [done|]. exists its. split; [done|].
           destruct H as [->|H]; [by left|]. right. by right.
Qed.

Lemma group_append_has
    (groups : list ((string * string) * list TransactionItemPayload))
    (k : string * string) (x : TransactionItemPayload) :
  exists items, (k, items) ∈ group_append groups k x /\ x ∈ items.
Proof.
  induction groups as [|[k0 its0] groups IH]; simpl.
  - exists [x]. split; by left.
  - destruct (decide (k0 = k)) as [->|Hne].
    + exists (its0 ++ [x]). split; [by left|].
      apply elem_of_app. right. by left.
    + destruct IH as (items & Hin & Hx). exists items. split; [by right|done].
Qed.

Lemma group_append_keeps
    (groups : list ((string * string) * list TransactionItemPayload))
    (k : string * string) (x : TransactionItemPayload)
    (k' : string * string) (items : list TransactionItemPayload) :
  (k', items) ∈ groups ->
  exists items', (k', items') ∈ group_append groups k x
                 /\ forall it, it ∈ items -> it ∈ items'.
Proof.
  induction groups as [|[k0 its0] groups IH]; simpl.
  - by intros ?%elem_of_nil.
  - intros [E|Hin]%elem_of_cons.
    + inversion E; subst. destruct (decide (k0 = k)) as [->|Hne].
      * exists (its0 ++ [x]). split; [by left|].
        intros it Hit. apply elem_of_app. by left.
      * exists its0. split; [by left|done].
    + destruct (decide (k0 = k)) as [->|Hne].
      * exists items. split; [by right|done].
      * destruct (IH Hin) as (items' & H1 & H2). exists items'.
        split; [by right|done].
Qed.

Lemma grouped_transactions_well_grouped (lower : string -> string)
    (payload : list TransactionItemPayload) :
  well_grouped lower payload (grouped_transactions lower payload).
Proof.
  unfold grouped_transactions.
  induction payload as [|x payload IH] using rev_ind.
  - split.
    + intros k items Hin. by apply elem_of_nil in Hin.
    + intros it Hit. by apply elem_of_nil in Hit.
  - rewrite foldl_app. simpl. destruct IH as [IH1 IH2]. split.
    + intros k items Hin.
      apply group_append_elem in Hin as [Hin|(-> & its0 & -> & H0)].
      * destruct (IH1 _ _ Hin) as [Hne Hall]. split; [done|].
        intros it Hit. destruct (Hall it Hit) as [? ?]. split; [done|].
        apply elem_of_app. by left.
      * split; [by destruct its0|].
        intros it [Hit|Hit%list_elem_of_singleton]%elem_of_app.
        -- destruct H0 as [->|H0]; [by apply elem_of_nil in Hit|].
           destruct (IH1 _ _ H0) as [_ Hall].
           destruct (Hall it Hit) as [? ?]. split; [done|].
           apply elem_of_app. by left.
        -- subst it. split; [done|]. apply elem_of_app. right. by left.
    + intros it [Hit|Hit%list_elem_of_singleton]%elem_of_app.
      * destruct (IH2 it Hit) as (items & Hin & Hx).
        destruct (group_append_keeps _ (item_key lower x) x _ _ Hin)
          as (items' & H1 & H2).
        exists items'. split; [done|]. by apply H2.
      * subst it. apply group_append_has.
Qed.

(** *** The caches *)

Lemma dict_of_lookup {V : Type} (l : list (string * V)) (k : string) (v : V) :
  dict_of l !! k = Some v -> (k, v) ∈ l.
Proof.
  unfold dict_of. induction l as [|[k0 v0] l IH] using rev_ind.
  - simpl. by rewrite lookup_empty.
  - rewrite foldl_app. simpl. intros H.
    destruct (decide (k0 = k)) as [->|Hne].
    + rewrite lookup_insert_eq in H. inversion H; subst.
      apply elem_of_app. right. by left.
    + rewrite lookup_insert_ne in H by done.
      apply elem_of_app. left. by apply IH.
Qed.

Lemma initial_state_ok (lower : string -> string) (db : tables) :
  session_ok lower db (initial_state lower db).
Proof.
  split; [split|].
  - intros k w H. apply dict_of_lookup in H.
    apply list_elem_of_fmap in H as (w' & E & Hin). inversion E; subst.
    by split.
  - intros k p H. apply dict_of_lookup in H.
    apply list_elem_of_fmap in H as (p' & E & Hin). inversion E; subst.
    by split.
  - exists [], []. unfold session_new. simpl. rewrite !app_nil_r.
    repeat split; try done; intros ? Hin; by apply elem_of_nil in Hin.
Qed.

(** *** The steps *)

Lemma get_or_create_warehouse_spec (lower : string -> string) (db : tables)
    (st st' : task_state) (k : string) (first_item : TransactionItemPayload)
    (w : Warehouse) (new_tx : list Transaction) (nd : list DetailRow) :
  caches_ok lower st -> session_new db st new_tx nd ->
  lower (sucursal first_item) = k ->
  get_or_create_warehouse st k first_item = (st', w) ->
  caches_ok lower st' /\ session_new db st' new_tx nd /\ grows st st'
  /\ warehouses_cache st' !! k = Some w.
Proof.
  intros [Hw Hp] Hnew Hk H. unfold get_or_create_warehouse in H.
  destruct (warehouses_cache st !! k) as [w0|] eqn:E; inversion H; subst; clear H.
  - split; [by split|]. split; [exact Hnew|]. split; [by repeat split|done].
  - split; [split|]; simpl.
    + intros k' w' Hl. destruct (decide (lower (sucursal first_item) = k'))
        as [<-|Hne].
      * rewrite lookup_insert_eq in Hl. inversion Hl; subst. simpl.
        split; [|done]. apply elem_of_app. right. by left.
      * rewrite lookup_insert_ne in Hl by done.
        destruct (Hw _ _ Hl) as [? ?]. split; [|done].
        apply elem_of_app. by left.
    + exact Hp.
    + split; [exact Hnew|]. split.
      * repeat split; simpl; try done.
        intros k' w' Hl. rewrite lookup_insert_ne; [done|]. congruence.
      * apply lookup_insert_eq.
Qed.

Lemma get_or_create_product_spec (lower : string -> string) (db : tables)
    (st st' : task_state) (item : TransactionItemPayload) (p : Product)
    (new_tx : list Transaction) (nd : list DetailRow) :
  caches_ok lower st -> session_new db st new_tx nd ->
  get_or_create_product st item = Ok (st', p) ->
  caches_ok lower st' /\ session_new db st' new_tx nd /\ grows st st'
  /\ products_cache st' !! sku item = Some p.
Proof.
  intros [Hw Hp] Hnew H. unfold get_or_create_product in H.
  destruct (products_cache st !! sku item) as [p0|] eqn:E.
  - inversion H; subst; clear H.
    split; [by split|]. split; [exact Hnew|]. split; [apply grows_refl|done].
  - apply bind_Ok in H as (cost & _ & H). inversion H; subst; clear H.
    split; [split|]; simpl.
    + exact Hw.
    + intros k' p' Hl. destruct (decide (sku item = k')) as [<-|Hne].
      * rewrite lookup_insert_eq in Hl. inversion Hl; subst. simpl.
        split; [|done]. apply elem_of_app. right. by left.
      * rewrite lookup_insert_ne in Hl by done.
        destruct (Hp _ _ Hl) as [? ?]. split; [|done].
        apply elem_of_app. by left.
    + split; [exact Hnew|]. split.
      * repeat split; simpl; try done.
        intros k' p' Hl. rewrite lookup_insert_ne; [done|]. congruence.
      * apply lookup_insert_eq.
Qed.

Lemma add_detail_spec (lower : string -> string) (db : tables)
    (t : Transaction) (st st' : task_state) (item : TransactionItemPayload)
    (new_tx : list Transaction) (nd : list DetailRow) :
  caches_ok lower st -> session_new db st new_tx nd -> t ∈ new_tx ->
  add_detail t st item = Ok st' ->
  caches_ok lower st'
  /\ (exists nd', session_new db st' new_tx nd')
  /\ grows st st'
  /\ exists p d,
       products_cache st' !! sku item = Some p
       /\ d ∈ details (session st')
       /\ det_transaction_id d = tx_id t
       /\ det_product_id d = prod_id p
       /\ det_quantity d = cantidad item
       /\ det_movement_type d = tipo item.
Proof.
  intros Hc Hnew Ht H. unfold add_detail in H.
  apply bind_Ok in H as ([st1 p] & H1 & H). inversion H; subst; clear H.
  destruct (get_or_create_product_spec _ _ _ _ _ _ _ _ Hc Hnew H1)
    as ([Hw1 Hp1] & (Htx & Hd & Hkeys & Hdet) & Hg & Hcache).
  split; [by split|]. simpl. split; [|split].
  - eexists (nd ++ [_]). unfold session_new. simpl.
    rewrite Hd, <- app_assoc. split; [exact Htx|]. split; [reflexivity|].
    split; [exact Hkeys|].
    intros d [Hin | Hin%list_elem_of_singleton]%elem_of_app; [by apply Hdet|].
    subst d. exists t. by split.
  - destruct Hg as (G1 & G2 & G3 & G4). repeat split; simpl; try done.
    intros d Hin. apply elem_of_app. left. by apply G4.
  - eexists p, _. split; [exact Hcache|].
    split; [apply elem_of_app; right; by left|]. by repeat split.
Qed.

Lemma detail_attached_grows (t : Transaction) (item : TransactionItemPayload)
    (st st' : task_state) :
  grows st st' -> detail_attached t item st -> detail_attached t item st'.
Proof.
  intros (_ & G2 & _ & G4) (p & d & Hp & Hd & H). exists p, d.
  split; [by apply G2|]. split; [by apply G4|]. done.
Qed.

Lemma process_group_spec (lower : string -> string) (db : tables)
    (st st' : task_state) (k : string * string)
    (items : list TransactionItemPayload) :
  session_ok lower db st ->
  items <> [] -> (forall it, it ∈ items -> item_key lower it = k) ->
  process_group (existing_transactions_cache db) st (k, items) = Ok st' ->
  session_ok lower db st' /\ grows st st'
  /\ forall it, it ∈ items -> ingested lower db it st'.
Proof.
  intros [Hc (new_tx & nd & Hnew)] Hne Hkey H.
  destruct k as [sl ref]. destruct items as [|first_item rest]; [done|].
  unfold process_group in H.
  destruct (get_or_create_warehouse st sl first_item) as [st1 w] eqn:Ew.
  assert (lower (sucursal first_item) = sl) as Hsl.
  { specialize (Hkey first_item (list_elem_of_here _ _)).
    unfold item_key in Hkey. by inversion Hkey. }
  destruct (get_or_create_warehouse_spec _ _ _ _ _ _ _ _ _ Hc Hnew Hsl Ew)
    as (Hc1 & Hnew1 & Hg1 & Hw1).
  destruct (decide ((ref, wh_id w) ∈ existing_transactions_cache db))
    as [Hin|Hout].
  - inversion H; subst st'. split; [split; [done|by exists new_tx, nd]|].
    split; [done|]. intros it Hit. exists w.
    specialize (Hkey it Hit). unfold item_key in Hkey.
    injection Hkey as Hk1 Hk2. rewrite Hk1, Hk2. split; [done|]. by left.
  - set (t := {| tx_id := fresh_id (tx_id <$> transactions (session st1));
                 reference_code := ref;
                 transaction_date := fecha_movimiento first_item;
                 warehouse_id := wh_id w |}) in *.
    set (st2 := {| session :=
                     {| warehouses := warehouses (session st1);
                        products := products (session st1);
                        transactions := transactions (session st1) ++ [t];
                        details := details (session st1) |};
                   warehouses_cache := warehouses_cache st1;
                   products_cache := products_cache st1;
                   affected_warehouse_ids := affected_warehouse_ids st1;
                   affected_products_ids := affected_products_ids st1 |}) in *.
    assert (caches_ok lower st2) as Hc2 by (destruct Hc1; by split).
    assert (session_new db st2 (new_tx ++ [t]) nd) as Hnew2.
    { destruct Hnew1 as (Htx & Hd & Hkeys & Hdet). unfold session_new. simpl.
      rewrite Htx, <- app_assoc. split; [done|]. split; [done|]. split.
      - intros t' [Hin | Hin%list_elem_of_singleton]%elem_of_app;
          [by apply Hkeys|]. by subst t'.
      - intros d Hd'. destruct (Hdet d Hd') as (t' & Ht' & E). exists t'.
        split; [|done]. apply elem_of_app. by left. }
    assert (grows st1 st2) as Hg2.
    { repeat split; simpl; try done. intros t' Ht'. apply elem_of_app. by left. }
    assert (t ∈ new_tx ++ [t]) as Ht by (apply elem_of_app; right; by left).
    pose (P := fun s : task_state =>
                 caches_ok lower s
                 /\ (exists nd', session_new db s (new_tx ++ [t]) nd')
                 /\ grows st2 s).
    destruct (for_each_invariant (add_detail t) P (detail_attached t)
                (first_item :: rest)) with (st := st2) (st' := st')
      as ((Hc' & Hnew' & Hg') & _ & HQ).
    + intros s it s' _ (HcS & (ndS & HnS) & HgS) Hb.
      destruct (add_detail_spec _ _ _ _ _ _ _ _ HcS HnS Ht Hb)
        as (Ha & Hb' & Hgr & Hdet).
      split; [|exact Hdet]. split; [done|]. split; [done|].
      by eapply grows_trans.
    + intros s it s' b _ (HcS & (ndS & HnS) & HgS) HQb Hb.
      destruct (add_detail_spec _ _ _ _ _ _ _ _ HcS HnS Ht Hb)
        as (_ & _ & Hgr & _).
      by eapply detail_attached_grows.
    + split; [done|]. split; [by exists nd|apply grows_refl].
    + exact H.
    + assert (grows st1 st') as Hg1' by (by eapply grows_trans).
      split; [split; [done|]|].
      { destruct Hnew' as (nd' & Hn'). by exists (new_tx ++ [t]), nd'. }
      split; [by eapply grows_trans|].
      intros it Hit. exists w.
      specialize (Hkey it Hit). unfold item_key in Hkey.
      injection Hkey as Hk1 Hk2. rewrite Hk1, Hk2.
      split; [by apply Hg1'|]. right.
      destruct (HQ it Hit) as (p & d & Hp & Hd & Hrest).
      exists p, t, d. split; [done|]. split.
      { destruct Hg' as (_ & _ & G3 & _). apply G3. simpl.
        apply elem_of_app. right. by left. }
      split; [reflexivity|]. by split.
Qed.

Lemma add_detail_total (t : Transaction) (st : task_state)
    (item : TransactionItemPayload) :
  (0 < cantidad item -> is_Some (costo item)) ->
  exists st', add_detail t st item = Ok st'.
Proof.
  intros Hcost. unfold add_detail, get_or_create_product.
  destruct (products_cache st !! sku item) as [p|]; [by eexists|].
  unfold new_product_cost. case_bool_decide as Hq.
  - destruct (Hcost Hq) as [c ->]. by eexists.
  - by eexists.
Qed.

Lemma process_group_total (existing : gset (string * Z)) (st : task_state)
    (k : string * string) (items : list TransactionItemPayload) :
  items <> [] ->
  (forall it, it ∈ items -> 0 < cantidad it -> is_Some (costo it)) ->
  exists st', process_group existing st (k, items) = Ok st'.
Proof.
  intros Hne Hcost. destruct k as [sl ref].
  destruct items as [|first_item rest]; [done|]. unfold process_group.
  destruct (get_or_create_warehouse st sl first_item) as [st1 w].
  case_decide; [by eexists|].
  apply for_each_total. intros s it Hit. apply add_detail_total.
  by apply Hcost.
Qed.

(** What a completed run of the loop over the groups has stored. *)
Lemma bulk_run_ingested (lower : string -> string) (db : tables)
    (payload : list TransactionItemPayload) (st' : task_state) :
  for_each (process_group (existing_transactions_cache db))
    (initial_state lower db) (grouped_transactions lower payload) = Ok st' ->
  (forall it, it ∈ payload ->
     exists w, w ∈ warehouses (session st')
       /\ lower (wh_name w) = lower (sucursal it)
       /\ ((transaccion it, wh_id w) ∈ existing_transactions_cache db
           \/ exists p t d,
                p ∈ products (session st') /\ code p = sku it
                /\ t ∈ transactions (session st')
                /\ tx_key t = (transaccion it, wh_id w)
                /\ d ∈ details (session st')
                /\ det_transaction_id d = tx_id t
                /\ det_product_id d = prod_id p
                /\ det_quantity d = cantidad it
                /\ det_movement_type d = tipo it))
  /\ exists new_tx new_details,
       transactions (session st') = transactions db ++ new_tx
       /\ details (session st') = details db ++ new_details
       /\ (forall t, t ∈ new_tx ->
             tx_key t ∉ existing_transactions_cache db)
       /\ (forall d, d ∈ new_details ->
             exists t, t ∈ new_tx /\ det_transaction_id d = tx_id t).
Proof.
  intros Hrun.
  destruct (grouped_transactions_well_grouped lower payload) as [Hg1 Hg2].
  destruct (for_each_invariant
              (process_group (existing_transactions_cache db))
              (session_ok lower db)
              (fun g st => forall it, it ∈ g.2 -> ingested lower db it st)
              (grouped_transactions lower payload))
    with (st := initial_state lower db) (st' := st')
    as ([[Hw Hp] (new_tx & nd & Hnew)] & _ & HQ).
  - intros st [k items] st1 Hin Hok Hb.
    destruct (Hg1 _ _ Hin) as [Hne Hall].
    destruct (process_group_spec _ _ _ _ _ _ Hok Hne
                (fun it Hit => proj1 (Hall it Hit)) Hb) as (? & ? & ?).
    by split.
  - intros st [k items] st1 g Hin Hok HQg Hb it Hit.
    destruct (Hg1 _ _ Hin) as [Hne Hall].
    destruct (process_group_spec _ _ _ _ _ _ Hok Hne
                (fun it Hit => proj1 (Hall it Hit)) Hb) as (_ & Hgr & _).
    eapply ingested_grows; [exact Hgr|]. by apply HQg.
  - apply initial_state_ok.
  - exact Hrun.
  - split; [|by exists new_tx, nd].
    intros it Hit. destruct (Hg2 it Hit) as (items & Hin & Hit').
    destruct (HQ _ Hin it Hit') as (w & Hcw & H).
    destruct (Hw _ _ Hcw) as [Hwin Hwname].
    exists w. split; [done|]. split; [done|].
    destruct H as [H|(p & t & d & Hcp & Ht & Hk & Hd & Hrest)]; [by left|].
    right. destruct (Hp _ _ Hcp) as [Hpin Hpcode].
    destruct Hrest as (? & ? & ? & ?).
    exists p, t, d. repeat (split; [done|]). done.
Qed.

(** X27. What a commit of the bulk task means.  When the task commits,
    every payload item has its warehouse (matched through [lower]) and
    either its transaction was already in the table, or its product
    exists and its detail is attached to a transaction of that reference
    code and warehouse; the only new transactions have keys that were not
    in the table, and the only new details belong to new transactions. *)
Theorem bulk_commit_stores_every_item (lower : string -> string)
    (db db' : tables) (payload : list TransactionItemPayload) :
  _process_bulk_transactions_task lower db payload = (db', None) ->
  (forall it, it ∈ payload ->
     exists w, w ∈ warehouses db'
       /\ lower (wh_name w) = lower (sucursal it)
       /\ ((transaccion it, wh_id w) ∈ existing_transactions_cache db
           \/ exists p t d,
                p ∈ products db' /\ code p = sku it
                /\ t ∈ transactions db'
                /\ tx_key t = (transaccion it, wh_id w)
                /\ d ∈ details db'
                /\ det_transaction_id d = tx_id t
                /\ det_product_id d = prod_id p
                /\ det_quantity d = cantidad it
                /\ det_movement_type d = tipo it))
  /\ exists new_tx new_details,
       transactions db' = transactions db ++ new_tx
       /\ details db' = details db ++ new_details
       /\ (forall t, t ∈ new_tx ->
             tx_key t ∉ existing_transactions_cache db)
       /\ (forall d, d ∈ new_details ->
             exists t, t ∈ new_tx /\ det_transaction_id d = tx_id t).
Proof.
  unfold _process_bulk_transactions_task.
  destruct (for_each (process_group (existing_transactions_cache db))
              (initial_state lower db) (grouped_transactions lower payload))
    as [st'|e] eqn:E; [|discriminate].
  intros [= <-]. by apply bulk_run_ingested.
Qed.

Lemma bulk_commit_stores_every_item_witness :
  exists db' w,
    _process_bulk_transactions_task ascii_lower empty_tables
      [example_item "Central" "T1" "NEW" 1 (Some 5%Q)] = (db', None)
    /\ w ∈ warehouses db'
    /\ ascii_lower (wh_name w) = ascii_lower "Central".
Proof.
  assert (exists db',
            _process_bulk_transactions_task ascii_lower empty_tables
              [example_item "Central" "T1" "NEW" 1 (Some 5%Q)] = (db', None))
    as [db' E] by (eexists; vm_compute; reflexivity).
  destruct (bulk_commit_stores_every_item ascii_lower empty_tables db' _ E)
    as [Hitems _].
  destruct (Hitems (example_item "Central" "T1" "NEW" 1 (Some 5%Q)))
    as (w & Hw & Hname & _); [by left|].
  by exists db', w.
Defined.

(** In the embedding, where a column holds any integer and any string, a
    cost on every item of positive quantity is all the task needs to
    reach its commit. *)
Lemma bulk_ingestion_with_costs (lower : string -> string) (db : tables)
    (payload : list TransactionItemPayload) :
  (forall it, it ∈ payload -> 0 < cantidad it -> is_Some (costo it)) ->
  exists db',
    _process_bulk_transactions_task lower db payload = (db', None)
    /\ (forall it, it ∈ payload ->
          exists w, w ∈ warehouses db'
            /\ lower (wh_name w) = lower (sucursal it)
            /\ ((transaccion it, wh_id w) ∈ existing_transactions_cache db
                \/ exists p t d,
                     p ∈ products db' /\ code p = sku it
                     /\ t ∈ transactions db'
                     /\ tx_key t = (transaccion it, wh_id w)
                     /\ d ∈ details db'
                     /\ det_transaction_id d = tx_id t
                     /\ det_product_id d = prod_id p
                     /\ det_quantity d = cantidad it
                     /\ det_movement_type d = tipo it))
    /\ exists new_tx new_details,
         transactions db' = transactions db ++ new_tx
         /\ details db' = details db ++ new_details
         /\ (forall t, t ∈ new_tx ->
               tx_key t ∉ existing_transactions_cache db)
         /\ (forall d, d ∈ new_details ->
               exists t, t ∈ new_tx /\ det_transaction_id d = tx_id t).
Proof.
  intros Hcost. unfold _process_bulk_transactions_task.
  destruct (grouped_transactions_well_grouped lower payload) as [Hg1 _].
  destruct (for_each_total
              (process_group (existing_transactions_cache db))
              (grouped_transactions lower payload)) with
    (st := initial_state lower db) as [st' Hrun].
  { intros st [k items] Hin. destruct (Hg1 _ _ Hin) as [Hne Hall].
    apply process_group_total; [done|].
    intros it Hit. apply Hcost. by apply Hall. }
  rewrite Hrun. exists (session st'). split; [reflexivity|].
  by apply bulk_run_ingested.
Qed.

(** C10, on the code. A payload item for an unknown product that leaves
    the optional [costo] out and has a positive quantity makes the task
    raise a [TypeError] ([Decimal(None)]) while it creates the product:
    the session is rolled back and no Warehouse, Product, Transaction or
    detail row is created.  The same item with a cost is ingested: the
    warehouse and the product are created and the detail is attached. *)
Theorem bulk_unknown_product_without_cost :
  _process_bulk_transactions_task ascii_lower empty_tables
    [example_item "Central" "T1" "NEW" 1 None]
    = (empty_tables, Some TypeError)
  /\ _process_bulk_transactions_task ascii_lower empty_tables
       [example_item "Central" "T1" "NEW" 1 (Some 5%Q)]
     = ({| warehouses := [{| wh_id := 1; wh_name := "Central" |}];
           products := [{| prod_id := 1; prod_name := "Producto";
                           code := "NEW"; prod_category := None;
                           prod_cost := Some (5 / 1)%Q |}];
           transactions := [{| tx_id := 1; reference_code := "T1";
                               transaction_date := 10; warehouse_id := 1 |}];
           details := [{| det_transaction_id := 1; det_product_id := 1;
                          det_quantity := 1; det_unit_cost := Some (5 / 1)%Q;
                          det_movement_type := VENTA |}] |},
        None).
Proof. split; vm_compute; reflexivity. Qed.

(** *** The groups of a payload *)

Lemma group_append_merge_by (lower : string -> string)
    (groups : list ((string * string) * list TransactionItemPayload))
    (item : TransactionItemPayload) :
  group_append groups (item_key lower item) item
  = merge_by fst join_groups groups (singleton_group lower item).
Proof.
  induction groups as [|[k items] groups IH]; simpl; [done|].
  destruct (decide (k = item_key lower item)); [done|]. by rewrite IH.
Qed.

Lemma grouped_transactions_merge_by (lower : string -> string)
    (payload : list TransactionItemPayload) :
  forall groups,
    foldl (fun groups item =>
             group_append groups (lower (sucursal item), transaccion item) item)
          groups payload
    = foldl (merge_by fst join_groups) groups
        (singleton_group lower <$> payload).
Proof.
  induction payload as [|x payload IH]; intros groups; simpl; [done|].
  rewrite IH. f_equal. apply group_append_merge_by.
Qed.

Lemma foldl_join_groups
    (rest : list ((string * string) * list TransactionItemPayload)) :
  forall first,
    foldl join_groups first rest
    = (first.1, first.2 ++ concat (snd <$> rest)).
Proof.
  induction rest as [|x rest IH]; intros first; simpl.
  - rewrite app_nil_r. by destruct first.
  - rewrite IH. simpl. by rewrite <- app_assoc.
Qed.

Lemma filter_singleton_groups (lower : string -> string) (k : string * string)
    (payload : list TransactionItemPayload) :
  concat (snd <$> filter (fun g => g.1 = k) (singleton_group lower <$> payload))
  = filter (fun it => item_key lower it = k) payload.
Proof.
  induction payload as [|x payload IH]; [done|].
  rewrite fmap_cons, !filter_cons. simpl.
  destruct (decide (item_key lower x = k)); [|exact IH].
  rewrite fmap_cons. cbn [concat snd singleton_group app]. by rewrite IH.
Qed.

Lemma grouped_transactions_keys_NoDup (lower : string -> string)
    (payload : list TransactionItemPayload) :
  NoDup (fst <$> grouped_transactions lower payload).
Proof.
  unfold grouped_transactions. rewrite grouped_transactions_merge_by.
  by destruct (foldl_merge_by_spec fst join_groups (fun a x => eq_refl)
                 (singleton_group lower <$> payload)) as (Hnd & _).
Qed.

(** X19. Grouping.  The task groups the payload by (lower-cased
    warehouse name, reference code): the keys of the groups are distinct,
    every group holds exactly the payload items of its key, in payload
    order, none is empty, and every payload item is in the group of its
    key. *)
Theorem grouped_transactions_partition (lower : string -> string)
    (payload : list TransactionItemPayload) :
  let groups := grouped_transactions lower payload in
  NoDup (fst <$> groups)
  /\ (forall k items, (k, items) ∈ groups ->
        items <> []
        /\ items = filter (fun it => item_key lower it = k) payload)
  /\ (forall it, it ∈ payload ->
        exists items, (item_key lower it, items) ∈ groups /\ it ∈ items).
Proof.
  unfold grouped_transactions. rewrite grouped_transactions_merge_by.
  destruct (foldl_merge_by_spec fst join_groups (fun a x => eq_refl)
              (singleton_group lower <$> payload)) as (Hnd & Hval & Hcov).
  split; [exact Hnd|].
  assert (forall k items,
            (k, items)
              ∈ foldl (merge_by fst join_groups) []
                  (singleton_group lower <$> payload) ->
            items <> []
            /\ items = filter (fun it => item_key lower it = k) payload)
    as Hgroups.
  { intros k items Hin.
    destruct (Hval _ Hin) as (first & rest & Hf & Hg). simpl in Hf.
    rewrite foldl_join_groups in Hg. injection Hg as Hk Hitems.
    assert (first ∈ filter (fun g => g.1 = k)
                      (singleton_group lower <$> payload)) as Hfirst
      by (rewrite Hf; by left).
    apply list_elem_of_filter in Hfirst as [_ Hfirst].
    apply list_elem_of_fmap in Hfirst as (it & Hit & _).
    split; [rewrite Hitems, Hit; simpl; discriminate|].
    rewrite <- filter_singleton_groups, Hf, Hitems. reflexivity. }
  split; [exact Hgroups|].
  intros it Hit.
  destruct (Hcov (singleton_group lower it)) as ([k items] & Hin & Hk).
  { apply list_elem_of_fmap. by exists it. }
  simpl in Hk. subst k. exists items. split; [done|].
  destruct (Hgroups _ _ Hin) as [_ ->]. by apply list_elem_of_filter.
Qed.

(** *** Rows are only appended *)

Lemma dict_of_snoc {V : Type} (l : list (string * V)) (k : string) (v : V) :
  dict_of (l ++ [(k, v)]) = <[ k := v ]> (dict_of l).
Proof. unfold dict_of. by rewrite foldl_app. Qed.

Lemma dict_of_None {V : Type} (l : list (string * V)) (k : string) :
  dict_of l !! k = None -> k ∉ l.*1.
Proof.
  induction l as [|[k0 v0] l IH] using rev_ind; [by intros _ ?%elem_of_nil|].
  rewrite dict_of_snoc, fmap_app. intros H.
  destruct (decide (k0 = k)) as [->|Hne].
  - by rewrite lookup_insert_eq in H.
  - rewrite lookup_insert_ne in H by done.
    intros [Hin|Hin%list_elem_of_singleton]%elem_of_app; [by apply IH|].
    simpl in Hin. congruence.
Qed.

Lemma rows_kept_refl (db : tables) : rows_kept db db.
Proof. by repeat split. Qed.

Lemma get_or_create_warehouse_invariant (lower : string -> string)
    (db : tables) (st st' : task_state) (sl : string)
    (first_item : TransactionItemPayload) (w : Warehouse) :
  task_invariant lower db st ->
  lower (sucursal first_item) = sl ->
  get_or_create_warehouse st sl first_item = (st', w) ->
  task_invariant lower db st'.
Proof.
  intros ([Hcw Hcp] & (K1 & K2 & K3 & K4) & Hu) Hsl H.
  unfold get_or_create_warehouse in H.
  destruct (warehouses_cache st !! sl) as [w0|] eqn:E; inversion H; subst;
    clear H.
  - exact (conj (conj Hcw Hcp) (conj (conj K1 (conj K2 (conj K3 K4))) Hu)).
  - split; [split|split]; simpl.
    + rewrite fmap_app. simpl. by rewrite dict_of_snoc, Hcw.
    + exact Hcp.
    + split; [by apply prefix_app_r|]. exact (conj K2 (conj K3 K4)).
    + intros Hdb. destruct (Hu Hdb) as [Hn1 Hn2]. split; [|exact Hn2].
      simpl. rewrite fmap_app. apply NoDup_app. split; [exact Hn1|]. split.
      * intros k Hk ->%list_elem_of_singleton. simpl in Hk.
        rewrite Hcw in E. apply dict_of_None in E. apply E.
        by rewrite <- list_fmap_compose.
      * apply NoDup_singleton.
Qed.

Lemma add_detail_invariant (lower : string -> string) (db : tables)
    (t : Transaction) (st st' : task_state) (item : TransactionItemPayload) :
  task_invariant lower db st ->
  add_detail t st item = Ok st' ->
  task_invariant lower db st'.
Proof.
  intros ([Hcw Hcp] & (K1 & K2 & K3 & K4) & Hu) H. unfold add_detail in H.
  apply bind_Ok in H as ([st1 p] & H1 & H). inversion H; subst; clear H.
  unfold get_or_create_product in H1.
  destruct (products_cache st !! sku item) as [p0|] eqn:E.
  - inversion H1; subst; clear H1.
    split; [by split|]. split; [|exact Hu].
    split; [done|]. split; [done|]. split; [done|]. simpl.
    by apply prefix_app_r.
  - apply bind_Ok in H1 as (cost & _ & H1). inversion H1; subst; clear H1.
    split; [split|split]; simpl.
    + exact Hcw.
    + rewrite fmap_app. simpl. by rewrite dict_of_snoc, Hcp.
    + split; [done|]. split; [by apply prefix_app_r|]. split; [done|].
      by apply prefix_app_r.
    + intros Hdb. destruct (Hu Hdb) as [Hn1 Hn2]. split; [exact Hn1|].
      simpl. rewrite fmap_app. apply NoDup_app. split; [exact Hn2|]. split.
      * intros k Hk ->%list_elem_of_singleton. simpl in Hk.
        rewrite Hcp in E. apply dict_of_None in E. apply E.
        by rewrite <- list_fmap_compose.
      * apply NoDup_singleton.
Qed.

Lemma process_group_invariant (lower : string -> string) (db : tables)
    (existing : gset (string * Z)) (st st' : task_state)
    (k : string * string) (items : list TransactionItemPayload) :
  task_invariant lower db st ->
  (forall it, it ∈ items -> item_key lower it = k) ->
  process_group existing st (k, items) = Ok st' ->
  task_invariant lower db st'.
Proof.
  intros Hinv Hkey H. destruct k as [sl ref].
  destruct items as [|first_item rest]; [done|]. unfold process_group in H.
  destruct (get_or_create_warehouse st sl first_item) as [st1 w] eqn:Ew.
  assert (lower (sucursal first_item) = sl) as Hsl.
  { specialize (Hkey first_item (list_elem_of_here _ _)).
    unfold item_key in Hkey. by inversion Hkey. }
  pose proof (get_or_create_warehouse_invariant _ _ _ _ _ _ _ Hinv Hsl Ew)
    as Hinv1.
  destruct (decide ((ref, wh_id w) ∈ existing)) as [Hin|Hout];
    [by inversion H; subst|].
  revert H.
  match goal with
  | |- for_each _ ?s _ = _ -> _ => assert (task_invariant lower db s) as Hinv2
  end.
  { destruct Hinv1 as (Hc & (K1 & K2 & K3 & K4) & Hu).
    split; [exact Hc|]. split; [|exact Hu].
    split; [done|]. split; [done|]. split; [|done]. simpl.
    by apply prefix_app_r. }
  intros H.
  eapply for_each_preserves; [|exact Hinv2|exact H].
  intros s it s' _ Hs Hb. by eapply add_detail_invariant.
Qed.

Lemma bulk_run_invariant (lower : string -> string) (db : tables)
    (payload : list TransactionItemPayload) (st' : task_state) :
  for_each (process_group (existing_transactions_cache db))
    (initial_state lower db) (grouped_transactions lower payload) = Ok st' ->
  task_invariant lower db st'.
Proof.
  intros H.
  destruct (grouped_transactions_well_grouped lower payload) as [Hg1 _].
  eapply for_each_preserves; [| |exact H].
  - intros st [k items] st1 Hin Hinv Hb.
    destruct (Hg1 _ _ Hin) as [_ Hall].
    eapply process_group_invariant; [exact Hinv| |exact Hb].
    intros it Hit. by apply Hall.
  - split; [by split|]. split; [apply rows_kept_refl|done].
Qed.

(** X20. The bulk task only appends.  Whatever the payload, the task
    either fails and leaves the four tables as they were (rollback), or
    commits tables that hold every earlier warehouse, product,
    transaction and detail row unchanged and in place, followed by the
    new rows: an existing product keeps its name, category and cost even
    when the payload gives others.  If no two warehouses had the same
    name up to case and no two products the same code before, the same
    holds afterwards. *)
Theorem bulk_task_only_appends (lower : string -> string) (db : tables)
    (payload : list TransactionItemPayload) :
  let r := _process_bulk_transactions_task lower db payload in
  (r.2 <> None -> r.1 = db)
  /\ rows_kept db r.1
  /\ (names_unique lower db -> names_unique lower r.1).
Proof.
  unfold _process_bulk_transactions_task.
  destruct (for_each (process_group (existing_transactions_cache db))
              (initial_state lower db) (grouped_transactions lower payload))
    as [st'|e] eqn:E; simpl.
  - destruct (bulk_run_invariant _ _ _ _ E) as (_ & Hk & Hu).
    split; [done|]. by split.
  - split; [done|]. split; [apply rows_kept_refl|done].
Qed.

(** *** Submitting a payload again *)

Lemma bulk_run_spec (lower : string -> string) (db : tables)
    (payload : list TransactionItemPayload) (st' : task_state) :
  for_each (process_group (existing_transactions_cache db))
    (initial_state lower db) (grouped_transactions lower payload) = Ok st' ->
  session_ok lower db st'
  /\ forall it, it ∈ payload -> ingested lower db it st'.
Proof.
  intros Hrun.
  destruct (grouped_transactions_well_grouped lower payload) as [Hg1 Hg2].
  destruct (for_each_invariant
              (process_group (existing_transactions_cache db))
              (session_ok lower db)
              (fun g st => forall it, it ∈ g.2 -> ingested lower db it st)
              (grouped_transactions lower payload))
    with (st := initial_state lower db) (st' := st') as (Hok & _ & HQ).
  - intros st [k items] st1 Hin Hok Hb.
    destruct (Hg1 _ _ Hin) as [Hne Hall].
    destruct (process_group_spec _ _ _ _ _ _ Hok Hne
                (fun it Hit => proj1 (Hall it Hit)) Hb) as (? & ? & ?).
    by split.
  - intros st [k items] st1 g Hin Hok HQg Hb it Hit.
    destruct (Hg1 _ _ Hin) as [Hne Hall].
    destruct (process_group_spec _ _ _ _ _ _ Hok Hne
                (fun it Hit => proj1 (Hall it Hit)) Hb) as (_ & Hgr & _).
    eapply ingested_grows; [exact Hgr|]. by apply HQg.
  - apply initial_state_ok.
  - exact Hrun.
  - split; [exact Hok|]. intros it Hit.
    destruct (Hg2 it Hit) as (items & Hin & Hit'). by apply (HQ _ Hin).
Qed.

Lemma elem_of_existing_transactions_cache (db : tables) (k : string * Z) :
  k ∈ existing_transactions_cache db <->
  exists t, t ∈ transactions db /\ tx_key t = k.
Proof.
  unfold existing_transactions_cache.
  rewrite elem_of_list_to_set, list_elem_of_fmap. unfold tx_key.
  split; intros (t & H1 & H2); exists t; by split.
Qed.

(** X21. Submitting a payload again changes nothing.  When the task has
    committed a payload, running it again with the same payload on the
    committed tables commits exactly the same tables: every group is
    skipped, so no warehouse, product, transaction or detail row is
    created a second time, even for items whose cost is missing. *)
Theorem bulk_resubmission_changes_nothing (lower : string -> string)
    (db db1 : tables) (payload : list TransactionItemPayload) :
  _process_bulk_transactions_task lower db payload = (db1, None) ->
  _process_bulk_transactions_task lower db1 payload = (db1, None).
Proof.
  unfold _process_bulk_transactions_task.
  destruct (for_each (process_group (existing_transactions_cache db))
              (initial_state lower db) (grouped_transactions lower payload))
    as [st'|e] eqn:E; [|discriminate].
  intros [= <-].
  destruct (bulk_run_spec _ _ _ _ E) as ([_ (new_tx & nd & Hnew)] & Hing).
  destruct (bulk_run_invariant _ _ _ _ E) as ([Hcw _] & _).
  destruct (grouped_transactions_well_grouped lower payload) as [Hg1 _].
  destruct (for_each_total_invariant
              (process_group (existing_transactions_cache (session st')))
              (fun st => session st = session st'
                         /\ warehouses_cache st = warehouses_cache st')
              (grouped_transactions lower payload))
    with (st := initial_state lower (session st')) as (st2 & -> & Hs & _).
  - intros st [[sl ref] items] Hin [Hs Hc].
    destruct (Hg1 _ _ Hin) as [Hne Hall].
    destruct items as [|first_item rest]; [done|].
    destruct (Hall first_item) as [Hkey Hpay]; [by left|].
    destruct (Hing _ Hpay) as (w & Hw & Hdone).
    unfold item_key in Hkey. injection Hkey as Hk1 Hk2.
    unfold process_group, get_or_create_warehouse.
    rewrite Hc, <- Hk1, Hw. simpl.
    rewrite decide_True; [by eexists|].
    apply elem_of_existing_transactions_cache. rewrite <- Hk2.
    destruct Hdone as [Hold|(p & t & d & _ & Ht & Hk & _)]; [|by exists t].
    apply elem_of_existing_transactions_cache in Hold as (t & Ht & Hk).
    exists t. split; [|done].
    destruct Hnew as (Htx & _). rewrite Htx. apply elem_of_app. by left.
  - split; [done|]. simpl. by rewrite Hcw.
  - by rewrite Hs.
Qed.

Lemma bulk_resubmission_changes_nothing_witness :
  let db1 :=
    {| warehouses := [{| wh_id := 1; wh_name := "Central" |}];
       products := [{| prod_id := 1; prod_name := "Producto";
                       code := "NEW"; prod_category := None;
                       prod_cost := Some (5 / 1)%Q |}];
       transactions := [{| tx_id := 1; reference_code := "T1";
                           transaction_date := 10; warehouse_id := 1 |}];
       details := [{| det_transaction_id := 1; det_product_id := 1;
                      det_quantity := 1; det_unit_cost := Some (5 / 1)%Q;
                      det_movement_type := VENTA |}] |} in
  _process_bulk_transactions_task ascii_lower db1
    [example_item "Central" "T1" "NEW" 1 (Some 5%Q)] = (db1, None).
Proof.
  intros db1.
  apply (bulk_resubmission_changes_nothing ascii_lower empty_tables db1).
  vm_compute. reflexivity.
Defined.

(** *** The unique keys *)

Lemma fresh_id_fresh (ids : list Z) : fresh_id ids ∉ ids.
Proof.
  assert (forall x, x ∈ ids -> x <= foldr Z.max 0 ids) as Hmax.
  { induction ids as [|y ids IH]; intros x Hx; [by apply elem_of_nil in Hx|].
    simpl. apply elem_of_cons in Hx as [->|Hx]; [lia|].
    specialize (IH x Hx). lia. }
  intros Hin. specialize (Hmax _ Hin). unfold fresh_id in Hmax. lia.
Qed.

Lemma coherent_cache_lookup (lower : string -> string) (st : task_state)
    (k : string) (w : Warehouse) :
  caches_coherent lower st -> warehouses_cache st !! k = Some w ->
  w ∈ warehouses (session st) /\ lower (wh_name w) = k.
Proof.
  intros [Hcw _] H. rewrite Hcw in H. apply dict_of_lookup in H.
  apply list_elem_of_fmap in H as (w' & E & Hin). inversion E; subst.
  by split.
Qed.

Lemma add_detail_frame (t : Transaction) (st st' : task_state)
    (item : TransactionItemPayload) :
  add_detail t st item = Ok st' ->
  warehouses (session st') = warehouses (session st)
  /\ transactions (session st') = transactions (session st)
  /\ warehouses_cache st' = warehouses_cache st.
Proof.
  unfold add_detail, get_or_create_product. intros H.
  apply bind_Ok in H as ([st1 p] & H1 & H). inversion H; subst; clear H.
  destruct (products_cache st !! sku item) as [p0|].
  - by inversion H1; subst.
  - apply bind_Ok in H1 as (cost & _ & H1). by inversion H1; subst.
Qed.

Lemma process_group_traced (lower : string -> string) (db : tables)
    (done : list (string * string)) (st st' : task_state)
    (sl ref : string) (items : list TransactionItemPayload) :
  task_invariant lower db st -> keys_unique (session st) ->
  transactions_traced db done st ->
  (sl, ref) ∉ done ->
  (forall it, it ∈ items -> item_key lower it = (sl, ref)) ->
  process_group (existing_transactions_cache db) st ((sl, ref), items)
    = Ok st' ->
  keys_unique (session st')
  /\ transactions_traced db (done ++ [(sl, ref)]) st'.
Proof.
  intros Hinv [Hids Hkeys] Htr Hnew Hkey H.
  destruct items as [|first_item rest]; [done|]. unfold process_group in H.
  destruct (get_or_create_warehouse st sl first_item) as [st1 w] eqn:Ew.
  assert (lower (sucursal first_item) = sl) as Hsl.
  { specialize (Hkey first_item (list_elem_of_here _ _)).
    unfold item_key in Hkey. by inversion Hkey. }
  pose proof (get_or_create_warehouse_invariant _ _ _ _ _ _ _ Hinv Hsl Ew)
    as (Hcoh1 & _ & _).
  assert (keys_unique (session st1)
          /\ transactions (session st1) = transactions (session st)
          /\ warehouses_cache st1 !! sl = Some w
          /\ forall k w0, warehouses_cache st !! k = Some w0 ->
               warehouses_cache st1 !! k = Some w0) as (Hu1 & Ht1 & Hw1 & Hg1).
  { unfold get_or_create_warehouse in Ew.
    destruct (warehouses_cache st !! sl) as [w0|] eqn:E;
      inversion Ew; subst; clear Ew; unfold keys_unique; simpl.
    - by repeat split.
    - split; [split; [|done]|split; [done|split]].
      + rewrite fmap_app. apply NoDup_app. split; [done|]. split.
        * intros x Hx ->%list_elem_of_singleton.
          by apply fresh_id_fresh in Hx.
        * apply NoDup_singleton.
      + apply lookup_insert_eq.
      + intros k w0 Hk. rewrite lookup_insert_ne; [done|]. congruence. }
  assert (transactions_traced db done st1) as Htr1.
  { intros t Ht. rewrite Ht1 in Ht.
    destruct (Htr t Ht) as [?|(sl0 & w0 & Hd & Hc & Hid)]; [by left|].
    right. exists sl0, w0. split; [done|]. split; [by apply Hg1|done]. }
  assert (forall s, transactions_traced db done s ->
            transactions_traced db (done ++ [(sl, ref)]) s) as Hmore.
  { intros s Hs t Ht.
    destruct (Hs t Ht) as [?|(sl0 & w0 & Hd & Hc & Hid)]; [by left|].
    right. exists sl0, w0. split; [|done]. apply elem_of_app. by left. }
  destruct (decide ((ref, wh_id w) ∈ existing_transactions_cache db))
    as [Hin|Hout].
  { inversion H; subst st'. split; [exact Hu1|by apply Hmore]. }
  revert H.
  set (t := {| tx_id := fresh_id (tx_id <$> transactions (session st1));
               reference_code := ref;
               transaction_date := fecha_movimiento first_item;
               warehouse_id := wh_id w |}).
  match goal with
  | |- for_each _ ?s _ = _ -> _ => set (st2 := s)
  end.
  intros H.
  assert (warehouses (session st') = warehouses (session st2)
          /\ transactions (session st') = transactions (session st2)
          /\ warehouses_cache st' = warehouses_cache st2) as (Fw & Ft & Fc).
  { eapply (for_each_preserves (add_detail t)
              (fun s => warehouses (session s) = warehouses (session st2)
                        /\ transactions (session s) = transactions (session st2)
                        /\ warehouses_cache s = warehouses_cache st2));
      [|by repeat split|exact H].
    intros s it s' _ (A1 & A2 & A3) Hb.
    apply add_detail_frame in Hb as (B1 & B2 & B3).
    split; [congruence|]. split; congruence. }
  destruct Hu1 as [Hids1 Hkeys1]. split; [split|].
  - by rewrite Fw.
  - rewrite Ft. simpl. rewrite fmap_app. apply NoDup_app.
    split; [exact Hkeys1|]. split; [|apply NoDup_singleton].
    intros k Hk ->%list_elem_of_singleton.
    apply list_elem_of_fmap in Hk as (t0 & Hk0 & Ht0).
    destruct (Htr1 t0 Ht0) as [Hdb|(sl0 & w0 & Hd & Hc & Hid)].
    + apply Hout. apply elem_of_existing_transactions_cache.
      exists t0. split; [done|]. by rewrite <- Hk0.
    + unfold tx_key in Hk0. simpl in Hk0. injection Hk0 as Href Hwid.
      destruct (coherent_cache_lookup _ _ _ _ Hcoh1 Hc) as [Hin0 Hn0].
      destruct (coherent_cache_lookup _ _ _ _ Hcoh1 Hw1) as [Hin1 Hn1].
      assert (w0 = w) as ->.
      { apply (NoDup_fmap_elem wh_id (warehouses (session st1)));
          [done..|congruence]. }
      apply Hnew. rewrite Href. congruence.
  - intros t0 Ht0. rewrite Ft in Ht0. simpl in Ht0.
    apply elem_of_app in Ht0 as [Ht0|Ht0%list_elem_of_singleton].
    + rewrite Fc. simpl. by apply (Hmore st1 Htr1).
    + subst t0. right. exists sl, w. split; [apply elem_of_app; right; by left|].
      split; [by rewrite Fc|done].
Qed.

Lemma bulk_run_traced (lower : string -> string) (db : tables)
    (groups : list ((string * string) * list TransactionItemPayload)) :
  (forall k items, (k, items) ∈ groups ->
     forall it, it ∈ items -> item_key lower it = k) ->
  forall (done : list (string * string)) (st st' : task_state),
    NoDup (done ++ (fst <$> groups)) ->
    task_invariant lower db st -> keys_unique (session st) ->
    transactions_traced db done st ->
    for_each (process_group (existing_transactions_cache db)) st groups
      = Ok st' ->
    keys_unique (session st').
Proof.
  induction groups as [|[[sl ref] items] groups IH];
    intros Hwf done st st' Hnd Hinv Hu Htr H; simpl in H.
  - by inversion H; subst.
  - apply bind_Ok in H as (st1 & H1 & H2).
    assert (forall it, it ∈ items -> item_key lower it = (sl, ref)) as Hkey
      by (apply Hwf; by left).
    assert ((sl, ref) ∉ done) as Hnew.
    { intros Hin. apply NoDup_app in Hnd as (_ & Hdis & _).
      apply (Hdis _ Hin). by left. }
    destruct (process_group_traced _ _ _ _ _ _ _ _ Hinv Hu Htr Hnew Hkey H1)
      as [Hu1 Htr1].
    apply (IH (fun k its Hin => Hwf k its (list_elem_of_further _ _ _ Hin))
              (done ++ [(sl, ref)]) st1 st'); [|
      by eapply process_group_invariant|done..].
    by rewrite <- app_assoc.
Qed.

(** X22. The bulk task never stores two transactions with the same
    reference code and warehouse.  When the warehouses have distinct ids
    and the transactions distinct (reference code, warehouse) keys, as
    the primary key and the constraint [_reference_code_warehouse_uc]
    require, the tables the task commits have them too: the skip test,
    the grouping and the warehouse cache together never lead to an
    insert the constraint would reject. *)
Theorem bulk_task_respects_unique_keys (lower : string -> string)
    (db db' : tables) (payload : list TransactionItemPayload) :
  keys_unique db ->
  _process_bulk_transactions_task lower db payload = (db', None) ->
  keys_unique db'.
Proof.
  unfold _process_bulk_transactions_task. intros Hu.
  destruct (for_each (process_group (existing_transactions_cache db))
              (initial_state lower db) (grouped_transactions lower payload))
    as [st'|e] eqn:E; [|discriminate].
  intros [= <-].
  destruct (grouped_transactions_well_grouped lower payload) as [Hg1 _].
  apply (bulk_run_traced lower db (grouped_transactions lower payload))
    with (done := []) (st := initial_state lower db); [| | |done| |done].
  - intros k items Hin it Hit. by apply (Hg1 _ _ Hin).
  - apply grouped_transactions_keys_NoDup.
  - split; [by split|]. split; [apply rows_kept_refl|done].
  - intros t Ht. by left.
Qed.

Lemma bulk_task_respects_unique_keys_witness :
  keys_unique
    {| warehouses := [{| wh_id := 1; wh_name := "Central" |}];
       products := [{| prod_id := 1; prod_name := "Producto";
                       code := "NEW"; prod_category := None;
                       prod_cost := Some (5 / 1)%Q |}];
       transactions := [{| tx_id := 1; reference_code := "T1";
                           transaction_date := 10; warehouse_id := 1 |}];
       details := [{| det_transaction_id := 1; det_product_id := 1;
                      det_quantity := 1; det_unit_cost := Some (5 / 1)%Q;
                      det_movement_type := VENTA |}] |}.
Proof.
  apply (bulk_task_respects_unique_keys ascii_lower empty_tables _
           [example_item "Central" "T1" "NEW" 1 (Some 5%Q)]).
  - split; constructor.
  - vm_compute. reflexivity.
Defined.

End TransactionRouterSpec.
